(** * nmea2gpx: a shallow embedding of [nmea2gpx.py] and its specification

    The development follows the layout of the Python module:
    - [PyStr]: the [str] operations the module relies on;
    - [PyFloat]: Python's [float] as IEEE 754 binary64 ([SpecFloat] at
      precision 53, maximal exponent 1024), with [float()], [int()] and
      fixed-point formatting;
    - the coordinate validators;
    - the sentence classes ([GSA], [VTG], [GSV], [RMC], [GGA]) and
      [NMEASentence.parse];
    - [parse_nmea_stream], [group_nmea_points] and [GPXWriter.add_trackpoint];
    - the properties of the specification. *)

From Stdlib Require Import ZArith QArith Qabs List Bool Ascii String Lia.
From Stdlib Require Import Floats.SpecFloat.
Import ListNotations.

Local Open Scope string_scope.
Local Open Scope Z_scope.

(** ** Python strings

    A [str] is modelled as a [string] of one-byte code points.  The lines the
    converter reads are decoded as ASCII (see [parse_nmea_stream]); the
    operations below follow Python on code points below 256. *)

Module PyStr.

Definition code (c : ascii) : Z := Z.of_N (N_of_ascii c).

(** [str.isspace] on one code point: TAB..CR, FS..US, space, NEL and NBSP. *)
Definition is_space (c : ascii) : bool :=
  let n := code c in
  ((9 <=? n) && (n <=? 13)) || ((28 <=? n) && (n <=? 32))
  || (n =? 133) || (n =? 160).

Definition is_empty (s : string) : bool :=
  match s with EmptyString => true | String _ _ => false end.

(** Truth value of a [str]: non-empty. *)
Definition truthy (s : string) : bool := negb (is_empty s).

Fixpoint lstrip (s : string) : string :=
  match s with
  | EmptyString => EmptyString
  | String c r => if is_space c then lstrip r else s
  end.

Fixpoint rstrip (s : string) : string :=
  match s with
  | EmptyString => EmptyString
  | String c r =>
      let r' := rstrip r in
      if is_space c && is_empty r' then EmptyString else String c r'
  end.

(** [s.strip()] *)
Definition strip (s : string) : string := rstrip (lstrip s).

(** [s.replace(c, '')] for a one-character [c]. *)
Fixpoint remove_char (c : ascii) (s : string) : string :=
  match s with
  | EmptyString => EmptyString
  | String a r =>
      if Ascii.eqb a c then remove_char c r else String a (remove_char c r)
  end.

Definition NUL : ascii := Ascii.zero.

(** [c in s] for a one-character [c]. *)
Fixpoint contains (c : ascii) (s : string) : bool :=
  match s with
  | EmptyString => false
  | String a r => Ascii.eqb a c || contains c r
  end.

(** [s.split(sep)] for a one-character separator: always at least one
    piece. *)
Fixpoint split (sep : ascii) (s : string) : list string :=
  match s with
  | EmptyString => [EmptyString]
  | String a r =>
      if Ascii.eqb a sep then EmptyString :: split sep r
      else match split sep r with
           | hd :: tl => String a hd :: tl
           | [] => [String a EmptyString]
           end
  end.

Definition startswith (c : ascii) (s : string) : bool :=
  match s with
  | String a _ => Ascii.eqb a c
  | EmptyString => false
  end.

(** [s[n:]] *)
Fixpoint drop (n : nat) (s : string) : string :=
  match n, s with
  | O, _ => s
  | S n', String _ r => drop n' r
  | S _, EmptyString => EmptyString
  end.

(** [s[:n]] *)
Fixpoint take (n : nat) (s : string) : string :=
  match n, s with
  | S n', String a r => String a (take n' r)
  | _, _ => EmptyString
  end.

(** [s[a:b]] for [0 <= a <= b]. *)
Definition slice (a b : nat) (s : string) : string := take (b - a) (drop a s).

Definition upper_char (c : ascii) : ascii :=
  let n := code c in
  if (97 <=? n) && (n <=? 122) then ascii_of_N (Z.to_N (n - 32)) else c.

(** [s.upper()] on ASCII text. *)
Fixpoint upper (s : string) : string :=
  match s with
  | EmptyString => EmptyString
  | String a r => String (upper_char a) (upper r)
  end.

Definition hex_digit (n : Z) : ascii :=
  if n <? 10 then ascii_of_N (Z.to_N (48 + n))
  else ascii_of_N (Z.to_N (55 + n)).

(** [f"{n:02X}"] for [0 <= n < 256]. *)
Definition hex2 (n : Z) : string :=
  String (hex_digit (n / 16)) (String (hex_digit (n mod 16)) EmptyString).

Definition digit_char (n : Z) : ascii := ascii_of_N (Z.to_N (48 + n)).

(** Decimal digits of a non-negative integer, most significant first. *)
Fixpoint digits_fuel (fuel : nat) (n : Z) (acc : string) : string :=
  match fuel with
  | O => acc
  | S f =>
      let acc' := String (digit_char (n mod 10)) acc in
      if n <? 10 then acc' else digits_fuel f (n / 10) acc'
  end.

Definition digits (n : Z) : string :=
  digits_fuel (S (Z.to_nat (Z.log2 n))) n EmptyString.

(** [str(n)] for an [int]. *)
Definition of_int (n : Z) : string :=
  if n <? 0 then String "-" (digits (- n)) else digits n.

Fixpoint zeros (n : nat) : string :=
  match n with
  | O => EmptyString
  | S n' => String "0" (zeros n')
  end.

(** Left padding with ['0'] up to width [w], as the [0w] format flag does. *)
Definition pad_zero (w : nat) (s : string) : string :=
  zeros (w - String.length s) ++ s.

(** [sep.join(l)] *)
Fixpoint join (sep : string) (l : list string) : string :=
  match l with
  | [] => EmptyString
  | [x] => x
  | x :: tl => x ++ sep ++ join sep tl
  end.

End PyStr.

(** ** Exceptions and logging

    A Python call either returns a value or raises.  Only the class of the
    exception is kept, since that is what the [except] clauses of the module
    dispatch on. *)

Inductive exn : Type :=
| ValueError
| IndexError
| OverflowError
| ChecksumError.

Inductive result (A : Type) : Type :=
| Ok (a : A)
| Raise (e : exn).

Arguments Ok {A} a.
Arguments Raise {A} e.

Definition rbind {A B : Type} (r : result A) (k : A -> result B) : result B :=
  match r with
  | Ok a => k a
  | Raise e => Raise e
  end.

Declare Scope py_scope.
Delimit Scope py_scope with py.

Notation "'let?' x ':=' r 'in' k" := (rbind r (fun x => k))
  (at level 10, x pattern, r at level 100, k at level 200) : py_scope.

Local Open Scope py_scope.

(** [l[i]]: an out-of-range index raises [IndexError]. *)
Definition index {A : Type} (l : list A) (i : nat) : result A :=
  match nth_error l i with
  | Some a => Ok a
  | None => Raise IndexError
  end.

(** [len(l) > i] *)
Definition len_gt {A : Type} (l : list A) (i : nat) : bool :=
  (i <? List.length l)%nat.

(** ** Python numbers

    An [int] is a [Z].  A [float] is an IEEE 754 binary64 number: a
    [spec_float] handled with the operations of [SpecFloat] at precision 53
    and maximal exponent 1024, all rounding to nearest, ties to even. *)

Module PyFloat.

Definition float : Type := spec_float.

Definition prec : Z := 53.
Definition emax : Z := 1024.

Definition add (x y : float) : float := SFadd prec emax x y.
Definition sub (x y : float) : float := SFsub prec emax x y.
Definition mul (x y : float) : float := SFmul prec emax x y.
Definition div (x y : float) : float := SFdiv prec emax x y.
Definition neg (x : float) : float := SFopp x.
Definition abs (x : float) : float := SFabs x.
Definition eqb (x y : float) : bool := SFeqb x y.
Definition ltb (x y : float) : bool := SFltb x y.
Definition leb (x y : float) : bool := SFleb x y.

(** The nearest float to an integer; an infinity when it is out of range. *)
Definition of_Z (z : Z) : float := binary_normalize prec emax z 0 false.

(** The nearest float to [m * 10 ^ e10], for a mantissa [m >= 0] carrying
    the sign [s] apart. *)
Definition of_decimal (s : bool) (m : Z) (e10 : Z) : float :=
  match m with
  | Zpos p =>
      if 0 <=? e10
      then binary_normalize prec emax (cond_Zopp s (m * 10 ^ e10)) 0 false
      else SFdiv prec emax (S754_finite s p 0)
                 (S754_finite false (Z.to_pos (10 ^ (- e10))) 0)
  | _ => S754_zero s
  end.

Definition zero : float := S754_zero false.

(** [bool(x)]: [x != 0.0]; a NaN is true. *)
Definition truthy (x : float) : bool := negb (eqb x zero).

(** [float(n)] for an [int], as the mixed [int]/[float] arithmetic does
    implicitly. *)
Definition of_int (z : Z) : result float :=
  match of_Z z with
  | S754_infinity _ => Raise OverflowError
  | x => Ok x
  end.

(** [int(x)]: truncation towards zero. *)
Definition to_int (x : float) : result Z :=
  match x with
  | S754_zero _ => Ok 0
  | S754_nan => Raise ValueError
  | S754_infinity _ => Raise OverflowError
  | S754_finite s m e =>
      Ok (cond_Zopp s (if 0 <=? e then Z.shiftl (Zpos m) e
                       else Z.shiftr (Zpos m) (- e)))
  end.

(** *** [int(s)] and [float(s)] for a [str] *)

Definition is_digit (c : ascii) : bool :=
  (48 <=? PyStr.code c) && (PyStr.code c <=? 57).

Definition digit_val (c : ascii) : Z := PyStr.code c - 48.

(** The rest of a [digitpart], [(["_"] digit)*]: the accumulated value, the
    number of digits read and the unread suffix. *)
Fixpoint scan_digits (s : string) (acc : Z) (n : Z) : Z * Z * string :=
  match s with
  | String c r =>
      if is_digit c then scan_digits r (10 * acc + digit_val c) (n + 1)
      else if Ascii.eqb c "_" then
        match r with
        | String d r' =>
            if is_digit d
            then scan_digits r' (10 * acc + digit_val d) (n + 1)
            else (acc, n, s)
        | EmptyString => (acc, n, s)
        end
      else (acc, n, s)
  | EmptyString => (acc, n, s)
  end.

(** [digitpart ::= digit (["_"] digit)*], continuing the value [acc]. *)
Definition digitpart (s : string) (acc : Z) : option (Z * Z * string) :=
  match s with
  | String c r =>
      if is_digit c then Some (scan_digits r (10 * acc + digit_val c) 1)
      else None
  | EmptyString => None
  end.

(** An optional sign: [true] for ["-"]. *)
Definition sign (s : string) : bool * string :=
  match s with
  | String c r =>
      if Ascii.eqb c "-" then (true, r)
      else if Ascii.eqb c "+" then (false, r)
      else (false, s)
  | EmptyString => (false, s)
  end.

(** The characters [int] and [float] skip around a number: the ASCII
    whitespace, TAB..CR and space, and NEL and NBSP, which the conversion
    of a [str] first turns into spaces.  FS..US are whitespace for
    [str.strip] but not here: a number next to one of them is refused. *)
Definition is_space (c : ascii) : bool :=
  let n := PyStr.code c in
  ((9 <=? n) && (n <=? 13)) || (n =? 32) || (n =? 133) || (n =? 160).

Fixpoint lstrip (s : string) : string :=
  match s with
  | EmptyString => EmptyString
  | String c r => if is_space c then lstrip r else s
  end.

Fixpoint rstrip (s : string) : string :=
  match s with
  | EmptyString => EmptyString
  | String c r =>
      let r' := rstrip r in
      if is_space c && PyStr.is_empty r' then EmptyString else String c r'
  end.

(** The text of the number, without the whitespace around it. *)
Definition strip (s : string) : string := rstrip (lstrip s).

(** [int(s)], base 10. *)
Definition int_of_string (s : string) : result Z :=
  let '(neg, body) := sign (strip s) in
  match digitpart body 0 with
  | Some (v, _, EmptyString) => Ok (cond_Zopp neg v)
  | _ => Raise ValueError
  end.

(** [exponent ::= ("e" | "E") [sign] digitpart], or nothing. *)
Definition exponent (s : string) : option Z :=
  match s with
  | EmptyString => Some 0
  | String c r =>
      if Ascii.eqb c "e" || Ascii.eqb c "E" then
        let '(neg, body) := sign r in
        match digitpart body 0 with
        | Some (v, _, EmptyString) => Some (cond_Zopp neg v)
        | _ => None
        end
      else None
  end.

(** [number ::= [digitpart] "." digitpart | digitpart ["."]]: the digits
    read as one integer, the number of them after the point, and the unread
    suffix. *)
Definition number (s : string) : option (Z * Z * string) :=
  match digitpart s 0 with
  | Some (ip, _, String c r) =>
      if Ascii.eqb c "." then
        match digitpart r ip with
        | Some (m, nfrac, rest) => Some (m, nfrac, rest)
        | None => Some (ip, 0, r)
        end
      else Some (ip, 0, String c r)
  | Some (ip, _, EmptyString) => Some (ip, 0, EmptyString)
  | None =>
      match s with
      | String c r => if Ascii.eqb c "." then digitpart r 0 else None
      | EmptyString => None
      end
  end.

(** [float(s)]: surrounding whitespace, a sign, then a decimal number with
    an optional exponent, or [inf], [infinity] or [nan] in any case. *)
Definition float_of_string (s : string) : result float :=
  let '(neg, body) := sign (strip s) in
  let word := PyStr.upper body in
  if String.eqb word "INF" || String.eqb word "INFINITY"
  then Ok (S754_infinity neg)
  else if String.eqb word "NAN" then Ok S754_nan
  else
    match number body with
    | Some (m, nfrac, rest) =>
        match exponent rest with
        | Some e => Ok (of_decimal neg m (e - nfrac))
        | None => Raise ValueError
        end
    | None => Raise ValueError
    end.

(** *** Fixed-point formatting, [f"{x:.nf}"] *)

(** [x * 10 ^ n] rounded to the nearest integer, ties to even, for a finite
    positive [x = m * 2 ^ e]. *)
Definition scaled_round (n : nat) (m : positive) (e : Z) : Z :=
  let p10 := 10 ^ Z.of_nat n in
  if 0 <=? e then Z.shiftl (Zpos m) e * p10
  else
    let num := Zpos m * p10 in
    let den := 2 ^ (- e) in
    let q := num / den in
    let r := num mod den in
    match 2 * r ?= den with
    | Lt => q
    | Gt => q + 1
    | Eq => if Z.even q then q else q + 1
    end.

Definition fixed_digits (n : nat) (v : Z) : string :=
  let p10 := 10 ^ Z.of_nat n in
  match n with
  | O => PyStr.digits v
  | S _ =>
      PyStr.digits (v / p10) ++ "." ++ PyStr.pad_zero n (PyStr.digits (v mod p10))
  end.

Definition format_fixed (n : nat) (x : float) : string :=
  match x with
  | S754_nan => "nan"
  | S754_infinity s => if s then "-inf" else "inf"
  | S754_zero s => (if s then "-" else "") ++ fixed_digits n 0
  | S754_finite s m e =>
      (if s then "-" else "") ++ fixed_digits n (scaled_round n m e)
  end.

End PyFloat.

Definition float : Type := PyFloat.float.

(** ** Coordinate validation *)

(** [90.0], [180.0] and [0.0001] as the interpreter reads them. *)
Definition f90 : float := Eval vm_compute in PyFloat.of_decimal false 90 0.
Definition f180 : float := Eval vm_compute in PyFloat.of_decimal false 180 0.
Definition f0_0001 : float := Eval vm_compute in PyFloat.of_decimal false 1 (-4).

(** [-90.0 <= lat <= 90.0] *)
Definition validate_latitude (lat : float) : bool :=
  PyFloat.leb (PyFloat.neg f90) lat && PyFloat.leb lat f90.

(** [-180.0 <= lon <= 180.0] *)
Definition validate_longitude (lon : float) : bool :=
  PyFloat.leb (PyFloat.neg f180) lon && PyFloat.leb lon f180.

Definition validate_coordinates (lat lon : float) : bool :=
  validate_latitude lat && validate_longitude lon.

Definition err_zero : string := "Zero coordinates detected (likely GPS startup)".
Definition err_null_island : string := "Coordinates at null island (0,0) - likely invalid".
Definition err_near_zero : string := "Coordinates very close to zero (suspicious)".
Definition err_pole : string := "Latitude at pole - verify if correct".
Definition err_meridian : string := "Longitude at 180th meridian - verify if correct".

Definition detect_gps_errors (lat lon : float) : list string :=
  let errors :=
    if PyFloat.eqb lat PyFloat.zero && PyFloat.eqb lon PyFloat.zero
    then [err_zero; err_null_island]
    else if PyFloat.ltb (PyFloat.abs lat) f0_0001
            && PyFloat.ltb (PyFloat.abs lon) f0_0001
    then [err_near_zero]
    else [] in
  let errors :=
    if PyFloat.eqb (PyFloat.abs lat) f90 then (errors ++ [err_pole])%list else errors in
  let errors :=
    if PyFloat.eqb (PyFloat.abs lon) f180 then (errors ++ [err_meridian])%list else errors in
  errors.

Definition rejectable_errors : list string :=
  [err_zero; err_near_zero; err_null_island].

(** [error in errors] *)
Definition str_in (error : string) (errors : list string) : bool :=
  existsb (String.eqb error) errors.

Definition should_reject_coordinates (lat lon : float) (strict : bool) : bool :=
  if negb strict then false
  else
    let errors := detect_gps_errors lat lon in
    existsb (fun error => str_in error errors) rejectable_errors.

(** ** Logging

    A log record keeps the level, the call site and the values that the
    message is formatted from, not the formatted text. *)

Inductive level : Type := DEBUG | INFO | WARNING | ERROR.

Inductive message : Type :=
| Invalid_latitude (cls : string) (lat : float)
| Invalid_longitude (cls : string) (lon : float)
| Coordinate_issue (cls : string) (error : string) (lat lon : float)
| Rejecting_coordinates (cls : string) (lat lon : float)
| Failed_checksum_raw (line : string)
| Failed_checksum_sentence (sentence : string)
| Failed_checksum_part (checksum : string)
| Failed_checksum_calculated (calc : string)
| Error_parsing_line (e : exn)
| Error_reading_file (e : exn).

Definition log_record : Type := level * message.

(** A computation that logs and then returns or raises. *)
Definition M (A : Type) : Type := list log_record * result A.

Definition ret {A : Type} (a : A) : M A := ([], Ok a).

Definition raise {A : Type} (e : exn) : M A := ([], Raise e).

Definition lift {A : Type} (r : result A) : M A := ([], r).

Definition bind {A B : Type} (m : M A) (k : A -> M B) : M B :=
  match m with
  | (l, Ok a) => let '(l', r) := k a in ((l ++ l')%list, r)
  | (l, Raise e) => (l, Raise e)
  end.

Definition logging (lv : level) (m : message) : M unit := ([(lv, m)], Ok tt).

Notation "x <- m ;; k" := (bind m (fun x => k))
  (at level 61, m at next level, right associativity) : py_scope.
Notation "m ;; k" := (bind m (fun _ => k))
  (at level 61, right associativity) : py_scope.

(** [for x in xs: body x] *)
Fixpoint for_each {A : Type} (xs : list A) (body : A -> M unit) : M unit :=
  match xs with
  | [] => ret tt
  | x :: tl => body x ;; for_each tl body
  end.

(** ** [datetime.time] and [datetime.date] *)

Module datetime.

Record time : Type := mk_time
  { hour : Z; minute : Z; second : Z; microsecond : Z }.

Record date : Type := mk_date { year : Z; month : Z; day : Z }.

(** [datetime.time(hour, minute, second)] *)
Definition new_time (h m s : Z) : result time :=
  if (0 <=? h) && (h <=? 23) && (0 <=? m) && (m <=? 59)
     && (0 <=? s) && (s <=? 59)
  then Ok (mk_time h m s 0)
  else Raise ValueError.

Definition is_leap (y : Z) : bool :=
  (y mod 4 =? 0) && (negb (y mod 100 =? 0) || (y mod 400 =? 0)).

Definition days_in_month (y m : Z) : Z :=
  if m =? 2 then (if is_leap y then 29 else 28)
  else if (m =? 4) || (m =? 6) || (m =? 9) || (m =? 11) then 30
  else 31.

(** [datetime.date(year, month, day)] *)
Definition new_date (y m d : Z) : result date :=
  if (1 <=? y) && (y <=? 9999) && (1 <=? m) && (m <=? 12)
     && (1 <=? d) && (d <=? days_in_month y m)
  then Ok (mk_date y m d)
  else Raise ValueError.

(** The value of a [time] attribute: a [datetime.time] as decoded, or the
    [datetime.datetime] that [datetime.datetime.combine] builds from it. *)
Inductive stamp : Type :=
| Time (t : time)
| DateTime (d : date) (t : time).

(** [datetime.datetime.combine(d, t)] *)
Definition combine (d : date) (t : time) : stamp := DateTime d t.

Definition two (n : Z) : string := PyStr.pad_zero 2 (PyStr.digits n).

Definition clock (t : time) : string :=
  two (hour t) ++ ":" ++ two (minute t) ++ ":" ++ two (second t) ++ "."
  ++ PyStr.pad_zero 6 (PyStr.digits (microsecond t)) ++ "Z".

Definition calendar (y m d : Z) : string :=
  PyStr.pad_zero 4 (PyStr.digits y) ++ "-" ++ two m ++ "-" ++ two d ++ "T".

(** [x.strftime("%Y-%m-%dT%H:%M:%S.%fZ")].  A [datetime.time] has no date:
    its [strftime] formats the date directives from 1900-01-01. *)
Definition strftime (x : stamp) : string :=
  match x with
  | Time t => calendar 1900 1 1 ++ clock t
  | DateTime d t => calendar (year d) (month d) (day d) ++ clock t
  end.

End datetime.

(** ** The sentence classes *)

(** The attributes every sentence object has ([NMEASentence.__init__]);
    [_validate_checksum] returns [True] whatever the sentence. *)
Record NMEASentence_base : Type := mk_base
  { talker : string;
    sentence : list string;
    checksum : string;
    sentence_type : string;
    is_valid : bool }.

Definition base_init (talker : string) (sentence : list string)
    (checksum sentence_type : string) : NMEASentence_base :=
  mk_base talker sentence checksum sentence_type true.

(** [float(x) if x else None] *)
Definition float_or_none (x : string) : result (option float) :=
  if PyStr.truthy x
  then let? v := PyFloat.float_of_string x in Ok (Some v)
  else Ok None.

(** [int(x) if x else None] *)
Definition int_or_none (x : string) : result (option Z) :=
  if PyStr.truthy x
  then let? v := PyFloat.int_of_string x in Ok (Some v)
  else Ok None.

(** [float(sentence[i]) if sentence[i] else None] *)
Definition float_at (sentence : list string) (i : nat) : result (option float) :=
  let? x := index sentence i in float_or_none x.

(** [int(sentence[i]) if sentence[i] else None] *)
Definition int_at (sentence : list string) (i : nat) : result (option Z) :=
  let? x := index sentence i in int_or_none x.

(** [float(sentence[i]) if len(sentence) > i and sentence[i] else None] *)
Definition float_at_guarded (sentence : list string) (i : nat)
    : result (option float) :=
  if len_gt sentence i then float_at sentence i else Ok None.

(** [int(sentence[i]) if len(sentence) > i and sentence[i] else None] *)
Definition int_at_guarded (sentence : list string) (i : nat)
    : result (option Z) :=
  if len_gt sentence i then int_at sentence i else Ok None.

Module GSA.

Record t : Type := mk
  { base : NMEASentence_base;
    mode_auto : string;
    mode_fix_type : option Z;
    sv_ids : list Z;
    pdop : option float;
    hdop : option float;
    vdop : option float }.

(** The loop over the satellite slots [indices] of [sentence]. *)
Fixpoint collect_sv_ids (sentence : list string) (indices : list nat)
    : result (list Z) :=
  match indices with
  | [] => Ok []
  | i :: rest =>
      if len_gt sentence i then
        let? x := index sentence i in
        if PyStr.truthy x then
          let? v := PyFloat.int_of_string x in
          let? ids := collect_sv_ids sentence rest in
          Ok (v :: ids)
        else collect_sv_ids sentence rest
      else collect_sv_ids sentence rest
  end.

Definition init (talker : string) (sentence : list string)
    (checksum sentence_type : string) : result t :=
  let b := base_init talker sentence checksum sentence_type in
  let? mode_auto := index sentence 0 in
  let? mode_fix_type := int_at sentence 1 in
  let? sv_ids := collect_sv_ids sentence (seq 2 12) in
  let? pdop := float_at_guarded sentence 14 in
  let? hdop := float_at_guarded sentence 15 in
  let? vdop := float_at_guarded sentence 16 in
  Ok (mk b mode_auto mode_fix_type sv_ids pdop hdop vdop).

End GSA.

Module VTG.

Record t : Type := mk
  { base : NMEASentence_base;
    true_track : option float;
    mag_track : option float;
    speed_knots : option float;
    speed_kmh : option float }.

Definition init (talker : string) (sentence : list string)
    (checksum sentence_type : string) : result t :=
  let b := base_init talker sentence checksum sentence_type in
  let? true_track := float_at sentence 0 in
  let? mag_track := float_at sentence 2 in
  let? speed_knots := float_at sentence 4 in
  let? speed_kmh := float_at sentence 6 in
  Ok (mk b true_track mag_track speed_knots speed_kmh).

End VTG.

Record GSVSatellite : Type := mk_GSVSatellite
  { prn : option Z;
    elevation : option Z;
    azimuth : option Z;
    snr : option Z }.

Module GSV.

Record t : Type := mk
  { base : NMEASentence_base;
    num_messages : Z;
    msg_num : Z;
    sats_in_view : Z;
    sat_data : list GSVSatellite }.

(** The loop over the satellite blocks [blocks] of [sentence]. *)
Fixpoint collect_sat_data (sentence : list string) (blocks : list nat)
    : result (list GSVSatellite) :=
  match blocks with
  | [] => Ok []
  | i :: rest =>
      let base_idx := (3 + i * 4)%nat in
      if len_gt sentence (base_idx + 3) then
        let? x := index sentence base_idx in
        if PyStr.truthy x then
          let? p := PyFloat.int_of_string x in
          let? el := int_at sentence (base_idx + 1) in
          let? az := int_at sentence (base_idx + 2) in
          let? sn := int_at sentence (base_idx + 3) in
          let? sats := collect_sat_data sentence rest in
          Ok (mk_GSVSatellite (Some p) el az sn :: sats)
        else collect_sat_data sentence rest
      else collect_sat_data sentence rest
  end.

Definition init (talker : string) (sentence : list string)
    (checksum sentence_type : string) : result t :=
  let b := base_init talker sentence checksum sentence_type in
  let? x0 := index sentence 0 in
  let? num_messages := PyFloat.int_of_string x0 in
  let? x1 := index sentence 1 in
  let? msg_num := PyFloat.int_of_string x1 in
  let? x2 := index sentence 2 in
  let? sats_in_view := PyFloat.int_of_string x2 in
  let? sat_data := collect_sat_data sentence (seq 0 4) in
  Ok (mk b num_messages msg_num sats_in_view sat_data).

End GSV.

(** [ChecksumError] is a subclass of [ValueError]. *)
Definition is_ValueError (e : exn) : bool :=
  match e with
  | ValueError | ChecksumError => true
  | _ => false
  end.

(** [try: ... except (ValueError, IndexError): pass], leaving the attribute
    [None] when the body raises one of the two. *)
Definition absorb {A : Type} (r : result A) : result (option A) :=
  match r with
  | Ok a => Ok (Some a)
  | Raise e =>
      if is_ValueError e then Ok None
      else match e with
           | IndexError => Ok None
           | _ => Raise e
           end
  end.

(** The [hhmmss] field of RMC and GGA. *)
Definition parse_time (x : string) : result (option datetime.time) :=
  absorb (let? hour := PyFloat.int_of_string (PyStr.slice 0 2 x) in
          let? minute := PyFloat.int_of_string (PyStr.slice 2 4 x) in
          let? second := PyFloat.int_of_string (PyStr.slice 4 6 x) in
          datetime.new_time hour minute second).

(** The [ddmmyy] field of RMC. *)
Definition parse_date (x : string) : result (option datetime.date) :=
  absorb (let? day := PyFloat.int_of_string (PyStr.slice 0 2 x) in
          let? month := PyFloat.int_of_string (PyStr.slice 2 4 x) in
          let? yy := PyFloat.int_of_string (PyStr.slice 4 6 x) in
          datetime.new_date (2000 + yy) month day).

(** The conversion from [dddmm.mmmm] to decimal degrees that RMC and GGA
    both spell out for their latitude ([negative = "S"]) and longitude
    ([negative = "W"]):
    [v = float(raw); deg = int(v / 100); minutes = v - (deg * 100);
     d = deg + (minutes / 60); if hemi == negative: d = -d]. *)
Definition convert_coordinate (raw hemi negative : string) : result float :=
  let? v := PyFloat.float_of_string raw in
  let? deg := PyFloat.to_int (PyFloat.div v (PyFloat.of_Z 100)) in
  let? deg100 := PyFloat.of_int (deg * 100) in
  let minutes := PyFloat.sub v deg100 in
  let quotient := PyFloat.div minutes (PyFloat.of_Z 60) in
  let? fdeg := PyFloat.of_int deg in
  let d := PyFloat.add fdeg quotient in
  Ok (if String.eqb hemi negative then PyFloat.neg d else d).

(** The latitude block of [cls.__init__], once its guard has passed. *)
Definition parse_latitude (cls raw hemi : string) : M (option float) :=
  v <- lift (convert_coordinate raw hemi "S") ;;
  if negb (validate_latitude v)
  then logging WARNING (Invalid_latitude cls v) ;; ret None
  else ret (Some v).

(** The longitude block of [cls.__init__], once its guard has passed; it
    returns the latitude and longitude attributes. *)
Definition parse_longitude (cls raw hemi : string) (strict_validation : bool)
    (latitude : option float) : M (option float * option float) :=
  v <- lift (convert_coordinate raw hemi "W") ;;
  if negb (validate_longitude v)
  then logging WARNING (Invalid_longitude cls v) ;; ret (latitude, None)
  else
    match latitude with
    | Some lat =>
        for_each (detect_gps_errors lat v)
          (fun error => logging WARNING (Coordinate_issue cls error lat v)) ;;
        if should_reject_coordinates lat v strict_validation
        then logging WARNING (Rejecting_coordinates cls lat v) ;;
             ret (None, None)
        else ret (Some lat, Some v)
    | None => ret (None, Some v)
    end.

Module RMC.

(** [T] is the type of the [time] attribute: [datetime.time] as decoded. *)
Record t (T : Type) : Type := mk
  { base : NMEASentence_base;
    time : option T;
    date : option datetime.date;
    status : bool;
    latitude : option float;
    longitude : option float;
    speed : option float;
    course : option float;
    mag_var : option float }.

Arguments mk {T}.
Arguments base {T}.
Arguments time {T}.
Arguments date {T}.
Arguments status {T}.
Arguments latitude {T}.
Arguments longitude {T}.
Arguments speed {T}.
Arguments course {T}.
Arguments mag_var {T}.

(** [rmc.time = v] *)
Definition set_time {T U : Type} (r : t T) (v : option U) : t U :=
  mk (base r) v (date r) (status r) (latitude r) (longitude r)
     (speed r) (course r) (mag_var r).

(** The magnetic variation block of [__init__]:
    [if len(sentence) > 9 and sentence[9]: mag_var = float(sentence[9])],
    then [if len(sentence) > 10 and sentence[10] == 'W': mag_var = -mag_var]. *)
Definition parse_mag_var (sentence : list string) : result (option float) :=
  if len_gt sentence 9
  then let? x9 := index sentence 9 in
       if PyStr.truthy x9
       then let? v := PyFloat.float_of_string x9 in
            if len_gt sentence 10
            then let? x10 := index sentence 10 in
                 Ok (Some (if String.eqb x10 "W" then PyFloat.neg v else v))
            else Ok (Some v)
       else Ok None
  else Ok None.

Definition init (talker : string) (sentence : list string)
    (checksum sentence_type : string) (strict_validation : bool)
    : M (t datetime.time) :=
  let b := base_init talker sentence checksum sentence_type in
  x0 <- lift (index sentence 0) ;;
  time <- lift (if PyStr.truthy x0 then parse_time x0 else Ok None) ;;
  date <- lift (if len_gt sentence 8
                then let? x8 := index sentence 8 in
                     if PyStr.truthy x8 then parse_date x8 else Ok None
                else Ok None) ;;
  status <- lift (if len_gt sentence 1
                  then let? x1 := index sentence 1 in Ok (String.eqb x1 "A")
                  else Ok false) ;;
  latitude <- (if len_gt sentence 3
               then x2 <- lift (index sentence 2) ;;
                    x3 <- lift (index sentence 3) ;;
                    if PyStr.truthy x2 && PyStr.truthy x3
                    then parse_latitude "RMC" x2 x3
                    else ret None
               else ret None) ;;
  position <- (if len_gt sentence 5
               then x4 <- lift (index sentence 4) ;;
                    x5 <- lift (index sentence 5) ;;
                    if PyStr.truthy x4 && PyStr.truthy x5
                    then parse_longitude "RMC" x4 x5 strict_validation latitude
                    else ret (latitude, None)
               else ret (latitude, None)) ;;
  speed <- lift (float_at_guarded sentence 6) ;;
  course <- lift (float_at_guarded sentence 7) ;;
  mag_var <- lift (parse_mag_var sentence) ;;
  ret (mk b time date status (fst position) (snd position)
          speed course mag_var).

End RMC.

Module GGA.

(** [T] is the type of the [time] attribute: [datetime.time] as decoded. *)
Record t (T : Type) : Type := mk
  { base : NMEASentence_base;
    time : option T;
    latitude : option float;
    longitude : option float;
    fix_quality : option Z;
    num_sats : option Z;
    hdop : option float;
    altitude : option float;
    geoid_height : option float;
    dgps_update : option float;
    dgps_station : option Z }.

Arguments mk {T}.
Arguments base {T}.
Arguments time {T}.
Arguments latitude {T}.
Arguments longitude {T}.
Arguments fix_quality {T}.
Arguments num_sats {T}.
Arguments hdop {T}.
Arguments altitude {T}.
Arguments geoid_height {T}.
Arguments dgps_update {T}.
Arguments dgps_station {T}.

(** [gga.time = v] *)
Definition set_time {T U : Type} (g : t T) (v : option U) : t U :=
  mk (base g) v (latitude g) (longitude g) (fix_quality g) (num_sats g)
     (hdop g) (altitude g) (geoid_height g) (dgps_update g) (dgps_station g).

Definition init (talker : string) (sentence : list string)
    (checksum sentence_type : string) (strict_validation : bool)
    : M (t datetime.time) :=
  let b := base_init talker sentence checksum sentence_type in
  x0 <- lift (index sentence 0) ;;
  time <- lift (if PyStr.truthy x0 then parse_time x0 else Ok None) ;;
  x1 <- lift (index sentence 1) ;;
  latitude <- (if PyStr.truthy x1
               then x2 <- lift (index sentence 2) ;;
                    if PyStr.truthy x2
                    then parse_latitude "GGA" x1 x2
                    else ret None
               else ret None) ;;
  x3 <- lift (index sentence 3) ;;
  position <- (if PyStr.truthy x3
               then x4 <- lift (index sentence 4) ;;
                    if PyStr.truthy x4
                    then parse_longitude "GGA" x3 x4 strict_validation latitude
                    else ret (latitude, None)
               else ret (latitude, None)) ;;
  fix_quality <- lift (int_at sentence 5) ;;
  num_sats <- lift (int_at sentence 6) ;;
  hdop <- lift (float_at sentence 7) ;;
  altitude <- lift (float_at sentence 8) ;;
  geoid_height <- lift (float_at_guarded sentence 10) ;;
  dgps_update <- lift (float_at_guarded sentence 12) ;;
  dgps_station <- lift (int_at_guarded sentence 13) ;;
  ret (mk b time (fst position) (snd position) fix_quality num_sats
          hdop altitude geoid_height dgps_update dgps_station).

End GGA.

(** ** [NMEASentence.parse] *)

(** A sentence object: an instance of one of the five classes of
    [SENTENCE_TYPES], or a plain [NMEASentence] for any other type code. *)
Inductive NMEASentence : Type :=
| Rmc (r : RMC.t datetime.time)
| Gga (g : GGA.t datetime.time)
| Gsa (a : GSA.t)
| Vtg (v : VTG.t)
| Gsv (v : GSV.t)
| Plain (b : NMEASentence_base).

Definition sentence_base (s : NMEASentence) : NMEASentence_base :=
  match s with
  | Rmc r => RMC.base r
  | Gga g => GGA.base g
  | Gsa a => GSA.base a
  | Vtg v => VTG.base v
  | Gsv v => GSV.base v
  | Plain b => b
  end.

(** [calc_cksum = 0; for c in payload: calc_cksum ^= ord(c)] *)
Fixpoint xor_fold (payload : string) (calc_cksum : Z) : Z :=
  match payload with
  | EmptyString => calc_cksum
  | String c r => xor_fold r (Z.lxor calc_cksum (PyStr.code c))
  end.

(** [sentence, checksum = line.split('*')] under [if '*' in line], else
    [raise ValueError("Missing checksum")]; the unpacking raises [ValueError]
    unless the split has exactly two pieces. *)
Definition split_checksum (line : string) : result (string * string) :=
  if PyStr.contains "*" line then
    match PyStr.split "*" line with
    | [sentence; checksum] => Ok (sentence, checksum)
    | _ => Raise ValueError
    end
  else Raise ValueError.

(** The comparison [f"{calc_cksum:02X}" != checksum.strip().upper()],
    negated. *)
Definition checksum_matches (sentence checksum : string) : bool :=
  String.eqb (PyStr.hex2 (xor_fold (PyStr.drop 1 sentence) 0))
             (PyStr.upper (PyStr.strip checksum)).

(** The first half of the [try] block of [parse]: null bytes removed, the
    line stripped and split at ['*'], the checksum verified.  It returns the
    sentence part (with its leading ['$']) and the checksum part. *)
Definition verify_checksum (line : string) : M (string * string) :=
  let line := PyStr.remove_char PyStr.NUL line in
  let line := PyStr.strip line in
  parts <- lift (split_checksum line) ;;
  let '(sentence, checksum) := parts in
  if negb (checksum_matches sentence checksum)
  then
    logging DEBUG (Failed_checksum_raw line) ;;
    logging DEBUG (Failed_checksum_sentence sentence) ;;
    logging DEBUG (Failed_checksum_part checksum) ;;
    logging DEBUG (Failed_checksum_calculated
                     (PyStr.hex2 (xor_fold (PyStr.drop 1 sentence) 0))) ;;
    raise ChecksumError
  else ret (sentence, checksum).

(** The second half of the [try] block of [parse]: the sentence identifier
    and the dispatch on [SENTENCE_TYPES]. *)
Definition decode (sentence checksum : string) (strict_validation : bool)
    : M NMEASentence :=
  let sentence_parts := PyStr.split "," (PyStr.drop 1 sentence) in
  sentence_id <- lift (index sentence_parts 0) ;;
  if (String.length sentence_id <? 5)%nat then raise ValueError
  else
    let talker := PyStr.slice 0 2 sentence_id in
    let sentence_type := PyStr.drop 2 sentence_id in
    let sentence_data := List.tl sentence_parts in
    let checksum := PyStr.strip checksum in
    if String.eqb sentence_type "RMC" then
      r <- RMC.init talker sentence_data checksum sentence_type strict_validation ;;
      ret (Rmc r)
    else if String.eqb sentence_type "GGA" then
      g <- GGA.init talker sentence_data checksum sentence_type strict_validation ;;
      ret (Gga g)
    else if String.eqb sentence_type "GSA" then
      a <- lift (GSA.init talker sentence_data checksum sentence_type) ;;
      ret (Gsa a)
    else if String.eqb sentence_type "GSV" then
      v <- lift (GSV.init talker sentence_data checksum sentence_type) ;;
      ret (Gsv v)
    else if String.eqb sentence_type "VTG" then
      v <- lift (VTG.init talker sentence_data checksum sentence_type) ;;
      ret (Vtg v)
    else ret (Plain (base_init talker sentence_data checksum sentence_type)).

(** [except ChecksumError: raise] then
    [except Exception as e: raise ValueError(...)]. *)
Definition reraise {A : Type} (m : M A) : M A :=
  match m with
  | (l, Raise ChecksumError) => (l, Raise ChecksumError)
  | (l, Raise _) => (l, Raise ValueError)
  | (l, Ok a) => (l, Ok a)
  end.

Definition parse (line : string) (strict_validation : bool) : M NMEASentence :=
  if negb (PyStr.startswith "$" line) then raise ValueError
  else
    reraise (parts <- verify_checksum line ;;
             decode (fst parts) (snd parts) strict_validation).

(** ** [parse_nmea_stream] *)

(** [line.decode('ascii', errors='ignore')]: the bytes above 127 are
    dropped. *)
Fixpoint decode_ascii_ignore (line : string) : string :=
  match line with
  | EmptyString => EmptyString
  | String c r =>
      if PyStr.code c <? 128 then String c (decode_ascii_ignore r)
      else decode_ascii_ignore r
  end.

(** What running the generator to its end gives: the records logged, the
    sentences yielded and, when an exception leaves the generator, that
    exception. *)
Record stream : Type := mk_stream
  { logged : list log_record;
    yielded : list NMEASentence;
    aborted : option exn }.

(** The body of the [for line in f] loop: what it logs and yields for one
    line, and the exception that leaves the loop if one does. *)
Definition stream_line (line : string) (strict_validation : bool) : stream :=
  if negb (PyStr.startswith "$" line) then mk_stream [] [] None
  else
    let line_str := PyStr.strip (decode_ascii_ignore line) in
    let line_str := PyStr.remove_char PyStr.NUL line_str in
    if negb (PyStr.truthy (PyStr.strip line_str)) then mk_stream [] [] None
    else
      match parse line_str strict_validation with
      | (l, Ok sentence) =>
          if negb (is_valid (sentence_base sentence)) then mk_stream l [] None
          else mk_stream l [sentence] None
      | (l, Raise e) =>
          if is_ValueError e
          then mk_stream (l ++ [(WARNING, Error_parsing_line e)])%list [] None
          else mk_stream (l ++ [(ERROR, Error_reading_file e)])%list [] (Some e)
      end.

(** [parse_nmea_stream] on a file given as its list of lines. *)
Fixpoint parse_nmea_stream (lines : list string) (strict_validation : bool)
    : stream :=
  match lines with
  | [] => mk_stream [] [] None
  | line :: rest =>
      let here := stream_line line strict_validation in
      match aborted here with
      | Some e => here
      | None =>
          let after := parse_nmea_stream rest strict_validation in
          mk_stream (logged here ++ logged after)%list
                    (yielded here ++ yielded after)%list
                    (aborted after)
      end
  end.

(** ** [group_nmea_points] *)

(** A yielded point: the dictionary [get_point] returns.  Its RMC and GGA
    are the pending sentences with their [time] attribute either left a
    [datetime.time] or rebound to a [datetime.datetime]. *)
Module PointData.

Record t : Type := mk
  { rmc : option (RMC.t datetime.stamp);
    gga : option (GGA.t datetime.stamp);
    gsa : option GSA.t;
    vtg : option VTG.t;
    gsv : option GSV.t }.

End PointData.

(** The accumulator [current_data] of [group_nmea_points]. *)
Module Current.

Record t : Type := mk
  { rmc : option (RMC.t datetime.time);
    gga : option (GGA.t datetime.time);
    gsa : option GSA.t;
    vtg : option VTG.t;
    gsv : option GSV.t;
    last_time : option datetime.time;
    current_date : option datetime.date }.

Definition initial : t := mk None None None None None None None.

(** [current_data['rmc'] = None; current_data['gga'] = None;
     current_data['vtg'] = None; current_data['last_time'] = None] *)
Definition clear (c : t) : t :=
  mk None None (gsa c) None (gsv c) None (current_date c).

Definition set_rmc (c : t) (v : option (RMC.t datetime.time)) : t :=
  mk v (gga c) (gsa c) (vtg c) (gsv c) (last_time c) (current_date c).

Definition set_gga (c : t) (v : option (GGA.t datetime.time)) : t :=
  mk (rmc c) v (gsa c) (vtg c) (gsv c) (last_time c) (current_date c).

Definition set_gsa (c : t) (v : option GSA.t) : t :=
  mk (rmc c) (gga c) v (vtg c) (gsv c) (last_time c) (current_date c).

Definition set_vtg (c : t) (v : option VTG.t) : t :=
  mk (rmc c) (gga c) (gsa c) v (gsv c) (last_time c) (current_date c).

Definition set_gsv (c : t) (v : option GSV.t) : t :=
  mk (rmc c) (gga c) (gsa c) (vtg c) v (last_time c) (current_date c).

Definition set_last_time (c : t) (v : option datetime.time) : t :=
  mk (rmc c) (gga c) (gsa c) (vtg c) (gsv c) v (current_date c).

Definition set_current_date (c : t) (v : option datetime.date) : t :=
  mk (rmc c) (gga c) (gsa c) (vtg c) (gsv c) (last_time c) v.

End Current.

(** Truth value of an optional object whose class defines neither
    [__bool__] nor [__len__] (a sentence, a [datetime.time], a
    [datetime.date]): it is not [None]. *)
Definition is_some {A : Type} (o : option A) : bool :=
  match o with Some _ => true | None => false end.

(** A [time] attribute that [get_point] leaves alone. *)
Definition as_time (o : option datetime.time) : option datetime.stamp :=
  option_map datetime.Time o.

(** [x.time = datetime.datetime.combine(d, x.time)] under [if x.time]. *)
Definition stamped (d : datetime.date) (o : option datetime.time)
    : option datetime.stamp :=
  option_map (datetime.combine d) o.

Definition get_point (c : Current.t) : PointData.t :=
  match Current.rmc c, Current.gga c with
  | Some rmc, Some gga =>
      match RMC.time rmc, RMC.date rmc with
      | Some _, Some d =>
          PointData.mk (Some (RMC.set_time rmc (stamped d (RMC.time rmc))))
                       (Some (GGA.set_time gga (stamped d (GGA.time gga))))
                       (Current.gsa c) (Current.vtg c) (Current.gsv c)
      | _, _ =>
          PointData.mk (Some (RMC.set_time rmc (as_time (RMC.time rmc))))
                       (Some (GGA.set_time gga (as_time (GGA.time gga))))
                       (Current.gsa c) (Current.vtg c) (Current.gsv c)
      end
  | None, Some gga =>
      match Current.current_date c with
      | Some d =>
          PointData.mk None
                       (Some (GGA.set_time gga (stamped d (GGA.time gga))))
                       (Current.gsa c) (Current.vtg c) (Current.gsv c)
      | None =>
          PointData.mk None
                       (Some (GGA.set_time gga (as_time (GGA.time gga))))
                       (Current.gsa c) (Current.vtg c) (Current.gsv c)
      end
  | Some rmc, None =>
      PointData.mk (Some (RMC.set_time rmc (as_time (RMC.time rmc)))) None
                   (Current.gsa c) (Current.vtg c) (Current.gsv c)
  | None, None =>
      PointData.mk None None (Current.gsa c) (Current.vtg c) (Current.gsv c)
  end.

(** [t.hour * 3600 + t.minute * 60 + t.second + t.microsecond/1000000]: an
    [int] plus the [float] quotient of two [int]s.  The fields of a
    [datetime.time] are small enough for the conversions to be exact. *)
Definition seconds_since_midnight (t : datetime.time) : float :=
  PyFloat.add
    (PyFloat.of_Z (datetime.hour t * 3600 + datetime.minute t * 60
                   + datetime.second t))
    (PyFloat.div (PyFloat.of_Z (datetime.microsecond t))
                 (PyFloat.of_Z 1000000)).

(** [abs(msg_secs - last_secs)] *)
Definition time_diff (msg_time last_time : datetime.time) : float :=
  PyFloat.abs (PyFloat.sub (seconds_since_midnight msg_time)
                           (seconds_since_midnight last_time)).

(** [msg_time]: [sentence.time] under [isinstance(sentence, (RMC, GGA))],
    else [None]. *)
Definition msg_time_of (sentence : NMEASentence) : option datetime.time :=
  match sentence with
  | Rmc r => RMC.time r
  | Gga g => GGA.time g
  | _ => None
  end.

(** [yield get_point()] followed by the four assignments to [None]. *)
Definition flush (c : Current.t) : list PointData.t * Current.t :=
  ([get_point c], Current.clear c).

(** The first block of the loop body: the test of the time window.  It
    returns the points yielded and the accumulator it leaves. *)
Definition window_check (time_window : float) (c : Current.t)
    (sentence : NMEASentence) : list PointData.t * Current.t :=
  match msg_time_of sentence, Current.last_time c with
  | Some msg_time, Some last_time =>
      if PyFloat.ltb time_window (time_diff msg_time last_time) then
        ((if is_some (Current.rmc c) || is_some (Current.gga c)
          then [get_point c] else []),
         Current.clear c)
      else ([], c)
  | _, _ => ([], c)
  end.

(** The second block of the loop body: the sentence stored by its class. *)
Definition store (c : Current.t) (sentence : NMEASentence)
    : list PointData.t * Current.t :=
  match sentence with
  | Rmc r =>
      let '(out, c) :=
        if is_some (Current.rmc c) && is_some (Current.gga c)
        then flush c else ([], c) in
      let c := Current.set_rmc c (Some r) in
      let c := Current.set_last_time c (RMC.time r) in
      let c := if is_some (RMC.time r) && is_some (RMC.date r)
               then Current.set_current_date c (RMC.date r) else c in
      (out, c)
  | Gga g =>
      let '(out, c) :=
        if is_some (Current.gga c) && is_some (Current.rmc c)
        then flush c else ([], c) in
      let c := Current.set_gga c (Some g) in
      let c := Current.set_last_time c (GGA.time g) in
      (out, c)
  | Gsa a => ([], Current.set_gsa c (Some a))
  | Vtg v => ([], Current.set_vtg c (Some v))
  | Gsv v => ([], Current.set_gsv c (Some v))
  | Plain _ => ([], c)
  end.

(** One iteration of [for sentence in sentences]. *)
Definition step (time_window : float) (c : Current.t) (sentence : NMEASentence)
    : list PointData.t * Current.t :=
  let '(out1, c1) := window_check time_window c sentence in
  let '(out2, c2) := store c1 sentence in
  ((out1 ++ out2)%list, c2).

(** The loop from the accumulator [c]: the points yielded in order and the
    accumulator at the end of the input. *)
Fixpoint run (time_window : float) (c : Current.t)
    (sentences : list NMEASentence) : list PointData.t * Current.t :=
  match sentences with
  | [] => ([], c)
  | sentence :: rest =>
      let '(out, c') := step time_window c sentence in
      let '(outs, c'') := run time_window c' rest in
      ((out ++ outs)%list, c'')
  end.

(** [if current_data['rmc'] or current_data['gga']: yield get_point()]
    after the loop. *)
Definition final_flush (c : Current.t) : list PointData.t :=
  if is_some (Current.rmc c) || is_some (Current.gga c)
  then [get_point c] else [].

(** The points [group_nmea_points(sentences, time_window)] yields. *)
Definition group_nmea_points (sentences : list NMEASentence)
    (time_window : float) : list PointData.t :=
  let '(out, c) := run time_window Current.initial sentences in
  (out ++ final_flush c)%list.

(** The default [time_window = 1.0]. *)
Definition default_time_window : float :=
  Eval vm_compute in PyFloat.of_decimal false 10 (-1).

(** ** [GPXWriter]

    The writer is modelled by the list of the strings it passes to
    [write_line], in order, for an open file. *)

Module GPXWriter.

Definition dq : string := String (ascii_of_nat 34) EmptyString.

(** Truth value of an optional [float]: neither [None] nor zero. *)
Definition nonzero (o : option float) : bool :=
  match o with Some v => PyFloat.truthy v | None => false end.

(** Truth value of an optional [int]: neither [None] nor zero. *)
Definition nonzero_int (o : option Z) : bool :=
  match o with Some n => negb (n =? 0) | None => false end.

(** [f"{x:.nf}"] for an attribute known not to be [None]. *)
Definition fmt (n : nat) (o : option float) : string :=
  match o with Some v => PyFloat.format_fixed n v | None => "None" end.

(** [f"{n}"] for an optional [int]. *)
Definition fmt_int (o : option Z) : string :=
  match o with Some n => PyStr.of_int n | None => "None" end.

Definition tag (indent name body : string) : string :=
  indent ++ "<" ++ name ++ ">" ++ body ++ "</" ++ name ++ ">".

Definition write_rmc_extensions {T : Type} (rmc : RMC.t T) : list string :=
  if nonzero (RMC.mag_var rmc)
  then [tag "          " "nmea:magvar" (fmt 2 (RMC.mag_var rmc))]
  else [].

Definition write_gga_extensions {T : Type} (gga : GGA.t T) : list string :=
  ((if nonzero_int (GGA.fix_quality gga)
    then [tag "          " "nmea:fix_quality" (fmt_int (GGA.fix_quality gga))]
    else [])
   ++ (if nonzero (GGA.altitude gga) && nonzero (GGA.geoid_height gga)
       then [tag "          " "nmea:geoid_height" (fmt 3 (GGA.geoid_height gga))]
       else [])
   ++ (if nonzero (GGA.dgps_update gga)
       then [tag "          " "nmea:dgps_age" (fmt 1 (GGA.dgps_update gga))]
       else [])
   ++ (if nonzero_int (GGA.dgps_station gga)
       then [tag "          " "nmea:dgps_station" (fmt_int (GGA.dgps_station gga))]
       else []))%list.

Definition write_gsa_extensions (gsa : GSA.t) : list string :=
  ((if nonzero_int (GSA.mode_fix_type gsa)
    then [tag "          " "nmea:fix_type" (fmt_int (GSA.mode_fix_type gsa))]
    else [])
   ++ (if nonzero (GSA.pdop gsa)
       then [tag "          " "nmea:pdop" (fmt 2 (GSA.pdop gsa))]
       else [])
   ++ (if nonzero (GSA.vdop gsa)
       then [tag "          " "nmea:vdop" (fmt 2 (GSA.vdop gsa))]
       else [])
   ++ (match GSA.sv_ids gsa with
       | [] => []
       | ids => [tag "          " "nmea:active_sats"
                     (PyStr.join "," (map PyStr.of_int ids))]
       end))%list.

Definition write_vtg_extensions (vtg : VTG.t) : list string :=
  ((if nonzero (VTG.mag_track vtg)
    then [tag "          " "nmea:mag_track" (fmt 2 (VTG.mag_track vtg))]
    else [])
   ++ (if nonzero (VTG.speed_knots vtg)
       then [tag "          " "nmea:speed_knots" (fmt 3 (VTG.speed_knots vtg))]
       else []))%list.

Definition write_sat (sat : GSVSatellite) : list string :=
  (["            <nmea:sat>";
    tag "              " "nmea:prn" (fmt_int (prn sat))]
   ++ (if is_some (elevation sat)
       then [tag "              " "nmea:elevation" (fmt_int (elevation sat))]
       else [])
   ++ (if is_some (azimuth sat)
       then [tag "              " "nmea:azimuth" (fmt_int (azimuth sat))]
       else [])
   ++ (if is_some (snr sat)
       then [tag "              " "nmea:snr" (fmt_int (snr sat))]
       else [])
   ++ ["            </nmea:sat>"])%list.

Definition write_gsv_extensions (gsv : GSV.t) : list string :=
  match GSV.sat_data gsv with
  | [] => []
  | sats =>
      (["          <nmea:satellites>"]
       ++ flat_map write_sat (firstn 4 sats)
       ++ ["          </nmea:satellites>"])%list
  end.

(** [0.514444] and [3.6] *)
Definition knot_in_ms : float :=
  Eval vm_compute in PyFloat.of_decimal false 514444 (-6).
Definition kmh_per_ms : float :=
  Eval vm_compute in PyFloat.of_decimal false 36 (-1).

(** [o and o.attr] for an optional sentence [o]. *)
Definition attr {A B : Type} (o : option A) (f : A -> option B) : option B :=
  match o with Some a => f a | None => None end.

Definition write_extensions (p : PointData.t) : list string :=
  let rmc := PointData.rmc p in
  let gga := PointData.gga p in
  let gsa := PointData.gsa p in
  let vtg := PointData.vtg p in
  let gsv := PointData.gsv p in
  let has_tpx_data :=
    nonzero (attr rmc RMC.speed) || nonzero (attr vtg VTG.true_track)
    || nonzero (attr gsa GSA.hdop) || nonzero (attr gga GGA.hdop) in
  (["        <extensions>"]
   ++ (if has_tpx_data then
         ["          <gpxtpx:TrackPointExtension>"]
         ++ (if nonzero (attr rmc RMC.speed) then
               [tag "            " "gpxtpx:speed"
                  (fmt 3 (option_map (fun v => PyFloat.mul v knot_in_ms)
                                     (attr rmc RMC.speed)))]
             else if nonzero (attr vtg VTG.speed_kmh) then
               [tag "            " "gpxtpx:speed"
                  (fmt 3 (option_map (fun v => PyFloat.div v kmh_per_ms)
                                     (attr vtg VTG.speed_kmh)))]
             else [])
         ++ (if nonzero (attr rmc RMC.course) then
               [tag "            " "gpxtpx:course" (fmt 2 (attr rmc RMC.course))]
             else if nonzero (attr vtg VTG.true_track) then
               [tag "            " "gpxtpx:course" (fmt 2 (attr vtg VTG.true_track))]
             else [])
         ++ (if nonzero (attr gsa GSA.hdop) then
               [tag "            " "gpxtpx:hdop" (fmt 2 (attr gsa GSA.hdop))]
             else if nonzero (attr gga GGA.hdop) then
               [tag "            " "gpxtpx:hdop" (fmt 2 (attr gga GGA.hdop))]
             else [])
         ++ ["          </gpxtpx:TrackPointExtension>"]
       else [])
   ++ match rmc with Some r => write_rmc_extensions r | None => [] end
   ++ match gga with Some g => write_gga_extensions g | None => [] end
   ++ match gsa with Some a => write_gsa_extensions a | None => [] end
   ++ match vtg with Some v => write_vtg_extensions v | None => [] end
   ++ match gsv with Some v => write_gsv_extensions v | None => [] end
   ++ ["        </extensions>"; "      </trkpt>"])%list.

(** The sentence the position is read from, [pos = rmc if rmc else gga],
    by its latitude, longitude and time. *)
Record pos : Type := mk_pos
  { latitude : option float;
    longitude : option float;
    time : option datetime.stamp }.

Definition position (p : PointData.t) : option pos :=
  match PointData.rmc p, PointData.gga p with
  | Some r, _ => Some (mk_pos (RMC.latitude r) (RMC.longitude r) (RMC.time r))
  | None, Some g => Some (mk_pos (GGA.latitude g) (GGA.longitude g) (GGA.time g))
  | None, None => None
  end.

(** [f'      <trkpt lat="{pos.latitude:.8f}" lon="{pos.longitude:.8f}">'] *)
Definition trkpt_open (lat lon : float) : string :=
  "      <trkpt lat=" ++ dq ++ PyFloat.format_fixed 8 lat ++ dq
  ++ " lon=" ++ dq ++ PyFloat.format_fixed 8 lon ++ dq ++ ">".

Definition add_trackpoint (p : PointData.t) : list string :=
  match position p with
  | None => []
  | Some pos =>
      match latitude pos, longitude pos with
      | Some lat, Some lon =>
          ([trkpt_open lat lon]
           ++ (if is_some (attr (PointData.gga p) GGA.altitude)
               then [tag "        " "ele"
                       (fmt 3 (attr (PointData.gga p) GGA.altitude))]
               else [])
           ++ (match time pos with
               | Some ts => [tag "        " "time" (datetime.strftime ts)]
               | None => []
               end)
           ++ (if nonzero_int (attr (PointData.gga p) GGA.num_sats)
               then [tag "        " "sat"
                       (fmt_int (attr (PointData.gga p) GGA.num_sats))]
               else [])
           ++ write_extensions p)%list
      | _, _ => []
      end
  end.

(** The track points written for the points of one input file, as the
    loop of [process_files] does. *)
Definition add_trackpoints (points : list PointData.t) : list string :=
  flat_map add_trackpoint points.

End GPXWriter.

(** The pipeline [process_files] builds for one input file: its lines
    parsed, grouped with the default time window and written. *)
Definition process_file (lines : list string) (strict_validation : bool)
    : list string :=
  GPXWriter.add_trackpoints
    (group_nmea_points (yielded (parse_nmea_stream lines strict_validation))
                       default_time_window).

(** ** The raw output of [process_files]

    The files are given by their contents in the order of [sorted_files],
    [None] for a file that cannot be opened: the exception is logged and the
    loop goes on to the next file.  The functions return the bytes written
    to the raw output. *)

Module PyBytes.

(** The bytes [bytes.strip] removes: TAB, LF, VT, FF, CR and space. *)
Definition is_space (c : ascii) : bool :=
  let n := PyStr.code c in
  ((9 <=? n) && (n <=? 13)) || (n =? 32).

Fixpoint lstrip (s : string) : string :=
  match s with
  | EmptyString => EmptyString
  | String c r => if is_space c then lstrip r else s
  end.

Fixpoint rstrip (s : string) : string :=
  match s with
  | EmptyString => EmptyString
  | String c r =>
      let r' := rstrip r in
      if is_space c && PyStr.is_empty r' then EmptyString else String c r'
  end.

(** [b.strip()] *)
Definition strip (s : string) : string := rstrip (lstrip s).

End PyBytes.

Definition LF : ascii := ascii_of_nat 10.

(** [for line in infile] on a file opened in binary mode: the lines end
    after each LF, and the last one ends with the file. *)
Fixpoint binary_lines (content : string) : list string :=
  match content with
  | EmptyString => []
  | String c r =>
      if Ascii.eqb c LF then String c EmptyString :: binary_lines r
      else match binary_lines r with
           | [] => [String c EmptyString]
           | l :: ls => String c l :: ls
           end
  end.

(** The body of [for line in infile]: the writes to the raw output. *)
Definition raw_line (line : string) : list string :=
  let cleaned_line := PyStr.remove_char PyStr.NUL line in
  if PyStr.truthy (PyBytes.strip cleaned_line) then [cleaned_line] else [].

(** The writes for one input file. *)
Definition raw_file (file : option string) : list string :=
  match file with
  | Some content => flat_map raw_line (binary_lines content)
  | None => []
  end.

(** What the raw output holds once the input files are read. *)
Definition raw_output (files : list (option string)) : string :=
  fold_right String.append EmptyString (flat_map raw_file files).

(** ** Vocabulary of the specification *)

(** The pair is flagged exactly zero: [lat == 0.0 and lon == 0.0]. *)
Definition exactly_zero (lat lon : float) : bool :=
  PyFloat.eqb lat PyFloat.zero && PyFloat.eqb lon PyFloat.zero.

(** The pair is flagged near zero: [abs(lat) < 0.0001 and abs(lon) < 0.0001]. *)
Definition near_zero (lat lon : float) : bool :=
  PyFloat.ltb (PyFloat.abs lat) f0_0001 && PyFloat.ltb (PyFloat.abs lon) f0_0001.

(** ** Sample inputs

    The two sample files of the test suite, as the lines a binary read of
    the file gives. *)

Definition newline : string := String (ascii_of_nat 10) EmptyString.

(** The lines of a text: each one ends with a newline but the last. *)
Fixpoint file_lines (text : list string) : list string :=
  match text with
  | [] => []
  | [l] => [l]
  | l :: rest => (l ++ newline) :: file_lines rest
  end.

Definition gps_searching_data : list string :=
  file_lines
    ["$GNGGA,,,,,,0,00,99.99,,,,,,*56";
     "$GNGSA,A,1,,,,,,,,,,,,,99.99,99.99,99.99*2E";
     "$GNGSA,A,1,,,,,,,,,,,,,99.99,99.99,99.99*2E";
     "$GNRMC,,V,,,,,,,,,,N*4D";
     "$GNVTG,,,,,,,,,N*2E";
     "$GNGGA,,,,,,0,00,99.99,,,,,,*56";
     "$GNGSA,A,1,,,,,,,,,,,,,99.99,99.99,99.99*2E";
     "$GNGSA,A,1,,,,,,,,,,,,,99.99,99.99,99.99*2E"].

Definition gps_valid_data : list string :=
  file_lines
    ["$GNGGA,204415.00,5222.81631,N,00453.44115,E,1,08,1.69,-13.1,M,45.9,M,,*59";
     "$GNGSA,A,3,07,11,06,20,,,,,,,,,5.54,1.69,5.28*1A";
     "$GNGSA,A,3,71,86,80,87,,,,,,,,,5.54,1.69,5.28*16";
     "$GNRMC,204416.00,A,5222.81586,N,00453.44075,E,0.947,,290425,,,A*6C";
     "$GNVTG,,T,,M,0.947,N,1.753,K,A*37";
     "$GNGGA,204416.00,5222.81586,N,00453.44075,E,1,08,1.69,-13.3,M,45.9,M,,*50";
     "$GNGSA,A,3,07,11,06,20,,,,,,,,,5.54,1.69,5.27*15";
     "$GNGSA,A,3,71,86,80,87,,,,,,,,,5.54,1.69,5.27*19";
     "$GNRMC,204417.00,A,5222.81530,N,00453.44076,E,0.654,,290425,,,A*6E";
     "$GNVTG,,T,,M,0.654,N,1.212,K,A*3A"].

(** The sentences a file decodes to, in default (non-strict) mode. *)
Definition sentences_of (lines : list string) : list NMEASentence :=
  yielded (parse_nmea_stream lines false).

(** The sentences of the valid sample. *)
Definition valid_sentences : list NMEASentence :=
  Eval vm_compute in sentences_of gps_valid_data.

(** The [i]-th sentence of the valid sample. *)
Definition valid_sentence (i : nat) : NMEASentence :=
  nth i valid_sentences (Plain (base_init "" [] "" "")).

(** The accumulator after the first [n] sentences of the valid sample. *)
Definition valid_state (n : nat) : Current.t :=
  snd (run default_time_window Current.initial
           (firstn n valid_sentences)).


(** An RMC sentence with a date and no time of day. *)
Definition rmc_date_without_time : NMEASentence :=
  Eval vm_compute in
  nth 0 (sentences_of ["$GNRMC,,A,5222.81586,N,00453.44075,E,0.947,,290425,,,A*47"])
      (Plain (base_init "" [] "" "")).


(** The point contains an RMC and/or a GGA with a latitude and a longitude. *)
Definition has_fix (p : PointData.t) : bool :=
  match PointData.rmc p with
  | Some r => is_some (RMC.latitude r) && is_some (RMC.longitude r)
  | None => false
  end
  || match PointData.gga p with
     | Some g => is_some (GGA.latitude g) && is_some (GGA.longitude g)
     | None => false
     end.

(** The point contains an RMC and/or a GGA. *)
Definition has_position_sentence (p : PointData.t) : bool :=
  is_some (PointData.rmc p) || is_some (PointData.gga p).

(** The pending sentence a point built from the accumulator would read its
    position from (the RMC if one is pending, else the GGA), by its
    latitude, longitude and time. *)
Definition pending_position (c : Current.t)
    : option (option float * option float * option datetime.time) :=
  match Current.rmc c, Current.gga c with
  | Some r, _ => Some (RMC.latitude r, RMC.longitude r, RMC.time r)
  | None, Some g => Some (GGA.latitude g, GGA.longitude g, GGA.time g)
  | None, None => None
  end.


(** An RMC sentence with a time of day, coordinates and no date. *)
Definition rmc_without_date : NMEASentence :=
  Eval vm_compute in
  nth 0 (sentences_of ["$GNRMC,204416.00,A,5222.81586,N,00453.44075,E,0.947,,,,,A*64"])
      (Plain (base_init "" [] "" "")).


(** The rational a float stands for, when it is a number. *)
Definition to_Q (x : float) : option Q :=
  match x with
  | S754_zero _ => Some (0 # 1)%Q
  | S754_finite s m e =>
      Some (if 0 <=? e then inject_Z (cond_Zopp s (Zpos m * 2 ^ e))
            else (cond_Zopp s (Zpos m) # Z.to_pos (2 ^ (- e)))%Q)
  | _ => None
  end.

(** [x] is a number within [tol] of [target]. *)
Definition close_to (x : float) (target tol : Q) : Prop :=
  match to_Q x with
  | Some q => (Qabs (q - target) < tol)%Q
  | None => False
  end.

(** The latitude and longitude attributes of a position sentence. *)
Definition coordinates (s : NMEASentence) : option float * option float :=
  match s with
  | Rmc r => (RMC.latitude r, RMC.longitude r)
  | Gga g => (GGA.latitude g, GGA.longitude g)
  | _ => (None, None)
  end.


(** Checksum validation passes for [line]: [parse] gets past its test of the
    start marker and past the checksum block. *)
Definition checksum_passes (line : string) : bool :=
  PyStr.startswith "$" line
  && match snd (verify_checksum line) with
     | Ok _ => true
     | Raise _ => false
     end.

(** Equality of two strings up to the case of their letters. *)
Definition eq_ignoring_case (a b : string) : bool :=
  String.eqb (PyStr.upper a) (PyStr.upper b).


(** The call returns, or raises an exception that satisfies [P]. *)
Definition only {A : Type} (P : exn -> bool) (r : result A) : Prop :=
  match r with
  | Ok _ => True
  | Raise e => P e = true
  end.

(** The call raises. *)
Definition raises {A : Type} (r : result A) : Prop := exists e, r = Raise e.

Definition not_IndexError (e : exn) : bool :=
  match e with IndexError => false | _ => true end.

Definition not_ChecksumError (e : exn) : bool :=
  match e with ChecksumError => false | _ => true end.


Definition is_ValueError_only (e : exn) : bool :=
  match e with ValueError => true | _ => false end.

(** The exceptions of the numeric conversions. *)
Definition is_numeric_error (e : exn) : bool :=
  match e with ValueError | OverflowError => true | _ => false end.


(** What the latitude block logs for the converted latitude [v]. *)
Definition latitude_warning (cls : string) (v : float) : list log_record :=
  if validate_latitude v then [] else [(WARNING, Invalid_latitude cls v)].

(** What the longitude block logs for the converted longitude [v], when
    the pair is not examined for suspicious values. *)
Definition longitude_warning (cls : string) (v : float) : list log_record :=
  if validate_longitude v then [] else [(WARNING, Invalid_longitude cls v)].

(** The attribute a coordinate block leaves for the converted value [v]
    that passes ([ok = true]) or fails ([ok = false]) its range test. *)
Definition kept_if (ok : bool) (v : float) : option float :=
  if ok then Some v else None.


(** An RMC sentence whose latitude field converts to a value above 90. *)
Definition rmc_latitude_out_of_range : NMEASentence :=
  Eval vm_compute in
  nth 0 (sentences_of ["$GNRMC,204416.00,A,9522.81586,N,00453.44075,E,0.947,,290425,,,A*67"])
      (Plain (base_init "" [] "" "")).


(** The kind of a numeric field: read with [int()] or with [float()]. *)
Inductive numeric : Type := Int | Float.

(** The conversion of a field of the given kind returns. *)
Definition converts (k : numeric) (x : string) : bool :=
  match k with
  | Int => match PyFloat.int_of_string x with Ok _ => true | Raise _ => false end
  | Float => match PyFloat.float_of_string x with Ok _ => true | Raise _ => false end
  end.

(** The numeric fields of each class (speeds, courses, dilutions, altitudes
    and counts), by their index in the field list and their kind, as the
    constructors read them. *)
Definition numeric_fields (cls : string) : list (nat * numeric) :=
  if String.eqb cls "RMC" then [(6, Float); (7, Float); (9, Float)]%nat
  else if String.eqb cls "GGA" then
    [(5, Int); (6, Int); (7, Float); (8, Float); (10, Float); (12, Float);
     (13, Int)]%nat
  else if String.eqb cls "GSA" then
    ((1%nat, Int) :: map (fun i => (i, Int)) (seq 2 12)
     ++ [(14, Float); (15, Float); (16, Float)]%nat)%list
  else if String.eqb cls "VTG" then
    [(0, Float); (2, Float); (4, Float); (6, Float)]%nat
  else if String.eqb cls "GSV" then [(0, Int); (1, Int); (2, Int)]%nat
  else [].

(** Some numeric field of the list is not empty and does not convert. *)
Definition bad_numeric_field (cls : string) (data : list string) : Prop :=
  exists i k x,
    In (i, k) (numeric_fields cls)
    /\ nth_error data i = Some x
    /\ PyStr.truthy x = true
    /\ converts k x = false.

(** The text [parse_nmea_stream] hands to [parse] for a line of the file. *)
Definition stream_text (line : string) : string :=
  PyStr.remove_char PyStr.NUL (PyStr.strip (decode_ascii_ignore line)).


(** A GGA line with a valid checksum whose dilution field is [abc]. *)
Definition gga_bad_hdop_line : string :=
  "$GNGGA,204415.00,5222.81631,N,00453.44115,E,1,08,abc,-13.1,M,45.9,M,,*29".


(** The type codes of [SENTENCE_TYPES]. *)
Definition known_type (sentence_type : string) : bool :=
  String.eqb sentence_type "RMC" || String.eqb sentence_type "GGA"
  || String.eqb sentence_type "GSA" || String.eqb sentence_type "GSV"
  || String.eqb sentence_type "VTG".


(** Every character of the string is whitespace ([s.isspace()] or [s] is
    empty). *)
Fixpoint all_space (s : string) : bool :=
  match s with
  | EmptyString => true
  | String c r => PyStr.is_space c && all_space r
  end.


(** The float is a number: neither a NaN nor an infinity. *)
Definition is_number (v : float) : bool :=
  match v with
  | S754_nan | S754_infinity _ => false
  | _ => true
  end.

(** The coordinates are acceptable: a latitude that is present is a number
    in [-90, 90], a longitude that is present is a number in [-180, 180],
    and in strict mode a pair that is present is neither exactly zero nor
    near zero. *)
Definition acceptable (strict : bool) (position : option float * option float)
    : Prop :=
  (forall lat, fst position = Some lat ->
               validate_latitude lat = true /\ is_number lat = true)
  /\ (forall lon, snd position = Some lon ->
                  validate_longitude lon = true /\ is_number lon = true)
  /\ (strict = true ->
      forall lat lon, position = (Some lat, Some lon) ->
                      exactly_zero lat lon = false /\ near_zero lat lon = false).


(** The sentence is an RMC or a GGA. *)
Definition is_position (s : NMEASentence) : bool :=
  match s with
  | Rmc _ | Gga _ => true
  | _ => false
  end.

(** The number of position sentences pending in the accumulator. *)
Definition pending_count (c : Current.t) : nat :=
  (if is_some (Current.rmc c) then 1 else 0)
  + (if is_some (Current.gga c) then 1 else 0).

(** The time of day of a [time] attribute, merged with a date or not. *)
Definition clock_of (x : datetime.stamp) : datetime.time :=
  match x with
  | datetime.Time t => t
  | datetime.DateTime _ t => t
  end.

(** The RMC of a point is the decoded RMC [r] with, at most, a date merged
    into its time. *)
Definition same_rmc (r' : RMC.t datetime.stamp) (r : RMC.t datetime.time)
    : Prop :=
  RMC.set_time r' (@None unit) = RMC.set_time r (@None unit)
  /\ option_map clock_of (RMC.time r') = RMC.time r.

(** The GGA of a point is the decoded GGA [g] with, at most, a date merged
    into its time. *)
Definition same_gga (g' : GGA.t datetime.stamp) (g : GGA.t datetime.time)
    : Prop :=
  GGA.set_time g' (@None unit) = GGA.set_time g (@None unit)
  /\ option_map clock_of (GGA.time g') = GGA.time g.

(** Every sentence of the point is one of the sentences of [input]. *)
Definition from_input (input : list NMEASentence) (p : PointData.t) : Prop :=
  (forall r', PointData.rmc p = Some r' ->
              exists r, In (Rmc r) input /\ same_rmc r' r)
  /\ (forall g', PointData.gga p = Some g' ->
                 exists g, In (Gga g) input /\ same_gga g' g)
  /\ (forall a, PointData.gsa p = Some a -> In (Gsa a) input)
  /\ (forall v, PointData.vtg p = Some v -> In (Vtg v) input)
  /\ (forall v, PointData.gsv p = Some v -> In (Gsv v) input).

(** Every sentence pending in the accumulator is one of the sentences of
    [input]. *)
Definition pending_from (input : list NMEASentence) (c : Current.t) : Prop :=
  (forall r, Current.rmc c = Some r -> In (Rmc r) input)
  /\ (forall g, Current.gga c = Some g -> In (Gga g) input)
  /\ (forall a, Current.gsa c = Some a -> In (Gsa a) input)
  /\ (forall v, Current.vtg c = Some v -> In (Vtg v) input)
  /\ (forall v, Current.gsv c = Some v -> In (Gsv v) input).


(** The coordinates a track point is written with: the latitude and the
    longitude of the RMC of the point, or of its GGA when it has no RMC,
    when both are present. *)
Definition written_position (p : PointData.t) : option (float * float) :=
  match GPXWriter.position p with
  | Some pos =>
      match GPXWriter.latitude pos, GPXWriter.longitude pos with
      | Some lat, Some lon => Some (lat, lon)
      | _, _ => None
      end
  | None => None
  end.

(** The positions of the points that have one, in order. *)
Definition written_positions (points : list PointData.t)
    : list (float * float) :=
  flat_map (fun p => match written_position p with
                     | Some x => [x]
                     | None => []
                     end) points.

(** The pair is a position on the globe: two numbers, the latitude in
    [-90, 90] and the longitude in [-180, 180], and in strict mode neither
    exactly zero nor near zero. *)
Definition on_globe (strict : bool) (lat lon : float) : Prop :=
  (validate_latitude lat = true /\ is_number lat = true)
  /\ (validate_longitude lon = true /\ is_number lon = true)
  /\ (strict = true ->
      exactly_zero lat lon = false /\ near_zero lat lon = false).

(** The line is written inside a track point: it is indented by eight
    spaces at least. *)
Definition inner_line (l : string) : bool := String.prefix "        " l.

(** The line opens a track point. *)
Definition opens_track_point (l : string) : bool :=
  String.prefix "      <trkpt" l.

(** The lines of one track point: the opening line with the coordinates,
    lines that are all indented further, and the closing line. *)
Definition track_point_block (b : list string) (position : float * float)
    : Prop :=
  exists body,
    b = (GPXWriter.trkpt_open (fst position) (snd position)
         :: body ++ ["      </trkpt>"])%list
    /\ forallb inner_line body = true.

(** The line is written inside the extensions of a track point: it is
    indented by ten spaces at least. *)
Definition deep_line (l : string) : bool := String.prefix "          " l.

(** The line is the time element of a track point. *)
Definition time_line (l : string) : bool := String.prefix "        <time>" l.

(** The time of day is a whole second of the day. *)
Definition whole_second (t : datetime.time) : Prop :=
  0 <= datetime.hour t <= 23 /\ 0 <= datetime.minute t <= 59
  /\ 0 <= datetime.second t <= 59 /\ datetime.microsecond t = 0.

(** The string has no LF but, possibly, its last character. *)
Fixpoint no_inner_LF (s : string) : bool :=
  match s with
  | EmptyString => true
  | String c r => (PyStr.is_empty r || negb (Ascii.eqb c LF)) && no_inner_LF r
  end.

(** The string ends with an LF. *)
Fixpoint terminated (s : string) : bool :=
  match s with
  | EmptyString => false
  | String c r => if PyStr.is_empty r then Ascii.eqb c LF else terminated r
  end.

(** The strings are the lines of a file: none is empty, none has an LF
    before its end, and all but the last end with an LF. *)
Fixpoint lines_ok (ls : list string) : bool :=
  match ls with
  | [] => true
  | l :: rest =>
      PyStr.truthy l && no_inner_LF l
      && (match rest with [] => true | _ => terminated l end)
      && lines_ok rest
  end.

(** A file with a sentence, null bytes, a blank line and a last line
    without a line end. *)
Definition padded_file : string :=
  "$GNRMC,,V,,,,,,,,,,N*4D" ++ String PyStr.NUL (String PyStr.NUL newline)
  ++ "  " ++ newline ++ "$GNGGA".

(** The date the merge rule stamps the times of a record with: the date of
    the pending RMC when both an RMC and a GGA are pending and the RMC has
    a time and a date; the inherited date when a GGA is pending without an
    RMC; no date otherwise. *)
Definition merge_date (c : Current.t) : option datetime.date :=
  match Current.rmc c, Current.gga c with
  | Some r, Some _ =>
      match RMC.time r with
      | Some _ => RMC.date r
      | None => None
      end
  | None, Some _ => Current.current_date c
  | _, _ => None
  end.

(** A time of day stamped with a date, when there is one: a full
    timestamp. *)
Definition timestamp (date : option datetime.date)
    (time : option datetime.time) : option datetime.stamp :=
  match time with
  | Some t =>
      Some (match date with
            | Some d => datetime.DateTime d t
            | None => datetime.Time t
            end)
  | None => None
  end.

(** The record the specification builds from the accumulator: the five
    pending sentences, with the times of the RMC and of the GGA stamped by
    the merge rule. *)
Definition merge_rule (c : Current.t) : PointData.t :=
  PointData.mk
    (option_map (fun r => RMC.set_time r (timestamp (merge_date c) (RMC.time r)))
                (Current.rmc c))
    (option_map (fun g => GGA.set_time g (timestamp (merge_date c) (GGA.time g)))
                (Current.gga c))
    (Current.gsa c) (Current.vtg c) (Current.gsv c).

(** An accumulator with a GSA, an RMC with a date and a GGA pending: the
    state after a GSA, the RMC of 20:44:16 and the GGA of 20:44:15 of the
    valid sample. *)
Definition merging_state : Current.t :=
  snd (run default_time_window Current.initial
           [valid_sentence 1; valid_sentence 3; valid_sentence 0]).

(** * Properties *)

(** ** Comparisons of floats *)

Lemma SFeqb_finite_inv (s : bool) (m m' : positive) (e e' : Z) :
  SFeqb (S754_finite s m e) (S754_finite false m' e') = true ->
  s = false /\ m = m' /\ e = e'.
Proof.
  unfold SFeqb, SFcompare.
  destruct s; [discriminate|].
  destruct (Z.compare_spec e e') as [He|He|He]; try discriminate.
  fold (Pos.compare m m').
  destruct (Pos.compare_spec m m') as [Hm|Hm|Hm]; try discriminate.
  intros _. auto.
Qed.

(** A float whose absolute value equals a positive finite constant is that
    constant up to its sign. *)
Lemma abs_eqb_finite (x : float) (m : positive) (e : Z) :
  PyFloat.eqb (PyFloat.abs x) (S754_finite false m e) = true ->
  exists s, x = S754_finite s m e.
Proof.
  unfold PyFloat.eqb, PyFloat.abs.
  destruct x as [s|s| |s m' e']; simpl; try discriminate.
  intros H. apply SFeqb_finite_inv in H as (_ & -> & ->).
  now exists s.
Qed.

Lemma should_reject_coordinates_eq (lat lon : float) (strict : bool) :
  should_reject_coordinates lat lon strict
  = strict && (exactly_zero lat lon || near_zero lat lon).
Proof.
  unfold should_reject_coordinates, detect_gps_errors, exactly_zero, near_zero.
  destruct strict; [|reflexivity].
  destruct (PyFloat.eqb lat PyFloat.zero && PyFloat.eqb lon PyFloat.zero);
    destruct (PyFloat.ltb (PyFloat.abs lat) f0_0001
              && PyFloat.ltb (PyFloat.abs lon) f0_0001);
    destruct (PyFloat.eqb (PyFloat.abs lat) f90);
    destruct (PyFloat.eqb (PyFloat.abs lon) f180);
    reflexivity.
Qed.

Lemma pole_not_zero (lat lon : float) :
  PyFloat.eqb (PyFloat.abs lat) f90 = true ->
  exactly_zero lat lon = false /\ near_zero lat lon = false.
Proof.
  intros H. apply abs_eqb_finite in H as [s ->].
  unfold exactly_zero, near_zero. destruct s; split; reflexivity.
Qed.

Lemma meridian_not_zero (lat lon : float) :
  PyFloat.eqb (PyFloat.abs lon) f180 = true ->
  exactly_zero lat lon = false /\ near_zero lat lon = false.
Proof.
  intros H. apply abs_eqb_finite in H as [s ->].
  unfold exactly_zero, near_zero.
  destruct s; split; apply andb_false_iff; right; reflexivity.
Qed.

(** ** Strict rejection (C6) *)

Lemma for_each_logging {A : Type} (xs : list A) (f : A -> message) (lv : level) :
  snd (for_each xs (fun x => logging lv (f x))) = Ok tt.
Proof.
  induction xs as [|x xs IH]; [reflexivity|].
  simpl. destruct (for_each xs _) as [l r]. simpl in *. now rewrite IH.
Qed.

(** C6: for an in-range pair, [should_reject_coordinates] answers [True]
    exactly when strict mode is on and the pair is flagged exactly zero or
    near zero; the longitude block of the constructors then leaves both
    coordinates [None], and otherwise keeps both.  A pair with
    [abs(lat) == 90.0] or [abs(lon) == 180.0] is flagged by
    [detect_gps_errors] with a message that is not a rejectable one, and is
    not rejected in either mode. *)
Theorem C6_strict_rejection (cls raw hemi : string) (lat lon : float)
    (strict : bool) :
  validate_latitude lat = true ->
  convert_coordinate raw hemi "W" = Ok lon ->
  validate_longitude lon = true ->
  let rejected := strict && (exactly_zero lat lon || near_zero lat lon) in
  should_reject_coordinates lat lon strict = rejected
  /\ snd (parse_longitude cls raw hemi strict (Some lat))
     = Ok (if rejected then (None, None) else (Some lat, Some lon))
  /\ (PyFloat.eqb (PyFloat.abs lat) f90 = true ->
      In err_pole (detect_gps_errors lat lon) /\ rejected = false)
  /\ (PyFloat.eqb (PyFloat.abs lon) f180 = true ->
      In err_meridian (detect_gps_errors lat lon) /\ rejected = false)
  /\ ~ In err_pole rejectable_errors
  /\ ~ In err_meridian rejectable_errors.
Proof.
  intros Hlat Hconv Hlon rejected.
  assert (Hrej : should_reject_coordinates lat lon strict = rejected)
    by apply should_reject_coordinates_eq.
  split; [exact Hrej|]. split.
  - unfold parse_longitude. rewrite Hconv. cbn [lift bind].
    rewrite Hlon. cbn [negb app].
    pose proof (for_each_logging (detect_gps_errors lat lon)
                  (fun error => Coordinate_issue cls error lat lon) WARNING) as Hfe.
    destruct (for_each _ _) as [l r]. simpl in Hfe. subst r.
    cbn [bind]. rewrite Hrej. destruct rejected; reflexivity.
  - split; [|split; [|split]].
    + intros Hp. split.
      * unfold detect_gps_errors. rewrite Hp.
        destruct (PyFloat.eqb (PyFloat.abs lon) f180);
          repeat (apply in_or_app; first [right; now left | left]).
      * destruct (pole_not_zero lat lon Hp) as [Hz Hn].
        unfold rejected. rewrite Hz, Hn. now destruct strict.
    + intros Hm. split.
      * unfold detect_gps_errors. rewrite Hm.
        apply in_or_app. right. now left.
      * destruct (meridian_not_zero lat lon Hm) as [Hz Hn].
        unfold rejected. rewrite Hz, Hn. now destruct strict.
    + unfold rejectable_errors. simpl. intros [H|[H|[H|[]]]]; discriminate.
    + unfold rejectable_errors. simpl. intros [H|[H|[H|[]]]]; discriminate.
Qed.

Lemma C6_strict_rejection_witness :
  should_reject_coordinates f90 f180 true = false
  /\ snd (parse_longitude "GGA" "18000.000" "E" true (Some f90))
     = Ok (Some f90, Some f180).
Proof.
  destruct (C6_strict_rejection "GGA" "18000.000" "E" f90 f180 true)
    as (H1 & H2 & _); [reflexivity .. |].
  split; [exact H1 | exact H2].
Defined.

(** ** The grouping state machine (C2, C8, C1, C10) *)

Lemma get_point_merge_rule (c : Current.t) : get_point c = merge_rule c.
Proof.
  unfold get_point, merge_rule, merge_date, timestamp, stamped, as_time.
  destruct (Current.rmc c) as [r|], (Current.gga c) as [g|];
    cbn [option_map];
    try destruct (RMC.time r) as [t|], (RMC.date r) as [d|];
    try destruct (Current.current_date c) as [d|];
    try destruct (GGA.time g) as [tg|];
    reflexivity.
Qed.

(** C2: when the incoming RMC or GGA has a time, a last-seen time is
    recorded and their distance in seconds since midnight exceeds the time
    window, the window test yields one point if an RMC or a GGA is pending
    and nothing otherwise.  The point is built from the accumulator by the
    merge rule: it holds the pending RMC, GGA, GSA, VTG and GSV; when both
    an RMC and a GGA are pending and the RMC has a time and a date, the
    times of the RMC and of the GGA are stamped with that date; when a GGA
    is pending without an RMC and a date is inherited, the time of the GGA
    is stamped with the inherited date; otherwise the times are left as
    they are.  The test then clears the RMC, GGA, VTG and last-seen-time
    slots and leaves the GSA and GSV slots (and the inherited date) as they
    were.  No other point is yielded in that iteration, after which the
    incoming sentence is the only position sentence pending. *)
Theorem C2_window_flush (time_window : float) (c : Current.t)
    (sentence : NMEASentence) (msg_time last_time : datetime.time) :
  msg_time_of sentence = Some msg_time ->
  Current.last_time c = Some last_time ->
  PyFloat.ltb time_window (time_diff msg_time last_time) = true ->
  let pending := is_some (Current.rmc c) || is_some (Current.gga c) in
  let emitted := if pending then [merge_rule c] else [] in
  let after := snd (window_check time_window c sentence) in
  fst (window_check time_window c sentence) = emitted
  /\ Current.rmc after = None
  /\ Current.gga after = None
  /\ Current.vtg after = None
  /\ Current.last_time after = None
  /\ Current.gsa after = Current.gsa c
  /\ Current.gsv after = Current.gsv c
  /\ Current.current_date after = Current.current_date c
  /\ step time_window c sentence = (emitted, snd (store after sentence))
  /\ fst (store after sentence) = [].
Proof.
  intros Hmsg Hlast Hdiff pending emitted after.
  unfold after, emitted, pending, step, window_check.
  rewrite Hmsg, Hlast, Hdiff, (get_point_merge_rule c).
  cbn [fst snd Current.clear Current.rmc
    Current.gga Current.vtg Current.last_time Current.gsa Current.gsv
    Current.current_date].
  repeat (split; [reflexivity|]).
  assert (Hst : fst (store (Current.clear c) sentence) = []).
  { destruct sentence; reflexivity. }
  split; [|exact Hst].
  destruct (store (Current.clear c) sentence) as [o c2]. simpl in Hst.
  subst o. now rewrite app_nil_r.
Qed.

Lemma C2_window_flush_witness :
  exists p,
    fst (window_check default_time_window merging_state (valid_sentence 8))
    = [p]
    /\ option_map RMC.time (PointData.rmc p)
       = Some (Some (datetime.DateTime (datetime.mk_date 2025 4 29)
                                       (datetime.mk_time 20 44 16 0)))
    /\ option_map GGA.time (PointData.gga p)
       = Some (Some (datetime.DateTime (datetime.mk_date 2025 4 29)
                                       (datetime.mk_time 20 44 15 0)))
    /\ PointData.gsa p = Current.gsa merging_state
    /\ is_some (PointData.gsa p) = true
    /\ Current.gga (snd (window_check default_time_window merging_state
                                      (valid_sentence 8))) = None
    /\ Current.gsa (snd (window_check default_time_window merging_state
                                      (valid_sentence 8)))
       = Current.gsa merging_state.
Proof.
  destruct (C2_window_flush default_time_window merging_state
              (valid_sentence 8)
              (datetime.mk_time 20 44 17 0) (datetime.mk_time 20 44 15 0))
    as (H1 & _ & H3 & _ & _ & H6 & _); [reflexivity .. |].
  exists (merge_rule merging_state).
  split; [exact H1|].
  split; [vm_compute; reflexivity|].
  split; [vm_compute; reflexivity|].
  split; [reflexivity|].
  split; [vm_compute; reflexivity|].
  split; [exact H3 | exact H6].
Defined.

(** The claim C8 fails for an RMC that carries a date and no time: the
    inherited date is left as it was. *)
Lemma C8_counterexample :
  exists r, rmc_date_without_time = Rmc r
    /\ RMC.time r = None
    /\ RMC.date r = Some (datetime.mk_date 2025 4 29)
    /\ Current.current_date
         (snd (step default_time_window Current.initial (Rmc r))) = None.
Proof.
  eexists. split; [reflexivity|]. repeat split.
Qed.

(** C8, amended: an iteration stores the incoming sentence in the slot of
    its class; for an RMC or a GGA it sets the last-seen time to the time of
    the sentence ([None] when it has none) and otherwise leaves it alone; it
    sets the inherited date to the date of an RMC that carries both a time
    and a date, and leaves it alone for every other sentence, an RMC with a
    date and no time included. *)
Theorem C8_store_sentence (time_window : float) (c : Current.t)
    (sentence : NMEASentence) :
  let after := snd (step time_window c sentence) in
  match sentence with
  | Rmc r => Current.rmc after = Some r
  | Gga g => Current.gga after = Some g
  | Gsa a => Current.gsa after = Some a
  | Vtg v => Current.vtg after = Some v
  | Gsv v => Current.gsv after = Some v
  | Plain _ => after = c
  end
  /\ Current.last_time after
     = match sentence with
       | Rmc r => RMC.time r
       | Gga g => GGA.time g
       | _ => Current.last_time c
       end
  /\ Current.current_date after
     = match sentence with
       | Rmc r =>
           match RMC.time r, RMC.date r with
           | Some _, Some d => Some d
           | _, _ => Current.current_date c
           end
       | _ => Current.current_date c
       end.
Proof.
  destruct sentence as [r|g|a|v|v|b]; unfold step, window_check; cbn [msg_time_of].
  - destruct (RMC.time r) as [t|] eqn:Ht, (Current.last_time c) as [lt|];
      try destruct (PyFloat.ltb _ _);
      cbn [store Current.clear Current.rmc Current.gga is_some andb flush];
      try (destruct (is_some (Current.rmc c) && is_some (Current.gga c)));
      rewrite ?Ht; destruct (RMC.date r); cbn; auto.
  - destruct (GGA.time g) as [t|] eqn:Ht, (Current.last_time c) as [lt|];
      try destruct (PyFloat.ltb _ _);
      cbn [store Current.clear Current.rmc Current.gga is_some andb flush];
      try (destruct (is_some (Current.gga c) && is_some (Current.rmc c)));
      rewrite ?Ht; cbn; auto.
  - cbn. auto.
  - cbn. auto.
  - cbn. auto.
  - cbn. auto.
Qed.

Lemma get_point_has_position_sentence (c : Current.t) :
  has_position_sentence (get_point c)
  = is_some (Current.rmc c) || is_some (Current.gga c).
Proof.
  unfold has_position_sentence, get_point.
  destruct (Current.rmc c) as [r|], (Current.gga c) as [g|]; cbn;
    try reflexivity.
  - destruct (RMC.time r), (RMC.date r); reflexivity.
  - destruct (Current.current_date c); reflexivity.
Qed.

Lemma window_check_emits (w : float) (c : Current.t) (s : NMEASentence) :
  Forall (fun p => has_position_sentence p = true) (fst (window_check w c s)).
Proof.
  unfold window_check.
  destruct (msg_time_of s), (Current.last_time c); cbn; try constructor.
  destruct (PyFloat.ltb _ _); cbn; try constructor.
  destruct (is_some (Current.rmc c) || is_some (Current.gga c)) eqn:E;
    constructor; [|constructor].
  now rewrite get_point_has_position_sentence.
Qed.

Lemma store_emits (c : Current.t) (s : NMEASentence) :
  Forall (fun p => has_position_sentence p = true) (fst (store c s)).
Proof.
  destruct s; cbn; try constructor.
  - destruct (is_some (Current.rmc c) && is_some (Current.gga c)) eqn:E;
      cbn; constructor; [|constructor].
    rewrite get_point_has_position_sentence.
    apply andb_true_iff in E as [-> _]. reflexivity.
  - destruct (is_some (Current.gga c) && is_some (Current.rmc c)) eqn:E;
      cbn; constructor; [|constructor].
    rewrite get_point_has_position_sentence.
    apply andb_true_iff in E as [_ ->]. reflexivity.
Qed.

Lemma step_emits (w : float) (c : Current.t) (s : NMEASentence) :
  Forall (fun p => has_position_sentence p = true) (fst (step w c s)).
Proof.
  unfold step.
  pose proof (window_check_emits w c s) as H1.
  destruct (window_check w c s) as [o1 c1].
  pose proof (store_emits c1 s) as H2.
  destruct (store c1 s) as [o2 c2]. cbn in *.
  apply Forall_app. now split.
Qed.

Lemma run_emits (w : float) (sentences : list NMEASentence) (c : Current.t) :
  Forall (fun p => has_position_sentence p = true) (fst (run w c sentences)).
Proof.
  revert c. induction sentences as [|s rest IH]; intros c; cbn.
  - constructor.
  - pose proof (step_emits w c s) as H1.
    destruct (step w c s) as [o c'].
    specialize (IH c'). destruct (run w c' rest) as [os c'']. cbn in *.
    apply Forall_app. now split.
Qed.

(** The claim C1 fails on the searching sample: the state machine yields two
    points, and neither holds a sentence with coordinates. *)
Lemma C1_counterexample :
  map has_fix (group_nmea_points (sentences_of gps_searching_data)
                                 default_time_window)
  = [false; false].
Proof. vm_compute. reflexivity. Qed.

(** C1, amended: every point [group_nmea_points] yields, the one yielded
    after the loop included, contains an RMC and/or a GGA, with or without
    coordinates.  The coordinates are required by [add_trackpoint]: whenever
    it writes anything, the sentence it reads the position from (the RMC if
    there is one, else the GGA) has a latitude and a longitude, and what it
    writes starts with the track point of that pair.  On the searching
    sample no track point is written. *)
Theorem C1_emitted_points (sentences : list NMEASentence) (time_window : float) :
  Forall (fun p => has_position_sentence p = true)
         (group_nmea_points sentences time_window)
  /\ (forall p : PointData.t,
        match GPXWriter.add_trackpoint p with
        | [] => True
        | line :: _ =>
            exists pos lat lon,
              GPXWriter.position p = Some pos
              /\ GPXWriter.latitude pos = Some lat
              /\ GPXWriter.longitude pos = Some lon
              /\ line = GPXWriter.trkpt_open lat lon
              /\ has_fix p = true
        end)
  /\ process_file gps_searching_data false = [].
Proof.
  split; [|split].
  - unfold group_nmea_points.
    pose proof (run_emits time_window sentences Current.initial) as H.
    destruct (run time_window Current.initial sentences) as [out c]. cbn in H.
    apply Forall_app. split; [exact H|].
    unfold final_flush.
    destruct (is_some (Current.rmc c) || is_some (Current.gga c)) eqn:E;
      constructor; [|constructor].
    now rewrite get_point_has_position_sentence.
  - intros p. unfold GPXWriter.add_trackpoint.
    destruct (GPXWriter.position p) as [pos|] eqn:Hpos; [|exact I].
    destruct (GPXWriter.latitude pos) as [lat|] eqn:Hlat; [|exact I].
    destruct (GPXWriter.longitude pos) as [lon|] eqn:Hlon; [|exact I].
    cbn [app]. exists pos, lat, lon. repeat split; try assumption.
    unfold GPXWriter.position in Hpos. unfold has_fix.
    destruct (PointData.rmc p) as [r|].
    + injection Hpos as <-. cbn in Hlat, Hlon. now rewrite Hlat, Hlon.
    + destruct (PointData.gga p) as [g|]; [|discriminate].
      injection Hpos as <-. cbn in Hlat, Hlon. now rewrite Hlat, Hlon.
  - vm_compute. reflexivity.
Qed.

(** C10: when the sentence the position is read from has coordinates and a
    time of day, the pending RMC (if any) has no date and no date was
    inherited, the track point written for the accumulator has a [<time>]
    element, and its date part is [1900-01-01]. *)
Theorem C10_placeholder_date (c : Current.t) (t : datetime.time)
    (lat lon : float) :
  pending_position c = Some (Some lat, Some lon, Some t) ->
  (forall r, Current.rmc c = Some r -> RMC.date r = None) ->
  Current.current_date c = None ->
  GPXWriter.position (get_point c)
  = Some (GPXWriter.mk_pos (Some lat) (Some lon) (Some (datetime.Time t)))
  /\ In (GPXWriter.tag "        " "time" ("1900-01-01T" ++ datetime.clock t))
        (GPXWriter.add_trackpoint (get_point c)).
Proof.
  intros Hpos Hrmc Hdate.
  assert (Hp : GPXWriter.position (get_point c)
    = Some (GPXWriter.mk_pos (Some lat) (Some lon) (Some (datetime.Time t)))).
  { unfold pending_position in Hpos. unfold get_point, GPXWriter.position.
    destruct (Current.rmc c) as [r|] eqn:Er.
    - injection Hpos as Hlat Hlon Ht.
      specialize (Hrmc r eq_refl).
      destruct (Current.gga c) as [g|]; rewrite Ht, ?Hrmc; cbn;
        now rewrite Hlat, Hlon.
    - destruct (Current.gga c) as [g|]; [|discriminate].
      injection Hpos as Hlat Hlon Ht. rewrite Hdate. cbn.
      now rewrite Hlat, Hlon, Ht. }
  split; [exact Hp|].
  unfold GPXWriter.add_trackpoint. rewrite Hp.
  cbn [GPXWriter.latitude GPXWriter.longitude GPXWriter.time].
  apply in_cons, in_or_app. right. apply in_or_app. left. now left.
Qed.

Lemma C10_placeholder_date_witness :
  In "        <time>1900-01-01T20:44:16.000000Z</time>"
     (GPXWriter.add_trackpoint
        (get_point (snd (step default_time_window Current.initial
                              rmc_without_date)))).
Proof.
  refine (proj2 (C10_placeholder_date
                   (snd (step default_time_window Current.initial
                              rmc_without_date))
                   (datetime.mk_time 20 44 16 0)
                   (S754_finite false 7371866841661502 (-47))
                   (S754_finite false 5506415218147162 (-50)) _ _ _)).
  - reflexivity.
  - intros r H. injection H as <-. reflexivity.
  - reflexivity.
Defined.

(** ** Coordinate conversion (C9) *)

Lemma of_int_Ok (z : Z) (x : float) : PyFloat.of_int z = Ok x -> x = PyFloat.of_Z z.
Proof.
  unfold PyFloat.of_int. destruct (PyFloat.of_Z z); intros H;
    try discriminate; now injection H.
Qed.

(** C9: a coordinate field is converted by the [dddmm.mmmm] rule, in float
    arithmetic: the degrees are the integer part of the field over 100, the
    minutes what is left of the field, the result degrees plus minutes over
    60, negated when the hemisphere letter is the negative one (["S"] for a
    latitude, ["W"] for a longitude).  The fields [5222.81586,N] and
    [00453.44075,E], as the RMC and GGA of the valid sample carry them,
    decode to a latitude within 1e-6 of 52.38026433 and a longitude within
    1e-6 of 4.89067917; with [S] and [W] they decode to the opposite
    values. *)
Theorem C9_coordinate_rule :
  (forall (raw hemi negative : string) (d : float),
      convert_coordinate raw hemi negative = Ok d ->
      exists v deg,
        PyFloat.float_of_string raw = Ok v
        /\ PyFloat.to_int (PyFloat.div v (PyFloat.of_Z 100)) = Ok deg
        /\ let minutes := PyFloat.sub v (PyFloat.of_Z (deg * 100)) in
           let degrees :=
             PyFloat.add (PyFloat.of_Z deg)
                         (PyFloat.div minutes (PyFloat.of_Z 60)) in
           d = if String.eqb hemi negative then PyFloat.neg degrees
               else degrees)
  /\ (exists lat lon,
        coordinates (valid_sentence 3) = (Some lat, Some lon)
        /\ coordinates (valid_sentence 5) = (Some lat, Some lon)
        /\ convert_coordinate "5222.81586" "N" "S" = Ok lat
        /\ convert_coordinate "00453.44075" "E" "W" = Ok lon
        /\ convert_coordinate "5222.81586" "S" "S" = Ok (PyFloat.neg lat)
        /\ convert_coordinate "00453.44075" "W" "W" = Ok (PyFloat.neg lon)
        /\ close_to lat (5238026433 # 100000000) (1 # 1000000)
        /\ close_to lon (489067917 # 100000000) (1 # 1000000)).
Proof.
  split.
  - intros raw hemi negative d. unfold convert_coordinate.
    destruct (PyFloat.float_of_string raw) as [v|] eqn:Ev; [|discriminate].
    cbn [rbind].
    destruct (PyFloat.to_int (PyFloat.div v (PyFloat.of_Z 100))) as [deg|] eqn:Eg;
      [|discriminate].
    cbn [rbind].
    destruct (PyFloat.of_int (deg * 100)) as [d100|] eqn:E100; [|discriminate].
    cbn [rbind].
    destruct (PyFloat.of_int deg) as [fd|] eqn:Ed; [|discriminate].
    cbn [rbind]. intros H. injection H as <-.
    apply of_int_Ok in E100, Ed. subst d100 fd.
    exists v, deg. split; [reflexivity|]. split; [exact Eg|].
    cbv zeta. reflexivity.
  - exists (S754_finite false 7371866841661502 (-47)),
           (S754_finite false 5506415218147162 (-50)).
    repeat split; vm_compute; reflexivity.
Qed.

Lemma C9_coordinate_rule_witness :
  exists v deg,
    PyFloat.float_of_string "5222.81586" = Ok v
    /\ PyFloat.to_int (PyFloat.div v (PyFloat.of_Z 100)) = Ok deg
    /\ S754_finite true 7371866841661502 (-47)
       = PyFloat.neg (PyFloat.add (PyFloat.of_Z deg)
           (PyFloat.div (PyFloat.sub v (PyFloat.of_Z (deg * 100)))
                        (PyFloat.of_Z 60))).
Proof.
  apply (proj1 C9_coordinate_rule "5222.81586" "S" "S").
  vm_compute. reflexivity.
Defined.

(** ** Strings *)

Lemma is_empty_true (s : string) : PyStr.is_empty s = true -> s = "".
Proof. destruct s; [reflexivity | discriminate]. Qed.

Lemma remove_char_app (c : ascii) (a b : string) :
  PyStr.remove_char c (a ++ b) = PyStr.remove_char c a ++ PyStr.remove_char c b.
Proof.
  induction a as [|x a IH]; [reflexivity|].
  simpl. destruct (Ascii.eqb x c); simpl; now rewrite IH.
Qed.

Lemma rstrip_app_nonspace (x y : string) (c : ascii) :
  PyStr.is_space c = false ->
  PyStr.rstrip (x ++ String c y) = x ++ String c (PyStr.rstrip y).
Proof.
  intros Hc. induction x as [|a x IH]; simpl.
  - now rewrite Hc.
  - rewrite IH. destruct x; simpl; now rewrite andb_false_r.
Qed.

Lemma rstrip_idempotent (s : string) :
  PyStr.rstrip (PyStr.rstrip s) = PyStr.rstrip s.
Proof.
  induction s as [|c s IH]; [reflexivity|].
  simpl. destruct (PyStr.is_space c && PyStr.is_empty (PyStr.rstrip s)) eqn:E;
    [reflexivity|].
  simpl. now rewrite IH, E.
Qed.

Lemma lstrip_rstrip (s : string) :
  PyStr.lstrip (PyStr.rstrip s) = PyStr.rstrip (PyStr.lstrip s).
Proof.
  induction s as [|c s IH]; [reflexivity|].
  simpl. destruct (PyStr.is_space c) eqn:Ec; simpl.
  - destruct (PyStr.is_empty (PyStr.rstrip s)) eqn:Ee.
    + apply is_empty_true in Ee. rewrite Ee in IH. now rewrite <- IH.
    + simpl. now rewrite Ec.
  - now rewrite Ec.
Qed.

Lemma strip_rstrip (s : string) : PyStr.strip (PyStr.rstrip s) = PyStr.strip s.
Proof.
  unfold PyStr.strip. now rewrite lstrip_rstrip, rstrip_idempotent.
Qed.

Lemma contains_app (c : ascii) (a b : string) :
  PyStr.contains c (a ++ b) = PyStr.contains c a || PyStr.contains c b.
Proof.
  induction a as [|x a IH]; [reflexivity|].
  simpl. now rewrite IH, orb_assoc.
Qed.

Lemma contains_remove_char (c d : ascii) (s : string) :
  Ascii.eqb c d = false ->
  PyStr.contains c (PyStr.remove_char d s) = PyStr.contains c s.
Proof.
  intros Hcd. induction s as [|x s IH]; [reflexivity|].
  simpl. destruct (Ascii.eqb x d) eqn:Exd.
  - apply Ascii.eqb_eq in Exd. subst x.
    rewrite IH. rewrite Ascii.eqb_sym, Hcd. reflexivity.
  - simpl. now rewrite IH.
Qed.

Lemma contains_rstrip (c : ascii) (s : string) :
  PyStr.is_space c = false ->
  PyStr.contains c (PyStr.rstrip s) = PyStr.contains c s.
Proof.
  intros Hc. induction s as [|x s IH]; [reflexivity|].
  simpl. destruct (PyStr.is_space x) eqn:Ex; simpl.
  - destruct (PyStr.is_empty (PyStr.rstrip s)) eqn:Ee; simpl.
    + apply is_empty_true in Ee. rewrite Ee in IH. simpl in IH.
      rewrite <- IH.
      destruct (Ascii.eqb x c) eqn:Exc; [|reflexivity].
      apply Ascii.eqb_eq in Exc. congruence.
    + now rewrite IH.
  - now rewrite IH.
Qed.

Lemma split_no_sep (sep : ascii) (s : string) :
  PyStr.contains sep s = false -> PyStr.split sep s = [s].
Proof.
  induction s as [|x s IH]; [reflexivity|].
  simpl. intros H. apply orb_false_iff in H as [Hx Hs].
  rewrite Hx, (IH Hs). reflexivity.
Qed.

Lemma split_app_sep (sep : ascii) (a b : string) :
  PyStr.contains sep a = false ->
  PyStr.split sep (a ++ String sep b) = a :: PyStr.split sep b.
Proof.
  induction a as [|x a IH]; simpl.
  - intros _. now rewrite Ascii.eqb_refl.
  - intros H. apply orb_false_iff in H as [Hx Ha].
    rewrite Hx, (IH Ha). reflexivity.
Qed.

Lemma contains_decompose (c : ascii) (s : string) :
  PyStr.contains c s = true ->
  exists a b, s = a ++ String c b /\ PyStr.contains c a = false.
Proof.
  induction s as [|x s IH]; [discriminate|].
  simpl. destruct (Ascii.eqb x c) eqn:Ex.
  - intros _. apply Ascii.eqb_eq in Ex. subst x.
    exists "", s. split; reflexivity.
  - simpl. intros H. destruct (IH H) as (a & b & -> & Ha).
    exists (String x a), b. split; [reflexivity|].
    simpl. now rewrite Ex.
Qed.

Lemma split_at_least_two (sep : ascii) (s : string) :
  PyStr.contains sep s = true ->
  exists a b l, PyStr.split sep s = a :: b :: l.
Proof.
  intros H. destruct (contains_decompose sep s H) as (a & b & -> & Ha).
  rewrite (split_app_sep sep a b Ha).
  destruct b as [|y b]; simpl.
  - now exists a, "", [].
  - destruct (Ascii.eqb y sep).
    + now exists a, "", (PyStr.split sep b).
    + destruct (PyStr.split sep b) as [|h t]; eauto.
Qed.

(** A string has at most one decomposition around a separator that occurs
    on neither side. *)
Lemma decomposition_unique (c : ascii) (a b a' b' : string) :
  PyStr.contains c a' = false ->
  PyStr.contains c b' = false ->
  a ++ String c b = a' ++ String c b' ->
  a = a' /\ b = b'.
Proof.
  intros Ha' Hb'. revert a. induction a' as [|y a' IH]; intros a E.
  - destruct a as [|x a]; simpl in E.
    + injection E as <-. auto.
    + injection E as -> E. subst b'.
      rewrite contains_app in Hb'. simpl in Hb'.
      rewrite Ascii.eqb_refl, orb_true_r in Hb'. discriminate.
  - simpl in Ha'. apply orb_false_iff in Ha' as [Hy Ha'].
    destruct a as [|x a]; simpl in E.
    + injection E as <- _. rewrite Ascii.eqb_refl in Hy. discriminate.
    + injection E as -> E. destruct (IH Ha' a E) as [-> ->]. auto.
Qed.

(** ** The checksum (C5) *)

Lemma code_range (c : ascii) : 0 <= PyStr.code c < 256.
Proof.
  unfold PyStr.code. pose proof (N_ascii_bounded c) as H. lia.
Qed.

Lemma code_inj (a b : ascii) : PyStr.code a = PyStr.code b -> a = b.
Proof.
  unfold PyStr.code. intros H. apply N2Z.inj in H.
  rewrite <- (ascii_N_embedding a), <- (ascii_N_embedding b). now rewrite H.
Qed.

Lemma code_of_N (n : Z) :
  0 <= n < 256 -> PyStr.code (ascii_of_N (Z.to_N n)) = n.
Proof.
  intros H. unfold PyStr.code. rewrite N_ascii_embedding; lia.
Qed.

Lemma code_NUL (c : ascii) : Ascii.eqb c PyStr.NUL = true -> PyStr.code c = 0.
Proof. intros H. apply Ascii.eqb_eq in H. now subst c. Qed.

Lemma lxor_range (a b : Z) : 0 <= a < 256 -> 0 <= b < 256 -> 0 <= Z.lxor a b < 256.
Proof.
  intros Ha Hb.
  assert (H0 : 0 <= Z.lxor a b) by (apply Z.lxor_nonneg; lia).
  split; [exact H0|].
  destruct (Z.eq_dec (Z.lxor a b) 0) as [E|E]; [lia|].
  change 256 with (2 ^ 8). apply Z.log2_lt_pow2; [lia|].
  pose proof (Z.log2_lxor a b ltac:(lia) ltac:(lia)) as Hl.
  assert (Z.log2 a < 8).
  { destruct (Z.eq_dec a 0) as [->|]; [cbn; lia|].
    apply Z.log2_lt_pow2; lia. }
  assert (Z.log2 b < 8).
  { destruct (Z.eq_dec b 0) as [->|]; [cbn; lia|].
    apply Z.log2_lt_pow2; lia. }
  lia.
Qed.

Lemma xor_fold_range (s : string) (acc : Z) :
  0 <= acc < 256 -> 0 <= xor_fold s acc < 256.
Proof.
  revert acc. induction s as [|c s IH]; intros acc H; simpl; [exact H|].
  apply IH, lxor_range; [exact H | apply code_range].
Qed.

Lemma xor_fold_acc (s : string) (acc : Z) :
  xor_fold s acc = Z.lxor acc (xor_fold s 0).
Proof.
  revert acc. induction s as [|c s IH]; intros acc; simpl.
  - now rewrite Z.lxor_0_r.
  - rewrite (IH (Z.lxor acc (PyStr.code c))), (IH (PyStr.code c)).
    now rewrite Z.lxor_assoc.
Qed.

Lemma xor_fold_app (a b : string) (acc : Z) :
  xor_fold (a ++ b) acc = xor_fold b (xor_fold a acc).
Proof.
  revert acc. induction a as [|c a IH]; intros acc; simpl; [reflexivity|].
  apply IH.
Qed.

(** Null bytes do not change the checksum. *)
Lemma xor_fold_remove_NUL (s : string) (acc : Z) :
  xor_fold (PyStr.remove_char PyStr.NUL s) acc = xor_fold s acc.
Proof.
  revert acc. induction s as [|c s IH]; intros acc; simpl; [reflexivity|].
  destruct (Ascii.eqb c PyStr.NUL) eqn:E.
  - rewrite (code_NUL c E), Z.lxor_0_r. apply IH.
  - simpl. apply IH.
Qed.

(** Changing one character of the payload changes the value of the fold. *)
Lemma xor_fold_corrupted (p1 p2 : string) (c c' : ascii) :
  xor_fold (p1 ++ String c p2) 0 = xor_fold (p1 ++ String c' p2) 0 -> c = c'.
Proof.
  rewrite !xor_fold_app. simpl.
  rewrite (xor_fold_acc p2 (Z.lxor _ (PyStr.code c))).
  rewrite (xor_fold_acc p2 (Z.lxor _ (PyStr.code c'))).
  set (x1 := xor_fold p1 0). set (x2 := xor_fold p2 0).
  intros H. apply code_inj.
  assert (E : forall k, Z.lxor x1 (Z.lxor (Z.lxor (Z.lxor x1 k) x2) x2) = k).
  { intros k. rewrite (Z.lxor_assoc (Z.lxor x1 k)), Z.lxor_nilpotent, Z.lxor_0_r.
    now rewrite <- Z.lxor_assoc, Z.lxor_nilpotent, Z.lxor_0_l. }
  rewrite <- (E (PyStr.code c)), <- (E (PyStr.code c')). now rewrite H.
Qed.

Lemma code_hex_digit (d : Z) :
  0 <= d < 16 ->
  PyStr.code (PyStr.hex_digit d) = if d <? 10 then 48 + d else 55 + d.
Proof.
  intros H. unfold PyStr.hex_digit.
  destruct (d <? 10) eqn:E; apply code_of_N;
    [apply Z.ltb_lt in E | apply Z.ltb_ge in E]; lia.
Qed.

Lemma hex_digit_inj (a b : Z) :
  0 <= a < 16 -> 0 <= b < 16 -> PyStr.hex_digit a = PyStr.hex_digit b -> a = b.
Proof.
  intros Ha Hb H. apply (f_equal PyStr.code) in H.
  rewrite !code_hex_digit in H by assumption.
  destruct (a <? 10) eqn:Ea, (b <? 10) eqn:Eb;
    try apply Z.ltb_lt in Ea; try apply Z.ltb_lt in Eb;
    try apply Z.ltb_ge in Ea; try apply Z.ltb_ge in Eb; lia.
Qed.

Lemma div16_range (n : Z) : 0 <= n < 256 -> 0 <= n / 16 < 16.
Proof.
  intros H. split; [apply Z.div_pos; lia | apply Z.div_lt_upper_bound; lia].
Qed.

Lemma hex2_inj (a b : Z) :
  0 <= a < 256 -> 0 <= b < 256 -> PyStr.hex2 a = PyStr.hex2 b -> a = b.
Proof.
  intros Ha Hb H. unfold PyStr.hex2 in H. injection H as H1 H2.
  apply hex_digit_inj in H1; try (apply div16_range; assumption).
  apply hex_digit_inj in H2; try (apply Z.mod_pos_bound; lia).
  rewrite (Z.div_mod a 16), (Z.div_mod b 16) by lia. lia.
Qed.

Lemma upper_char_hex_digit (d : Z) :
  0 <= d < 16 -> PyStr.upper_char (PyStr.hex_digit d) = PyStr.hex_digit d.
Proof.
  intros H. unfold PyStr.upper_char. rewrite code_hex_digit by exact H.
  destruct (d <? 10) eqn:E;
    [apply Z.ltb_lt in E | apply Z.ltb_ge in E].
  - replace (97 <=? 48 + d) with false by (symmetry; apply Z.leb_gt; lia).
    reflexivity.
  - replace (97 <=? 55 + d) with false by (symmetry; apply Z.leb_gt; lia).
    reflexivity.
Qed.

(** The rendering [f"{n:02X}"] is already upper case. *)
Lemma upper_hex2 (n : Z) : 0 <= n < 256 -> PyStr.upper (PyStr.hex2 n) = PyStr.hex2 n.
Proof.
  intros H. unfold PyStr.hex2. simpl.
  rewrite !upper_char_hex_digit;
    [reflexivity | apply Z.mod_pos_bound; lia | apply div16_range; exact H].
Qed.

Lemma upper_char_idempotent (c : ascii) :
  PyStr.upper_char (PyStr.upper_char c) = PyStr.upper_char c.
Proof.
  unfold PyStr.upper_char.
  destruct ((97 <=? PyStr.code c) && (PyStr.code c <=? 122)) eqn:E.
  - apply andb_true_iff in E as [E1 E2].
    apply Z.leb_le in E1, E2.
    rewrite code_of_N by lia.
    replace (97 <=? PyStr.code c - 32) with false
      by (symmetry; apply Z.leb_gt; lia).
    reflexivity.
  - now rewrite E.
Qed.

Lemma upper_idempotent (s : string) : PyStr.upper (PyStr.upper s) = PyStr.upper s.
Proof.
  induction s as [|c s IH]; [reflexivity|].
  simpl. now rewrite upper_char_idempotent, IH.
Qed.

Lemma app_assoc_string (a b c : string) : (a ++ b) ++ c = a ++ b ++ c.
Proof. induction a as [|x a IH]; [reflexivity|]. simpl. now rewrite IH. Qed.

(** The line [parse] works on, for a raw line with a ['*'] in it. *)
Lemma cleaned_line (a b : string) :
  PyStr.strip (PyStr.remove_char PyStr.NUL (String "$" (a ++ String "*" b)))
  = String "$" (PyStr.remove_char PyStr.NUL a)
    ++ String "*" (PyStr.rstrip (PyStr.remove_char PyStr.NUL b)).
Proof.
  cbn [PyStr.remove_char]. change (Ascii.eqb "$" PyStr.NUL) with false. cbv iota.
  rewrite remove_char_app. cbn [PyStr.remove_char].
  change (Ascii.eqb "*" PyStr.NUL) with false. cbv iota.
  unfold PyStr.strip. cbn [PyStr.lstrip].
  change (PyStr.is_space "$") with false. cbv iota.
  change (String "$" (PyStr.remove_char PyStr.NUL a
                      ++ String "*" (PyStr.remove_char PyStr.NUL b)))
    with (String "$" (PyStr.remove_char PyStr.NUL a)
          ++ String "*" (PyStr.remove_char PyStr.NUL b)).
  now rewrite rstrip_app_nonspace.
Qed.

Lemma checksum_passes_line (a b : string) :
  PyStr.contains "*" a = false ->
  checksum_passes (String "$" (a ++ String "*" b))
  = negb (PyStr.contains "*" b)
    && String.eqb (PyStr.hex2 (xor_fold a 0))
                  (PyStr.upper (PyStr.strip (PyStr.remove_char PyStr.NUL b))).
Proof.
  intros Ha. unfold checksum_passes, verify_checksum.
  rewrite cleaned_line.
  set (a' := String "$" (PyStr.remove_char PyStr.NUL a)).
  set (b' := PyStr.rstrip (PyStr.remove_char PyStr.NUL b)).
  assert (Ha' : PyStr.contains "*" a' = false).
  { unfold a'. cbn [PyStr.contains]. change (Ascii.eqb "$" "*") with false.
    cbn [orb]. now rewrite contains_remove_char. }
  assert (Hb' : PyStr.contains "*" b' = PyStr.contains "*" b).
  { unfold b'. rewrite contains_rstrip by reflexivity.
    now rewrite contains_remove_char. }
  unfold split_checksum.
  rewrite contains_app, Ha'. cbn [PyStr.contains orb].
  rewrite Ascii.eqb_refl. cbn [orb].
  rewrite (split_app_sep "*" a' b' Ha').
  cbn [PyStr.startswith]. rewrite Ascii.eqb_refl. cbn [andb].
  destruct (PyStr.contains "*" b) eqn:Hb.
  - destruct (split_at_least_two "*" b' Hb') as (x & y & l & ->).
    reflexivity.
  - rewrite (split_no_sep "*" b' Hb').
    cbn [lift bind negb andb].
    assert (Hm : checksum_matches a' b'
                 = String.eqb (PyStr.hex2 (xor_fold a 0))
                     (PyStr.upper (PyStr.strip (PyStr.remove_char PyStr.NUL b)))).
    { unfold checksum_matches, a', b'. cbn [PyStr.drop].
      now rewrite xor_fold_remove_NUL, strip_rstrip. }
    rewrite Hm.
    destruct (String.eqb _ _); reflexivity.
Qed.

Lemma checksum_passes_no_separator (rest : string) :
  PyStr.contains "*" rest = false -> checksum_passes (String "$" rest) = false.
Proof.
  intros H. unfold checksum_passes, verify_checksum, split_checksum.
  assert (E : PyStr.contains "*"
                (PyStr.strip (PyStr.remove_char PyStr.NUL (String "$" rest)))
              = false).
  { cbn [PyStr.remove_char]. change (Ascii.eqb "$" PyStr.NUL) with false.
    cbv iota. unfold PyStr.strip. cbn [PyStr.lstrip].
    change (PyStr.is_space "$") with false. cbv iota.
    rewrite contains_rstrip by reflexivity.
    cbn [PyStr.contains]. change (Ascii.eqb "$" "*") with false. cbn [orb].
    now rewrite contains_remove_char. }
  rewrite E. cbn. reflexivity.
Qed.

Lemma startswith_inv (c : ascii) (line : string) :
  PyStr.startswith c line = true -> exists rest, line = String c rest.
Proof.
  destruct line as [|x rest]; [discriminate|].
  simpl. intros H. apply Ascii.eqb_eq in H. subst x. now exists rest.
Qed.

Lemma eq_ignoring_case_hex2 (n : Z) (s : string) :
  0 <= n < 256 ->
  eq_ignoring_case (PyStr.hex2 n) s = String.eqb (PyStr.hex2 n) (PyStr.upper s).
Proof.
  intros H. unfold eq_ignoring_case. now rewrite upper_hex2.
Qed.

Lemma checksum_passes_iff (line : string) :
  checksum_passes line = true <->
  exists payload field,
    line = "$" ++ payload ++ "*" ++ field
    /\ PyStr.contains "*" payload = false
    /\ PyStr.contains "*" field = false
    /\ eq_ignoring_case (PyStr.hex2 (xor_fold payload 0))
         (PyStr.strip (PyStr.remove_char PyStr.NUL field)) = true.
Proof.
  split.
  - intros H.
    assert (Hs : PyStr.startswith "$" line = true).
    { unfold checksum_passes in H. now apply andb_true_iff in H as [H _]. }
    destruct (startswith_inv _ _ Hs) as [rest ->].
    destruct (PyStr.contains "*" rest) eqn:Hc.
    + destruct (contains_decompose _ _ Hc) as (a & b & -> & Ha).
      rewrite (checksum_passes_line a b Ha) in H.
      apply andb_true_iff in H as [Hb Hm].
      apply negb_true_iff in Hb.
      exists a, b. repeat split; try assumption.
      rewrite eq_ignoring_case_hex2; [exact Hm|].
      apply xor_fold_range. lia.
    + rewrite (checksum_passes_no_separator rest Hc) in H. discriminate.
  - intros (payload & field & -> & Hp & Hf & Hm).
    change ("$" ++ payload ++ "*" ++ field)
      with (String "$" (payload ++ String "*" field)).
    rewrite (checksum_passes_line payload field Hp), Hf. cbn [negb andb].
    rewrite eq_ignoring_case_hex2 in Hm; [exact Hm|].
    apply xor_fold_range. lia.
Qed.

Lemma eq_ignoring_case_hex2_inj (n n' : Z) (s : string) :
  0 <= n < 256 -> 0 <= n' < 256 ->
  eq_ignoring_case (PyStr.hex2 n) s = true ->
  eq_ignoring_case (PyStr.hex2 n') s = true ->
  n = n'.
Proof.
  intros Hn Hn' H H'.
  rewrite eq_ignoring_case_hex2 in H, H' by assumption.
  apply String.eqb_eq in H, H'.
  apply hex2_inj; congruence.
Qed.

(** C5: checksum validation passes exactly for the lines made of the start
    marker, a payload, the separator and a checksum field (the separator
    occurring nowhere else) such that the exclusive-or of the codes of the
    payload characters, written as two upper-case hexadecimal digits, equals
    the checksum field (null bytes removed, surrounding whitespace
    stripped) up to the case of letters.  When validation passes for a line,
    it fails for the line with one payload character replaced by another.
    A line that does not pass is not decoded: [parse] raises. *)
Theorem C5_checksum :
  (forall line : string,
      checksum_passes line = true <->
      exists payload field,
        line = "$" ++ payload ++ "*" ++ field
        /\ PyStr.contains "*" payload = false
        /\ PyStr.contains "*" field = false
        /\ eq_ignoring_case (PyStr.hex2 (xor_fold payload 0))
             (PyStr.strip (PyStr.remove_char PyStr.NUL field)) = true)
  /\ (forall (p1 p2 field : string) (c c' : ascii),
        c <> c' ->
        checksum_passes ("$" ++ (p1 ++ String c p2) ++ "*" ++ field) = true ->
        checksum_passes ("$" ++ (p1 ++ String c' p2) ++ "*" ++ field) = false)
  /\ (forall (line : string) (strict_validation : bool),
        checksum_passes line = false ->
        exists e, snd (parse line strict_validation) = Raise e).
Proof.
  split; [exact checksum_passes_iff|]. split.
  - intros p1 p2 field c c' Hcc H.
    apply checksum_passes_iff in H as (payload & fld & E & Hp & Hf & Hm).
    injection E as E.
    change ("*" ++ field) with (String "*" field) in E.
    change ("*" ++ fld) with (String "*" fld) in E.
    apply (decomposition_unique "*" _ _ _ _ Hp Hf) in E as [<- <-].
    destruct (checksum_passes ("$" ++ (p1 ++ String c' p2) ++ "*" ++ field))
      eqn:H'; [|reflexivity].
    exfalso.
    apply checksum_passes_iff in H' as (payload' & fld' & E' & Hp' & Hf' & Hm').
    injection E' as E'.
    change ("*" ++ field) with (String "*" field) in E'.
    change ("*" ++ fld') with (String "*" fld') in E'.
    apply (decomposition_unique "*" _ _ _ _ Hp' Hf') in E' as [<- <-].
    apply Hcc, (xor_fold_corrupted p1 p2).
    apply (eq_ignoring_case_hex2_inj _ _ _
             (xor_fold_range _ 0 ltac:(lia)) (xor_fold_range _ 0 ltac:(lia))
             Hm Hm').
  - intros line strict H. unfold parse.
    unfold checksum_passes in H.
    destruct (PyStr.startswith "$" line); cbn [negb andb] in *.
    + destruct (verify_checksum line) as [l [parts|e]]; [discriminate|].
      cbn [bind reraise snd]. destruct e; eexists; reflexivity.
    + eexists. reflexivity.
Qed.

Lemma C5_checksum_witness :
  checksum_passes "$GNRMC,,V,,,,,,,,,,N*4d" = true
  /\ checksum_passes "$GNRMC,,A,,,,,,,,,,N*4d" = false.
Proof.
  split; [vm_compute; reflexivity|].
  apply (proj1 (proj2 C5_checksum) "GNRMC,," ",,,,,,,,,,N" "4d" "V"%char "A"%char).
  - discriminate.
  - vm_compute. reflexivity.
Defined.

(** ** Exceptions of the decoders *)

Lemma only_rbind {A B : Type} (P : exn -> bool) (r : result A)
    (k : A -> result B) :
  only P r -> (forall a, r = Ok a -> only P (k a)) -> only P (rbind r k).
Proof. destruct r as [a|e]; simpl; auto. Qed.

Lemma only_bind {A B : Type} (P : exn -> bool) (m : M A) (k : A -> M B) :
  only P (snd m) ->
  (forall a, snd m = Ok a -> only P (snd (k a))) ->
  only P (snd (bind m k)).
Proof.
  destruct m as [l [a|e]]; simpl; auto.
  intros _ H. specialize (H a eq_refl). now destruct (k a).
Qed.

Lemma only_weaken {A : Type} (P Q : exn -> bool) (r : result A) :
  (forall e, P e = true -> Q e = true) -> only P r -> only Q r.
Proof. destruct r; simpl; auto. Qed.

Lemma raises_rbind_l {A B : Type} (r : result A) (k : A -> result B) :
  raises r -> raises (rbind r k).
Proof. intros [e ->]. now exists e. Qed.

Lemma raises_rbind_r {A B : Type} (r : result A) (k : A -> result B) :
  (forall a, raises (k a)) -> raises (rbind r k).
Proof. destruct r as [a|e]; simpl; auto. intros _. now exists e. Qed.

Lemma raises_bind_l {A B : Type} (m : M A) (k : A -> M B) :
  raises (snd m) -> raises (snd (bind m k)).
Proof. destruct m as [l r]. intros [e E]. simpl in E. subst r. now exists e. Qed.

Lemma raises_bind_r {A B : Type} (m : M A) (k : A -> M B) :
  (forall a, raises (snd (k a))) -> raises (snd (bind m k)).
Proof.
  destruct m as [l [a|e]]; simpl.
  - intros H. specialize (H a). now destruct (k a).
  - intros _. now exists e.
Qed.

Lemma bind_Ok_inv {A B : Type} (m : M A) (k : A -> M B) (b : B) :
  snd (bind m k) = Ok b -> exists a, snd m = Ok a /\ snd (k a) = Ok b.
Proof.
  destruct m as [l [a|e]]; simpl; [|discriminate].
  intros H. exists a. split; [reflexivity|]. now destruct (k a).
Qed.

Lemma rbind_Ok_inv {A B : Type} (r : result A) (k : A -> result B) (b : B) :
  rbind r k = Ok b -> exists a, r = Ok a /\ k a = Ok b.
Proof. destruct r as [a|e]; simpl; [eauto | discriminate]. Qed.

Lemma int_of_string_only (s : string) :
  only is_ValueError_only (PyFloat.int_of_string s).
Proof.
  unfold PyFloat.int_of_string.
  destruct (PyFloat.sign (PyFloat.strip s)) as [neg body].
  destruct (PyFloat.digitpart body 0) as [[[v n] [|c r]]|]; exact I || reflexivity.
Qed.

Lemma float_of_string_only (s : string) :
  only is_ValueError_only (PyFloat.float_of_string s).
Proof.
  unfold PyFloat.float_of_string.
  destruct (PyFloat.sign (PyFloat.strip s)) as [neg body].
  destruct (_ || _); [exact I|].
  destruct (String.eqb _ _); [exact I|].
  destruct (PyFloat.number body) as [[[m n] rest]|]; [|reflexivity].
  destruct (PyFloat.exponent rest); [exact I | reflexivity].
Qed.

Lemma numeric_not_IndexError (e : exn) :
  is_numeric_error e = true -> not_IndexError e = true.
Proof. now destruct e. Qed.

Lemma value_is_numeric (e : exn) :
  is_ValueError_only e = true -> is_numeric_error e = true.
Proof. now destruct e. Qed.

Lemma index_only {A : Type} (P : exn -> bool) (l : list A) (i : nat) :
  (i < List.length l)%nat -> only P (index l i).
Proof.
  intros H. unfold index.
  destruct (nth_error l i) eqn:E; [exact I|].
  apply nth_error_None in E. lia.
Qed.

Lemma index_raises {A : Type} (l : list A) (i : nat) :
  (List.length l <= i)%nat -> index l i = Raise IndexError.
Proof.
  intros H. unfold index. apply nth_error_None in H. now rewrite H.
Qed.

Lemma float_or_none_only (x : string) : only is_numeric_error (float_or_none x).
Proof.
  unfold float_or_none. destruct (PyStr.truthy x); [|exact I].
  apply only_rbind; [|intros; exact I].
  apply (only_weaken _ _ _ value_is_numeric), float_of_string_only.
Qed.

Lemma int_or_none_only (x : string) : only is_numeric_error (int_or_none x).
Proof.
  unfold int_or_none. destruct (PyStr.truthy x); [|exact I].
  apply only_rbind; [|intros; exact I].
  apply (only_weaken _ _ _ value_is_numeric), int_of_string_only.
Qed.

Lemma absorb_Ok {A : Type} (r : result A) :
  only is_ValueError_only r -> exists o, absorb r = Ok o.
Proof.
  destruct r as [a|e]; simpl; [intros _; now exists (Some a)|].
  destruct e; try discriminate. intros _. now exists None.
Qed.

(** A malformed time or date field never makes the constructor raise. *)
Lemma parse_time_Ok (x : string) : exists o, parse_time x = Ok o.
Proof.
  unfold parse_time. apply absorb_Ok.
  repeat (apply only_rbind; [apply int_of_string_only | intros ? _]).
  unfold datetime.new_time. now destruct (_ && _).
Qed.

Lemma parse_date_Ok (x : string) : exists o, parse_date x = Ok o.
Proof.
  unfold parse_date. apply absorb_Ok.
  repeat (apply only_rbind; [apply int_of_string_only | intros ? _]).
  unfold datetime.new_date. now destruct (_ && _).
Qed.

Lemma convert_coordinate_only (raw hemi negative : string) :
  only is_numeric_error (convert_coordinate raw hemi negative).
Proof.
  unfold convert_coordinate.
  apply only_rbind;
    [apply (only_weaken _ _ _ value_is_numeric), float_of_string_only
    | intros v _].
  apply only_rbind; [|intros deg _].
  { destruct (PyFloat.div v _); exact I || reflexivity. }
  apply only_rbind; [|intros d100 _].
  { unfold PyFloat.of_int. destruct (PyFloat.of_Z _); exact I || reflexivity. }
  apply only_rbind; [|intros fd _; exact I].
  unfold PyFloat.of_int. destruct (PyFloat.of_Z _); exact I || reflexivity.
Qed.

Lemma parse_latitude_only (cls raw hemi : string) :
  only is_numeric_error (snd (parse_latitude cls raw hemi)).
Proof.
  unfold parse_latitude.
  apply only_bind; [apply convert_coordinate_only | intros v _].
  destruct (negb (validate_latitude v)); exact I.
Qed.

Lemma parse_longitude_only (cls raw hemi : string) (strict : bool)
    (latitude : option float) :
  only is_numeric_error (snd (parse_longitude cls raw hemi strict latitude)).
Proof.
  unfold parse_longitude.
  apply only_bind; [apply convert_coordinate_only | intros v _].
  destruct (negb (validate_longitude v)); [exact I|].
  destruct latitude as [lat|]; [|exact I].
  apply only_bind; [|intros ? _].
  - now rewrite for_each_logging.
  - destruct (should_reject_coordinates lat v strict); exact I.
Qed.

(** The side conditions of the decoders: a leaf call never raises
    [IndexError] when the index it reads is within the list. *)
Ltac in_range :=
  unfold len_gt in *;
  repeat match goal with
         | H : (_ <? _)%nat = true |- _ => apply Nat.ltb_lt in H
         end;
  lia.

Ltac decoder_only W IDX :=
  repeat first
    [ exact I
    | progress cbn [lift ret snd]
    | match goal with
      | |- only _ (if ?b then _ else _) => destruct b eqn:?
      | |- only _ (snd (if ?b then _ else _)) => destruct b eqn:?
      | |- only _ (rbind _ _) => apply only_rbind; [|intros ? _]
      | |- only _ (snd (bind _ _)) => apply only_bind; [|intros ? _]
      | |- only _ (index _ _) => IDX
      | |- only _ (RMC.parse_mag_var _) => unfold RMC.parse_mag_var
      | |- only _ (float_at _ _) => unfold float_at
      | |- only _ (int_at _ _) => unfold int_at
      | |- only _ (float_at_guarded _ _) => unfold float_at_guarded
      | |- only _ (int_at_guarded _ _) => unfold int_at_guarded
      | |- only _ (float_or_none _) =>
          apply (only_weaken _ _ _ W), float_or_none_only
      | |- only _ (int_or_none _) =>
          apply (only_weaken _ _ _ W), int_or_none_only
      | |- only _ (PyFloat.float_of_string _) =>
          apply (only_weaken _ _ _ W),
                (only_weaken _ _ _ value_is_numeric), float_of_string_only
      | |- only _ (PyFloat.int_of_string _) =>
          apply (only_weaken _ _ _ W),
                (only_weaken _ _ _ value_is_numeric), int_of_string_only
      | |- only _ (parse_time ?x) =>
          let H := fresh in destruct (parse_time_Ok x) as [? H]; rewrite H
      | |- only _ (parse_date ?x) =>
          let H := fresh in destruct (parse_date_Ok x) as [? H]; rewrite H
      | |- only _ (snd (parse_latitude _ _ _)) =>
          apply (only_weaken _ _ _ W), parse_latitude_only
      | |- only _ (snd (parse_longitude _ _ _ _ _)) =>
          apply (only_weaken _ _ _ W), parse_longitude_only
      end ].

Ltac no_index_error :=
  decoder_only numeric_not_IndexError ltac:(apply index_only; in_range).

Lemma collect_sv_ids_only (sentence : list string) (indices : list nat) :
  only not_IndexError (GSA.collect_sv_ids sentence indices).
Proof.
  induction indices as [|i rest IH]; [exact I|].
  cbn [GSA.collect_sv_ids]. no_index_error; exact IH.
Qed.

Lemma collect_sat_data_only (sentence : list string) (blocks : list nat) :
  only not_IndexError (GSV.collect_sat_data sentence blocks).
Proof.
  induction blocks as [|i rest IH]; [exact I|].
  cbn [GSV.collect_sat_data]. no_index_error; exact IH.
Qed.

Lemma GSA_init_only (talker : string) (sentence : list string)
    (checksum sentence_type : string) :
  (2 <= List.length sentence)%nat ->
  only not_IndexError (GSA.init talker sentence checksum sentence_type).
Proof.
  intros H. unfold GSA.init. cbv zeta.
  apply only_rbind; [no_index_error | intros ? _].
  apply only_rbind; [no_index_error | intros ? _].
  apply only_rbind; [apply collect_sv_ids_only | intros ? _].
  no_index_error.
Qed.

Lemma VTG_init_only (talker : string) (sentence : list string)
    (checksum sentence_type : string) :
  (7 <= List.length sentence)%nat ->
  only not_IndexError (VTG.init talker sentence checksum sentence_type).
Proof. intros H. unfold VTG.init. cbv zeta. no_index_error. Qed.

Lemma GSV_init_only (talker : string) (sentence : list string)
    (checksum sentence_type : string) :
  (3 <= List.length sentence)%nat ->
  only not_IndexError (GSV.init talker sentence checksum sentence_type).
Proof.
  intros H. unfold GSV.init. cbv zeta.
  do 6 (apply only_rbind; [no_index_error | intros ? _]).
  apply only_rbind; [apply collect_sat_data_only | intros ? _].
  exact I.
Qed.

Lemma RMC_init_only (talker : string) (sentence : list string)
    (checksum sentence_type : string) (strict : bool) :
  (1 <= List.length sentence)%nat ->
  only not_IndexError
       (snd (RMC.init talker sentence checksum sentence_type strict)).
Proof. intros H. unfold RMC.init. cbv zeta. no_index_error. Qed.

Lemma GGA_init_only (talker : string) (sentence : list string)
    (checksum sentence_type : string) (strict : bool) :
  (9 <= List.length sentence)%nat ->
  only not_IndexError
       (snd (GGA.init talker sentence checksum sentence_type strict)).
Proof. intros H. unfold GGA.init. cbv zeta. no_index_error. Qed.

(** *** Field lists shorter than the layout (C7) *)

Lemma len_gt_false {A : Type} (l : list A) (i : nat) :
  (List.length l <= i)%nat -> len_gt l i = false.
Proof. intros H. unfold len_gt. apply Nat.ltb_ge. exact H. Qed.

Ltac raise_now :=
  solve [ unfold float_at, int_at; cbn; eexists; reflexivity ].

Ltac must_raise :=
  cbv zeta;
  repeat first
    [ raise_now
    | apply raises_rbind_l; raise_now
    | apply raises_bind_l; raise_now
    | apply raises_rbind_r; intro
    | apply raises_bind_r; intro ].

Lemma GSA_init_short (talker : string) (sentence : list string)
    (checksum sentence_type : string) :
  (List.length sentence < 2)%nat ->
  GSA.init talker sentence checksum sentence_type = Raise IndexError.
Proof.
  destruct sentence as [|x0 [|x1 rest]]; cbn [List.length]; intros H;
    [reflexivity | reflexivity | lia].
Qed.

Lemma VTG_init_short (talker : string) (sentence : list string)
    (checksum sentence_type : string) :
  (List.length sentence < 7)%nat ->
  raises (VTG.init talker sentence checksum sentence_type).
Proof.
  destruct sentence as [|x0 [|x1 [|x2 [|x3 [|x4 [|x5 [|x6 rest]]]]]]];
    cbn [List.length]; intros H; try lia; unfold VTG.init; must_raise.
Qed.

Lemma GSV_init_short (talker : string) (sentence : list string)
    (checksum sentence_type : string) :
  (List.length sentence < 3)%nat ->
  raises (GSV.init talker sentence checksum sentence_type).
Proof.
  destruct sentence as [|x0 [|x1 [|x2 rest]]];
    cbn [List.length]; intros H; try lia; unfold GSV.init; must_raise.
Qed.

Lemma RMC_init_short (talker checksum sentence_type : string) (strict : bool) :
  snd (RMC.init talker [] checksum sentence_type strict) = Raise IndexError.
Proof. reflexivity. Qed.

Lemma GGA_init_short (talker : string) (sentence : list string)
    (checksum sentence_type : string) (strict : bool) :
  (List.length sentence < 9)%nat ->
  raises (snd (GGA.init talker sentence checksum sentence_type strict)).
Proof.
  destruct sentence
    as [|x0 [|x1 [|x2 [|x3 [|x4 [|x5 [|x6 [|x7 [|x8 rest]]]]]]]]];
    cbn [List.length]; intros H; try lia; unfold GGA.init; must_raise.
Qed.

Ltac invert_bind H :=
  let a := fresh "v" in
  let Ha := fresh "E" in
  first [ apply bind_Ok_inv in H as (a & Ha & H)
        | apply rbind_Ok_inv in H as (a & Ha & H) ];
  cbn [lift snd] in Ha.

Ltac absent Hlen E :=
  rewrite (len_gt_false _ _ Hlen) in E; cbn in E; now injection E as <-.

(** The satellite slots beyond the end of the list are skipped. *)
Lemma collect_sv_ids_beyond (sentence : list string) (indices : list nat) :
  (forall i, In i indices -> (List.length sentence <= i)%nat) ->
  GSA.collect_sv_ids sentence indices = Ok [].
Proof.
  induction indices as [|i rest IH]; intros H; [reflexivity|].
  cbn [GSA.collect_sv_ids].
  rewrite (len_gt_false sentence i) by (apply H; now left).
  apply IH. intros j Hj. apply H. now right.
Qed.

Lemma GSA_init_missing (talker : string) (sentence : list string)
    (checksum sentence_type : string) (a : GSA.t) :
  GSA.init talker sentence checksum sentence_type = Ok a ->
  ((List.length sentence <= 2)%nat -> GSA.sv_ids a = [])
  /\ ((List.length sentence <= 14)%nat -> GSA.pdop a = None)
  /\ ((List.length sentence <= 15)%nat -> GSA.hdop a = None)
  /\ ((List.length sentence <= 16)%nat -> GSA.vdop a = None).
Proof.
  unfold GSA.init. cbv zeta. intros H.
  do 6 invert_bind H. injection H as <-. cbn.
  unfold float_at_guarded in *.
  repeat split; intros Hlen.
  - rewrite collect_sv_ids_beyond in E1; [now injection E1 as <-|].
    intros i Hi. apply in_seq in Hi. lia.
  - absent Hlen E2.
  - absent Hlen E3.
  - absent Hlen E4.
Qed.

Lemma GSV_init_missing (talker : string) (sentence : list string)
    (checksum sentence_type : string) (v : GSV.t) :
  GSV.init talker sentence checksum sentence_type = Ok v ->
  (List.length sentence <= 6)%nat -> GSV.sat_data v = [].
Proof.
  unfold GSV.init. cbv zeta. intros H Hlen.
  do 7 invert_bind H. injection H as <-. cbn.
  cbn [seq GSV.collect_sat_data] in E5.
  rewrite !len_gt_false in E5 by (cbn; lia).
  now injection E5 as <-.
Qed.

Lemma RMC_init_missing (talker : string) (sentence : list string)
    (checksum sentence_type : string) (strict : bool)
    (r : RMC.t datetime.time) :
  snd (RMC.init talker sentence checksum sentence_type strict) = Ok r ->
  ((List.length sentence <= 1)%nat -> RMC.status r = false)
  /\ ((List.length sentence <= 3)%nat -> RMC.latitude r = None)
  /\ ((List.length sentence <= 5)%nat -> RMC.longitude r = None)
  /\ ((List.length sentence <= 6)%nat -> RMC.speed r = None)
  /\ ((List.length sentence <= 7)%nat -> RMC.course r = None)
  /\ ((List.length sentence <= 8)%nat -> RMC.date r = None)
  /\ ((List.length sentence <= 9)%nat -> RMC.mag_var r = None).
Proof.
  unfold RMC.init. cbv zeta. intros H.
  do 9 invert_bind H. cbn in H. injection H as <-. cbn.
  unfold float_at_guarded, RMC.parse_mag_var in *.
  repeat split; intros Hlen.
  - absent Hlen E2.
  - rewrite (len_gt_false sentence 5) in E4 by lia.
    rewrite (len_gt_false sentence 3) in E3 by lia.
    cbn in E3, E4. injection E3 as <-. now injection E4 as <-.
  - absent Hlen E4.
  - absent Hlen E5.
  - absent Hlen E6.
  - absent Hlen E1.
  - absent Hlen E7.
Qed.

Lemma GGA_init_missing (talker : string) (sentence : list string)
    (checksum sentence_type : string) (strict : bool)
    (g : GGA.t datetime.time) :
  snd (GGA.init talker sentence checksum sentence_type strict) = Ok g ->
  ((List.length sentence <= 10)%nat -> GGA.geoid_height g = None)
  /\ ((List.length sentence <= 12)%nat -> GGA.dgps_update g = None)
  /\ ((List.length sentence <= 13)%nat -> GGA.dgps_station g = None).
Proof.
  unfold GGA.init. cbv zeta. intros H.
  do 13 invert_bind H. cbn in H. injection H as <-. cbn.
  unfold float_at_guarded, int_at_guarded in *.
  repeat split; intros Hlen.
  - absent Hlen E9.
  - absent Hlen E10.
  - absent Hlen E11.
Qed.

(** The claim C7 fails on a VTG with two fields: indexing raises. *)
Lemma C7_counterexample :
  VTG.init "GN" ["054.7"; "T"] "30" "VTG" = Raise IndexError
  /\ snd (parse "$GNVTG,054.7,T*30" false) = Raise ValueError
  /\ yielded (parse_nmea_stream ["$GNVTG,054.7,T*30"] false) = [].
Proof. repeat split; vm_compute; reflexivity. Qed.

(** C7, amended: each decoder reads a prefix of the field list without
    testing its length (one field for RMC, nine for GGA, two for GSA, seven
    for VTG, three for GSV) and guards the fields after it.  On a list at
    least as long as that prefix no decoder raises [IndexError], and the
    guarded fields beyond the end of the list are left unset.  On a shorter
    list the decoder raises and there is no record. *)
Theorem C7_short_field_lists (talker : string) (sentence : list string)
    (checksum sentence_type : string) (strict : bool) :
  (((1 <= List.length sentence)%nat ->
    only not_IndexError
         (snd (RMC.init talker sentence checksum sentence_type strict)))
   /\ ((List.length sentence < 1)%nat ->
       raises (snd (RMC.init talker sentence checksum sentence_type strict)))
   /\ (forall r,
         snd (RMC.init talker sentence checksum sentence_type strict) = Ok r ->
         ((List.length sentence <= 1)%nat -> RMC.status r = false)
         /\ ((List.length sentence <= 3)%nat -> RMC.latitude r = None)
         /\ ((List.length sentence <= 5)%nat -> RMC.longitude r = None)
         /\ ((List.length sentence <= 6)%nat -> RMC.speed r = None)
         /\ ((List.length sentence <= 7)%nat -> RMC.course r = None)
         /\ ((List.length sentence <= 8)%nat -> RMC.date r = None)
         /\ ((List.length sentence <= 9)%nat -> RMC.mag_var r = None)))
  /\ (((9 <= List.length sentence)%nat ->
       only not_IndexError
            (snd (GGA.init talker sentence checksum sentence_type strict)))
      /\ ((List.length sentence < 9)%nat ->
          raises (snd (GGA.init talker sentence checksum sentence_type strict)))
      /\ (forall g,
            snd (GGA.init talker sentence checksum sentence_type strict) = Ok g ->
            ((List.length sentence <= 10)%nat -> GGA.geoid_height g = None)
            /\ ((List.length sentence <= 12)%nat -> GGA.dgps_update g = None)
            /\ ((List.length sentence <= 13)%nat -> GGA.dgps_station g = None)))
  /\ (((2 <= List.length sentence)%nat ->
       only not_IndexError (GSA.init talker sentence checksum sentence_type))
      /\ ((List.length sentence < 2)%nat ->
          GSA.init talker sentence checksum sentence_type = Raise IndexError)
      /\ (forall a,
            GSA.init talker sentence checksum sentence_type = Ok a ->
            ((List.length sentence <= 2)%nat -> GSA.sv_ids a = [])
            /\ ((List.length sentence <= 14)%nat -> GSA.pdop a = None)
            /\ ((List.length sentence <= 15)%nat -> GSA.hdop a = None)
            /\ ((List.length sentence <= 16)%nat -> GSA.vdop a = None)))
  /\ (((7 <= List.length sentence)%nat ->
       only not_IndexError (VTG.init talker sentence checksum sentence_type))
      /\ ((List.length sentence < 7)%nat ->
          raises (VTG.init talker sentence checksum sentence_type)))
  /\ (((3 <= List.length sentence)%nat ->
       only not_IndexError (GSV.init talker sentence checksum sentence_type))
      /\ ((List.length sentence < 3)%nat ->
          raises (GSV.init talker sentence checksum sentence_type))
      /\ (forall v,
            GSV.init talker sentence checksum sentence_type = Ok v ->
            (List.length sentence <= 6)%nat -> GSV.sat_data v = [])).
Proof.
  repeat apply conj.
  - apply RMC_init_only.
  - destruct sentence; cbn [List.length]; [|lia].
    intros _. exists IndexError. apply RMC_init_short.
  - apply RMC_init_missing.
  - apply GGA_init_only.
  - apply GGA_init_short.
  - apply GGA_init_missing.
  - apply GSA_init_only.
  - apply GSA_init_short.
  - apply GSA_init_missing.
  - apply VTG_init_only.
  - apply VTG_init_short.
  - apply GSV_init_only.
  - apply GSV_init_short.
  - apply GSV_init_missing.
Qed.

Lemma C7_short_field_lists_witness :
  only not_IndexError (VTG.init "GN" ["054.7"; "T"; "034.4"; "M"; "005.5"; "N"; "010.2"] "48" "VTG")
  /\ raises (VTG.init "GN" ["054.7"; "T"; "034.4"; "M"; "005.5"; "N"] "48" "VTG").
Proof.
  destruct (C7_short_field_lists "GN" ["054.7"; "T"; "034.4"; "M"; "005.5"; "N"; "010.2"] "48" "VTG" false)
    as (_ & _ & _ & [H _] & _).
  destruct (C7_short_field_lists "GN" ["054.7"; "T"; "034.4"; "M"; "005.5"; "N"] "48" "VTG" false)
    as (_ & _ & _ & [_ H'] & _).
  split; [apply H | apply H']; cbn; lia.
Defined.

(** ** Out-of-range coordinates (C4) *)

Lemma bind_lift_Ok {A B : Type} (r : result A) (a : A) (k : A -> M B) :
  r = Ok a -> bind (lift r) k = k a.
Proof. intros ->. unfold lift, bind. now destruct (k a). Qed.

Lemma bind_Ok {A B : Type} (m : M A) (l : list log_record) (a : A)
    (k : A -> M B) :
  m = (l, Ok a) -> bind m k = ((l ++ fst (k a))%list, snd (k a)).
Proof. intros ->. unfold bind. now destruct (k a). Qed.

Lemma index_Some {A : Type} (l : list A) (i : nat) (x : A) :
  nth_error l i = Some x -> index l i = Ok x.
Proof. intros H. unfold index. now rewrite H. Qed.

Lemma len_gt_Some {A : Type} (l : list A) (i j : nat) (x : A) :
  nth_error l i = Some x -> (j <= i)%nat -> len_gt l j = true.
Proof.
  intros H Hj. unfold len_gt. apply Nat.ltb_lt.
  assert (i < List.length l)%nat by (apply nth_error_Some; congruence).
  lia.
Qed.

Lemma nth_error_below {A : Type} (l : list A) (i j : nat) (x : A) :
  nth_error l i = Some x -> (j <= i)%nat -> exists y, nth_error l j = Some y.
Proof.
  intros H Hj.
  assert (i < List.length l)%nat by (apply nth_error_Some; congruence).
  destruct (nth_error l j) eqn:E; [eauto|].
  apply nth_error_None in E. lia.
Qed.

Lemma time_block_Ok (x : string) :
  exists t, (if PyStr.truthy x then parse_time x else Ok None) = Ok t.
Proof.
  destruct (PyStr.truthy x); [apply parse_time_Ok | now exists None].
Qed.

Lemma date_block_Ok (sentence : list string) :
  exists d,
    (if len_gt sentence 8
     then let? x8 := index sentence 8 in
          if PyStr.truthy x8 then parse_date x8 else Ok None
     else Ok None) = Ok d.
Proof.
  destruct (len_gt sentence 8) eqn:E; [|now exists None].
  unfold len_gt in E. apply Nat.ltb_lt in E.
  destruct (nth_error sentence 8) as [x8|] eqn:E8;
    [|apply nth_error_None in E8; lia].
  rewrite (index_Some _ _ _ E8). cbn [rbind].
  destruct (PyStr.truthy x8); [apply parse_date_Ok | now exists None].
Qed.

Lemma status_block_Ok (sentence : list string) :
  exists s,
    (if len_gt sentence 1
     then let? x1 := index sentence 1 in Ok (String.eqb x1 "A")
     else Ok false) = Ok s.
Proof.
  destruct (len_gt sentence 1) eqn:E; [|now exists false].
  unfold len_gt in E. apply Nat.ltb_lt in E.
  destruct (nth_error sentence 1) as [x1|] eqn:E1;
    [|apply nth_error_None in E1; lia].
  rewrite (index_Some _ _ _ E1). cbn [rbind]. eauto.
Qed.

Lemma parse_latitude_eq (cls raw hemi : string) (v : float) :
  convert_coordinate raw hemi "S" = Ok v ->
  parse_latitude cls raw hemi
  = (latitude_warning cls v, Ok (kept_if (validate_latitude v) v)).
Proof.
  intros H. unfold parse_latitude, latitude_warning, kept_if.
  rewrite (bind_lift_Ok _ _ _ H).
  destruct (validate_latitude v); reflexivity.
Qed.

(** The longitude block when the pair is not examined: the latitude is
    unset or the longitude is out of range. *)
Lemma parse_longitude_eq (cls raw hemi : string) (strict : bool)
    (latitude : option float) (v : float) :
  convert_coordinate raw hemi "W" = Ok v ->
  latitude = None \/ validate_longitude v = false ->
  parse_longitude cls raw hemi strict latitude
  = (longitude_warning cls v,
     Ok (latitude, kept_if (validate_longitude v) v)).
Proof.
  intros H Hout. unfold parse_longitude, longitude_warning, kept_if.
  rewrite (bind_lift_Ok _ _ _ H).
  destruct (validate_longitude v) eqn:Ev; cbn [negb].
  - destruct Hout as [-> | ?]; [reflexivity | discriminate].
  - reflexivity.
Qed.

Lemma out_of_range_pair (vlat vlon : float) :
  validate_latitude vlat = false \/ validate_longitude vlon = false ->
  kept_if (validate_latitude vlat) vlat = None
  \/ validate_longitude vlon = false.
Proof. intros [-> | ->]; [left; reflexivity | right; reflexivity]. Qed.

Ltac lift_step E := rewrite (bind_lift_Ok _ _ _ E); cbv beta.
Ltac log_step E := rewrite (bind_Ok _ _ _ _ E); cbv beta.

Lemma RMC_out_of_range (talker : string) (sentence : list string)
    (checksum sentence_type : string) (strict : bool)
    (x2 x3 x4 x5 : string) (vlat vlon : float)
    (speed course mag_var : option float) :
  nth_error sentence 2 = Some x2 -> nth_error sentence 3 = Some x3 ->
  nth_error sentence 4 = Some x4 -> nth_error sentence 5 = Some x5 ->
  PyStr.truthy x2 = true -> PyStr.truthy x3 = true ->
  PyStr.truthy x4 = true -> PyStr.truthy x5 = true ->
  convert_coordinate x2 x3 "S" = Ok vlat ->
  convert_coordinate x4 x5 "W" = Ok vlon ->
  float_at_guarded sentence 6 = Ok speed ->
  float_at_guarded sentence 7 = Ok course ->
  RMC.parse_mag_var sentence = Ok mag_var ->
  validate_latitude vlat = false \/ validate_longitude vlon = false ->
  exists time date status,
    RMC.init talker sentence checksum sentence_type strict
    = ((latitude_warning "RMC" vlat ++ longitude_warning "RMC" vlon)%list,
       Ok (RMC.mk (base_init talker sentence checksum sentence_type)
                  time date status
                  (kept_if (validate_latitude vlat) vlat)
                  (kept_if (validate_longitude vlon) vlon)
                  speed course mag_var)).
Proof.
  intros H2 H3 H4 H5 T2 T3 T4 T5 Hlat Hlon Hs Hc Hm Hout.
  destruct (nth_error_below _ 2 0 _ H2 ltac:(lia)) as [x0 H0].
  destruct (time_block_Ok x0) as [t Ht].
  destruct (date_block_Ok sentence) as [d Hd].
  destruct (status_block_Ok sentence) as [s Hst].
  exists t, d, s.
  unfold RMC.init. cbv zeta.
  lift_step (index_Some _ _ _ H0).
  lift_step Ht. lift_step Hd. lift_step Hst.
  rewrite (len_gt_Some _ 3 3 _ H3 (le_n _)).
  lift_step (index_Some _ _ _ H2). lift_step (index_Some _ _ _ H3).
  rewrite T2, T3. cbn [andb].
  log_step (parse_latitude_eq "RMC" x2 x3 vlat Hlat).
  rewrite (len_gt_Some _ 5 5 _ H5 (le_n _)).
  lift_step (index_Some _ _ _ H4). lift_step (index_Some _ _ _ H5).
  rewrite T4, T5. cbn [andb].
  log_step (parse_longitude_eq "RMC" x4 x5 strict _ vlon Hlon
              (out_of_range_pair vlat vlon Hout)).
  lift_step Hs. lift_step Hc. lift_step Hm.
  cbn [ret fst snd]. now rewrite app_nil_r.
Qed.

Lemma GGA_out_of_range (talker : string) (sentence : list string)
    (checksum sentence_type : string) (strict : bool)
    (x0 x1 x2 x3 x4 : string) (vlat vlon : float)
    (fix_quality num_sats dgps_station : option Z)
    (hdop altitude geoid_height dgps_update : option float) :
  nth_error sentence 0 = Some x0 ->
  nth_error sentence 1 = Some x1 -> nth_error sentence 2 = Some x2 ->
  nth_error sentence 3 = Some x3 -> nth_error sentence 4 = Some x4 ->
  PyStr.truthy x1 = true -> PyStr.truthy x2 = true ->
  PyStr.truthy x3 = true -> PyStr.truthy x4 = true ->
  convert_coordinate x1 x2 "S" = Ok vlat ->
  convert_coordinate x3 x4 "W" = Ok vlon ->
  int_at sentence 5 = Ok fix_quality ->
  int_at sentence 6 = Ok num_sats ->
  float_at sentence 7 = Ok hdop ->
  float_at sentence 8 = Ok altitude ->
  float_at_guarded sentence 10 = Ok geoid_height ->
  float_at_guarded sentence 12 = Ok dgps_update ->
  int_at_guarded sentence 13 = Ok dgps_station ->
  validate_latitude vlat = false \/ validate_longitude vlon = false ->
  exists time,
    GGA.init talker sentence checksum sentence_type strict
    = ((latitude_warning "GGA" vlat ++ longitude_warning "GGA" vlon)%list,
       Ok (GGA.mk (base_init talker sentence checksum sentence_type)
                  time
                  (kept_if (validate_latitude vlat) vlat)
                  (kept_if (validate_longitude vlon) vlon)
                  fix_quality num_sats hdop altitude geoid_height
                  dgps_update dgps_station)).
Proof.
  intros H0 H1 H2 H3 H4 T1 T2 T3 T4 Hlat Hlon Hq Hn Hh Ha Hg Hu Hs Hout.
  destruct (time_block_Ok x0) as [t Ht].
  exists t.
  unfold GGA.init. cbv zeta.
  lift_step (index_Some _ _ _ H0). lift_step Ht.
  lift_step (index_Some _ _ _ H1). rewrite T1.
  lift_step (index_Some _ _ _ H2). rewrite T2.
  log_step (parse_latitude_eq "GGA" x1 x2 vlat Hlat).
  lift_step (index_Some _ _ _ H3). rewrite T3.
  lift_step (index_Some _ _ _ H4). rewrite T4.
  log_step (parse_longitude_eq "GGA" x3 x4 strict _ vlon Hlon
              (out_of_range_pair vlat vlon Hout)).
  lift_step Hq. lift_step Hn. lift_step Hh. lift_step Ha.
  lift_step Hg. lift_step Hu. lift_step Hs.
  cbn [ret fst snd]. now rewrite app_nil_r.
Qed.

(** The claim C4 fails on an RMC whose latitude is out of range and whose
    longitude is in range: the sentence is produced with its longitude. *)
Lemma C4_counterexample :
  exists lon,
    coordinates rmc_latitude_out_of_range = (None, Some lon)
    /\ convert_coordinate "00453.44075" "E" "W" = Ok lon
    /\ (exists lat, convert_coordinate "9522.81586" "N" "S" = Ok lat
                    /\ validate_latitude lat = false).
Proof.
  exists (S754_finite false 5506415218147162 (-50)).
  split; [reflexivity|]. split; [vm_compute; reflexivity|].
  exists (S754_finite false 6711789420470304 (-46)).
  split; vm_compute; reflexivity.
Qed.

(** C4, amended: when the latitude or the longitude of an RMC or GGA
    converts to a value out of range, each coordinate is treated on its own:
    a latitude outside [-90, 90] is left unset with a warning, a longitude
    outside [-180, 180] is left unset with a warning, and a coordinate that
    is in range is kept even though the other one is not.  The record is
    produced, with its other fields as they decode. *)
Theorem C4_out_of_range :
  (forall (talker : string) (sentence : list string)
          (checksum sentence_type : string) (strict : bool)
          (x2 x3 x4 x5 : string) (vlat vlon : float)
          (speed course mag_var : option float),
      nth_error sentence 2 = Some x2 -> nth_error sentence 3 = Some x3 ->
      nth_error sentence 4 = Some x4 -> nth_error sentence 5 = Some x5 ->
      PyStr.truthy x2 = true -> PyStr.truthy x3 = true ->
      PyStr.truthy x4 = true -> PyStr.truthy x5 = true ->
      convert_coordinate x2 x3 "S" = Ok vlat ->
      convert_coordinate x4 x5 "W" = Ok vlon ->
      float_at_guarded sentence 6 = Ok speed ->
      float_at_guarded sentence 7 = Ok course ->
      RMC.parse_mag_var sentence = Ok mag_var ->
      validate_latitude vlat = false \/ validate_longitude vlon = false ->
      exists time date status,
        RMC.init talker sentence checksum sentence_type strict
        = ((latitude_warning "RMC" vlat ++ longitude_warning "RMC" vlon)%list,
           Ok (RMC.mk (base_init talker sentence checksum sentence_type)
                      time date status
                      (kept_if (validate_latitude vlat) vlat)
                      (kept_if (validate_longitude vlon) vlon)
                      speed course mag_var)))
  /\ (forall (talker : string) (sentence : list string)
             (checksum sentence_type : string) (strict : bool)
             (x0 x1 x2 x3 x4 : string) (vlat vlon : float)
             (fix_quality num_sats dgps_station : option Z)
             (hdop altitude geoid_height dgps_update : option float),
         nth_error sentence 0 = Some x0 ->
         nth_error sentence 1 = Some x1 -> nth_error sentence 2 = Some x2 ->
         nth_error sentence 3 = Some x3 -> nth_error sentence 4 = Some x4 ->
         PyStr.truthy x1 = true -> PyStr.truthy x2 = true ->
         PyStr.truthy x3 = true -> PyStr.truthy x4 = true ->
         convert_coordinate x1 x2 "S" = Ok vlat ->
         convert_coordinate x3 x4 "W" = Ok vlon ->
         int_at sentence 5 = Ok fix_quality ->
         int_at sentence 6 = Ok num_sats ->
         float_at sentence 7 = Ok hdop ->
         float_at sentence 8 = Ok altitude ->
         float_at_guarded sentence 10 = Ok geoid_height ->
         float_at_guarded sentence 12 = Ok dgps_update ->
         int_at_guarded sentence 13 = Ok dgps_station ->
         validate_latitude vlat = false \/ validate_longitude vlon = false ->
         exists time,
           GGA.init talker sentence checksum sentence_type strict
           = ((latitude_warning "GGA" vlat ++ longitude_warning "GGA" vlon)%list,
              Ok (GGA.mk (base_init talker sentence checksum sentence_type)
                         time
                         (kept_if (validate_latitude vlat) vlat)
                         (kept_if (validate_longitude vlon) vlon)
                         fix_quality num_sats hdop altitude geoid_height
                         dgps_update dgps_station))).
Proof.
  split.
  - intros. eapply RMC_out_of_range; eassumption.
  - intros. eapply GGA_out_of_range; eassumption.
Qed.

Lemma C4_out_of_range_witness :
  exists time date status lat lon,
    RMC.init "GN"
      ["204416.00"; "A"; "9522.81586"; "N"; "18153.44075"; "W"; "0.947"; "";
       "290425"; ""; ""; "A"] "67" "RMC" false
    = ([(WARNING, Invalid_latitude "RMC" lat);
        (WARNING, Invalid_longitude "RMC" lon)],
       Ok (RMC.mk (base_init "GN"
                     ["204416.00"; "A"; "9522.81586"; "N"; "18153.44075"; "W";
                      "0.947"; ""; "290425"; ""; ""; "A"] "67" "RMC")
                  time date status None None
                  (Some (S754_finite false 8529817694239719 (-53))) None None)).
Proof.
  destruct (proj1 C4_out_of_range "GN"
      ["204416.00"; "A"; "9522.81586"; "N"; "18153.44075"; "W"; "0.947"; "";
       "290425"; ""; ""; "A"] "67" "RMC" false
      "9522.81586" "N" "18153.44075" "W"
      (S754_finite false 6711789420470304 (-46))
      (S754_finite true 6399709335290364 (-45))
      (Some (S754_finite false 8529817694239719 (-53))) None None)
    as (time & date & status & E);
    try (vm_compute; reflexivity).
  - left. vm_compute. reflexivity.
  - exists time, date, status. eexists. eexists. exact E.
Defined.

(** ** Numeric fields that do not convert (C3) *)

Lemma converts_float_false (x : string) :
  converts Float x = false -> raises (PyFloat.float_of_string x).
Proof.
  unfold converts. destruct (PyFloat.float_of_string x) as [v|e];
    [discriminate | intros _; now exists e].
Qed.

Lemma converts_int_false (x : string) :
  converts Int x = false -> raises (PyFloat.int_of_string x).
Proof.
  unfold converts. destruct (PyFloat.int_of_string x) as [v|e];
    [discriminate | intros _; now exists e].
Qed.

Lemma float_or_none_bad (x : string) :
  PyStr.truthy x = true -> converts Float x = false -> raises (float_or_none x).
Proof.
  intros Ht Hc. unfold float_or_none. rewrite Ht.
  apply raises_rbind_l, converts_float_false, Hc.
Qed.

Lemma int_or_none_bad (x : string) :
  PyStr.truthy x = true -> converts Int x = false -> raises (int_or_none x).
Proof.
  intros Ht Hc. unfold int_or_none. rewrite Ht.
  apply raises_rbind_l, converts_int_false, Hc.
Qed.

Lemma float_at_bad (l : list string) (i : nat) (x : string) :
  nth_error l i = Some x -> PyStr.truthy x = true ->
  converts Float x = false -> raises (float_at l i).
Proof.
  intros Hn Ht Hc. unfold float_at. rewrite (index_Some _ _ _ Hn).
  now apply float_or_none_bad.
Qed.

Lemma int_at_bad (l : list string) (i : nat) (x : string) :
  nth_error l i = Some x -> PyStr.truthy x = true ->
  converts Int x = false -> raises (int_at l i).
Proof.
  intros Hn Ht Hc. unfold int_at. rewrite (index_Some _ _ _ Hn).
  now apply int_or_none_bad.
Qed.

Lemma float_at_guarded_bad (l : list string) (i : nat) (x : string) :
  nth_error l i = Some x -> PyStr.truthy x = true ->
  converts Float x = false -> raises (float_at_guarded l i).
Proof.
  intros Hn Ht Hc. unfold float_at_guarded.
  rewrite (len_gt_Some _ i i _ Hn (le_n _)). now apply (float_at_bad l i x).
Qed.

Lemma int_at_guarded_bad (l : list string) (i : nat) (x : string) :
  nth_error l i = Some x -> PyStr.truthy x = true ->
  converts Int x = false -> raises (int_at_guarded l i).
Proof.
  intros Hn Ht Hc. unfold int_at_guarded.
  rewrite (len_gt_Some _ i i _ Hn (le_n _)). now apply (int_at_bad l i x).
Qed.

Lemma parse_mag_var_bad (l : list string) (x : string) :
  nth_error l 9 = Some x -> PyStr.truthy x = true ->
  converts Float x = false -> raises (RMC.parse_mag_var l).
Proof.
  intros Hn Ht Hc. unfold RMC.parse_mag_var.
  rewrite (len_gt_Some _ 9 9 _ Hn (le_n _)), (index_Some _ _ _ Hn).
  cbn [rbind]. rewrite Ht.
  apply raises_rbind_l, converts_float_false, Hc.
Qed.

Lemma collect_sv_ids_bad (l : list string) (indices : list nat) (i : nat)
    (x : string) :
  In i indices -> nth_error l i = Some x -> PyStr.truthy x = true ->
  converts Int x = false -> raises (GSA.collect_sv_ids l indices).
Proof.
  intros Hin Hn Ht Hc. induction indices as [|j rest IH]; [destruct Hin|].
  cbn [GSA.collect_sv_ids].
  destruct (Nat.eq_dec j i) as [->|Hne].
  - rewrite (len_gt_Some _ i i _ Hn (le_n _)), (index_Some _ _ _ Hn).
    cbn [rbind]. rewrite Ht.
    apply raises_rbind_l, converts_int_false, Hc.
  - assert (Hr : raises (GSA.collect_sv_ids l rest)).
    { apply IH. destruct Hin as [E|Hin]; [congruence | exact Hin]. }
    destruct (len_gt l j); [|exact Hr].
    apply raises_rbind_r. intros y.
    destruct (PyStr.truthy y); [|exact Hr].
    apply raises_rbind_r. intros v.
    now apply raises_rbind_l.
Qed.

Ltac bad_step :=
  cbn [lift snd];
  solve [ eapply float_at_bad; eassumption
        | eapply int_at_bad; eassumption
        | eapply float_at_guarded_bad; eassumption
        | eapply int_at_guarded_bad; eassumption
        | eapply parse_mag_var_bad; eassumption ].

Ltac find_raise :=
  cbv zeta;
  repeat first
    [ apply raises_bind_l; bad_step
    | apply raises_rbind_l; bad_step
    | apply raises_bind_r; intro
    | apply raises_rbind_r; intro ].

Ltac field_cases Hin :=
  cbn in Hin;
  repeat (destruct Hin as [Hin|Hin];
          [injection Hin as <- <- | ]);
  [.. | destruct Hin].

Lemma RMC_init_bad (talker : string) (data : list string)
    (checksum sentence_type : string) (strict : bool) :
  bad_numeric_field "RMC" data ->
  raises (snd (RMC.init talker data checksum sentence_type strict)).
Proof.
  intros (i & k & x & Hin & Hn & Ht & Hc).
  field_cases Hin; unfold RMC.init; find_raise.
Qed.

Lemma GGA_init_bad (talker : string) (data : list string)
    (checksum sentence_type : string) (strict : bool) :
  bad_numeric_field "GGA" data ->
  raises (snd (GGA.init talker data checksum sentence_type strict)).
Proof.
  intros (i & k & x & Hin & Hn & Ht & Hc).
  field_cases Hin; unfold GGA.init; find_raise.
Qed.

Lemma VTG_init_bad (talker : string) (data : list string)
    (checksum sentence_type : string) :
  bad_numeric_field "VTG" data ->
  raises (VTG.init talker data checksum sentence_type).
Proof.
  intros (i & k & x & Hin & Hn & Ht & Hc).
  field_cases Hin; unfold VTG.init; find_raise.
Qed.

Lemma GSV_init_bad (talker : string) (data : list string)
    (checksum sentence_type : string) :
  bad_numeric_field "GSV" data ->
  raises (GSV.init talker data checksum sentence_type).
Proof.
  intros (i & k & x & Hin & Hn & Ht & Hc).
  field_cases Hin; apply converts_int_false in Hc; unfold GSV.init; cbv zeta.
  - rewrite (index_Some _ _ _ Hn). cbn [rbind]. now apply raises_rbind_l.
  - apply raises_rbind_r; intro. apply raises_rbind_r; intro.
    rewrite (index_Some _ _ _ Hn). cbn [rbind]. now apply raises_rbind_l.
  - do 4 (apply raises_rbind_r; intro).
    rewrite (index_Some _ _ _ Hn). cbn [rbind]. now apply raises_rbind_l.
Qed.

Lemma GSA_init_bad (talker : string) (data : list string)
    (checksum sentence_type : string) :
  bad_numeric_field "GSA" data ->
  raises (GSA.init talker data checksum sentence_type).
Proof.
  intros (i & k & x & Hin & Hn & Ht & Hc).
  change (numeric_fields "GSA")
    with ((1%nat, Int) :: map (fun i => (i, Int)) (seq 2 12)
          ++ [(14, Float); (15, Float); (16, Float)]%nat)%list in Hin.
  destruct Hin as [Hin|Hin].
  - injection Hin as <- <-. unfold GSA.init. find_raise.
  - apply in_app_or in Hin as [Hin|Hin].
    + apply in_map_iff in Hin as (j & E & Hj). injection E as -> <-.
      unfold GSA.init. cbv zeta.
      do 2 (apply raises_rbind_r; intro).
      apply raises_rbind_l. now apply (collect_sv_ids_bad data _ i x).
    + field_cases Hin; unfold GSA.init; find_raise.
Qed.

(** *** What [parse] and the stream do with a failing decoder *)

Lemma numeric_not_ChecksumError (e : exn) :
  is_numeric_error e = true -> not_ChecksumError e = true.
Proof. now destruct e. Qed.

Lemma index_not_ChecksumError {A : Type} (l : list A) (i : nat) :
  only not_ChecksumError (index l i).
Proof. unfold index. destruct (nth_error l i); [exact I | reflexivity]. Qed.

Ltac no_checksum_error :=
  decoder_only numeric_not_ChecksumError ltac:(apply index_not_ChecksumError).

Lemma collect_sv_ids_no_checksum (sentence : list string) (indices : list nat) :
  only not_ChecksumError (GSA.collect_sv_ids sentence indices).
Proof.
  induction indices as [|i rest IH]; [exact I|].
  cbn [GSA.collect_sv_ids]. no_checksum_error; exact IH.
Qed.

Lemma collect_sat_data_no_checksum (sentence : list string) (blocks : list nat) :
  only not_ChecksumError (GSV.collect_sat_data sentence blocks).
Proof.
  induction blocks as [|i rest IH]; [exact I|].
  cbn [GSV.collect_sat_data]. no_checksum_error; exact IH.
Qed.

(** The decoding half of [parse] never raises [ChecksumError]. *)
Lemma decode_no_checksum (sentence checksum : string) (strict : bool) :
  only not_ChecksumError (snd (decode sentence checksum strict)).
Proof.
  unfold decode. cbv zeta.
  apply only_bind; [apply index_not_ChecksumError | intros id _].
  destruct (_ <? _)%nat; [reflexivity|].
  repeat match goal with
         | |- only _ (snd (if ?b then _ else _)) => destruct b
         end.
  - apply only_bind; [|intros; exact I].
    unfold RMC.init. cbv zeta. no_checksum_error.
  - apply only_bind; [|intros; exact I].
    unfold GGA.init. cbv zeta. no_checksum_error.
  - apply only_bind; [|intros; exact I]. cbn [lift snd].
    unfold GSA.init. cbv zeta.
    do 2 (apply only_rbind; [no_checksum_error | intros ? _]).
    apply only_rbind; [apply collect_sv_ids_no_checksum | intros ? _].
    no_checksum_error.
  - apply only_bind; [|intros; exact I]. cbn [lift snd].
    unfold GSV.init. cbv zeta.
    do 6 (apply only_rbind; [no_checksum_error | intros ? _]).
    apply only_rbind; [apply collect_sat_data_no_checksum | intros ? _].
    exact I.
  - apply only_bind; [|intros; exact I]. cbn [lift snd].
    unfold VTG.init. cbv zeta. no_checksum_error.
  - exact I.
Qed.

(** Whatever goes wrong in [parse], it raises [ValueError] or its subclass
    [ChecksumError]. *)
Lemma parse_only (line : string) (strict : bool) :
  only is_ValueError (snd (parse line strict)).
Proof.
  unfold parse. destruct (negb _); [reflexivity|].
  destruct (bind _ _) as [l [s|e]]; [exact I|].
  destruct e; reflexivity.
Qed.

Lemma stream_line_not_aborted (line : string) (strict : bool) :
  aborted (stream_line line strict) = None.
Proof.
  unfold stream_line.
  destruct (negb (PyStr.startswith "$" line)); [reflexivity|].
  destruct (negb (PyStr.truthy _)); [reflexivity|].
  pose proof (parse_only
                (PyStr.remove_char PyStr.NUL
                   (PyStr.strip (decode_ascii_ignore line))) strict) as H.
  destruct (parse _ strict) as [l [s|e]].
  - now destruct (negb _).
  - cbn in H. now rewrite H.
Qed.

Lemma parse_nmea_stream_cons (line : string) (rest : list string)
    (strict : bool) :
  parse_nmea_stream (line :: rest) strict
  = mk_stream
      (logged (stream_line line strict)
       ++ logged (parse_nmea_stream rest strict))%list
      (yielded (stream_line line strict)
       ++ yielded (parse_nmea_stream rest strict))%list
      (aborted (parse_nmea_stream rest strict)).
Proof.
  cbn [parse_nmea_stream]. cbv zeta.
  now rewrite stream_line_not_aborted.
Qed.

Lemma parse_nmea_stream_not_aborted (lines : list string) (strict : bool) :
  aborted (parse_nmea_stream lines strict) = None.
Proof.
  induction lines as [|line rest IH]; [reflexivity|].
  rewrite parse_nmea_stream_cons. exact IH.
Qed.

Lemma decode_bad (sentence checksum talker cls : string) (data : list string)
    (strict : bool) :
  PyStr.split "," (PyStr.drop 1 sentence) = (talker ++ cls) :: data ->
  String.length talker = 2%nat ->
  bad_numeric_field cls data ->
  raises (snd (decode sentence checksum strict)).
Proof.
  intros Hs Hl Hbad.
  assert (Hk : numeric_fields cls <> []).
  { destruct Hbad as (i & k & x & Hin & _). intros E. rewrite E in Hin.
    destruct Hin. }
  destruct talker as [|a [|b [|c t]]]; try discriminate Hl. clear Hl.
  unfold decode. rewrite Hs. cbv zeta.
  rewrite (bind_lift_Ok _ (String a (String b cls)) _ eq_refl).
  unfold numeric_fields in Hk.
  destruct (String.eqb cls "RMC") eqn:E1;
    [apply String.eqb_eq in E1; subst cls
    |destruct (String.eqb cls "GGA") eqn:E2;
     [apply String.eqb_eq in E2; subst cls
     |destruct (String.eqb cls "GSA") eqn:E3;
      [apply String.eqb_eq in E3; subst cls
      |destruct (String.eqb cls "VTG") eqn:E4;
       [apply String.eqb_eq in E4; subst cls
       |destruct (String.eqb cls "GSV") eqn:E5;
        [apply String.eqb_eq in E5; subst cls
        |now contradiction Hk]]]]];
    cbn -[RMC.init GGA.init GSA.init VTG.init GSV.init PyStr.strip bind lift ret];
    apply raises_bind_l; cbn [lift snd].
  - now apply RMC_init_bad.
  - now apply GGA_init_bad.
  - now apply GSA_init_bad.
  - now apply VTG_init_bad.
  - now apply GSV_init_bad.
Qed.

Lemma verify_checksum_nonempty (text : string) (l : list log_record)
    (parts : string * string) :
  verify_checksum text = (l, Ok parts) ->
  PyStr.truthy (PyStr.strip (PyStr.remove_char PyStr.NUL text)) = true.
Proof.
  unfold verify_checksum, split_checksum.
  destruct (PyStr.strip (PyStr.remove_char PyStr.NUL text)); [|reflexivity].
  discriminate.
Qed.

Lemma remove_char_idempotent (c : ascii) (s : string) :
  PyStr.remove_char c (PyStr.remove_char c s) = PyStr.remove_char c s.
Proof.
  induction s as [|x s IH]; [reflexivity|].
  simpl. destruct (Ascii.eqb x c) eqn:E; [exact IH|].
  simpl. now rewrite E, IH.
Qed.

(** A line whose decoder raises is reported as a [ValueError], logged as a
    warning and skipped. *)
Lemma stream_line_bad (line : string) (strict : bool) (log : list log_record)
    (sentence checksum : string) :
  PyStr.startswith "$" line = true ->
  verify_checksum (stream_text line) = (log, Ok (sentence, checksum)) ->
  raises (snd (decode sentence checksum strict)) ->
  exists l,
    parse (stream_text line) strict = (l, Raise ValueError)
    /\ stream_line line strict
       = mk_stream (l ++ [(WARNING, Error_parsing_line ValueError)])%list
                   [] None.
Proof.
  intros Hstart Hv Hd.
  assert (Hp : exists l, parse (stream_text line) strict = (l, Raise ValueError)).
  { unfold parse. destruct (negb _); [now exists []|].
    rewrite (bind_Ok _ _ _ _ Hv). cbn [fst snd].
    pose proof (decode_no_checksum sentence checksum strict) as Hn.
    destruct Hd as [e He].
    destruct (decode sentence checksum strict) as [l' r]. cbn in He, Hn |- *.
    subst r. cbn in Hn. exists (log ++ l')%list.
    destruct e; try reflexivity. discriminate Hn. }
  destruct Hp as [l Hp]. exists l. split; [exact Hp|].
  unfold stream_line. rewrite Hstart. cbn [negb].
  fold (stream_text line).
  assert (Ht : PyStr.truthy (PyStr.strip (stream_text line)) = true).
  { rewrite <- (verify_checksum_nonempty _ _ _ Hv).
    unfold stream_text at 2. now rewrite remove_char_idempotent. }
  rewrite Ht. cbn [negb]. now rewrite Hp.
Qed.

(** A field that starts with an information separator (FS..US) is not
    numeric: [int] and [float] skip TAB..CR, space, NEL and NBSP only, and
    raise on it, although [str.strip] would remove it. *)
Lemma separator_not_numeric (c : ascii) (x : string) (k : numeric) :
  28 <= PyStr.code c <= 31 ->
  converts k (String c x) = false /\ PyStr.is_space c = true.
Proof.
  intros H.
  destruct c as [[] [] [] [] [] [] [] []]; cbn in H; try lia;
    (split; [destruct k; reflexivity | reflexivity]).
Qed.

(** The claim C3 fails on a GGA whose dilution field is [abc]: the checksum
    passes, and no sentence comes out of the stream. *)
Lemma C3_counterexample :
  checksum_passes gga_bad_hdop_line = true
  /\ converts Float "abc" = false
  /\ snd (parse gga_bad_hdop_line false) = Raise ValueError
  /\ yielded (parse_nmea_stream [gga_bad_hdop_line] false) = [].
Proof. repeat split; vm_compute; reflexivity. Qed.

(** C3, amended: when a numeric field of a checksum-valid sentence of one
    of the five classes is not empty and does not convert, the constructor
    raises and [parse] reports a [ValueError]; the stream logs a warning,
    yields nothing for that line (the whole sentence is dropped, no field is
    left absent) and goes on with the lines that follow: it is not
    aborted. *)
Theorem C3_bad_numeric_field (line : string) (rest : list string)
    (strict : bool) (log : list log_record)
    (sentence checksum talker cls : string) (data : list string) :
  PyStr.startswith "$" line = true ->
  verify_checksum (stream_text line) = (log, Ok (sentence, checksum)) ->
  PyStr.split "," (PyStr.drop 1 sentence) = (talker ++ cls) :: data ->
  String.length talker = 2%nat ->
  bad_numeric_field cls data ->
  exists l,
    parse (stream_text line) strict = (l, Raise ValueError)
    /\ stream_line line strict
       = mk_stream (l ++ [(WARNING, Error_parsing_line ValueError)])%list
                   [] None
    /\ yielded (parse_nmea_stream (line :: rest) strict)
       = yielded (parse_nmea_stream rest strict)
    /\ aborted (parse_nmea_stream (line :: rest) strict) = None.
Proof.
  intros Hstart Hv Hs Hl Hbad.
  destruct (stream_line_bad line strict log sentence checksum Hstart Hv
              (decode_bad _ _ _ _ _ strict Hs Hl Hbad)) as (l & Hp & Hline).
  exists l. split; [exact Hp|]. split; [exact Hline|]. split.
  - rewrite parse_nmea_stream_cons, Hline. reflexivity.
  - apply parse_nmea_stream_not_aborted.
Qed.

Lemma C3_bad_numeric_field_witness :
  exists l,
    parse (stream_text gga_bad_hdop_line) false = (l, Raise ValueError)
    /\ stream_line gga_bad_hdop_line false
       = mk_stream (l ++ [(WARNING, Error_parsing_line ValueError)])%list
                   [] None
    /\ yielded (parse_nmea_stream (gga_bad_hdop_line :: gps_valid_data) false)
       = yielded (parse_nmea_stream gps_valid_data false)
    /\ aborted (parse_nmea_stream (gga_bad_hdop_line :: gps_valid_data) false)
       = None.
Proof.
  apply (C3_bad_numeric_field gga_bad_hdop_line gps_valid_data false []
           "$GNGGA,204415.00,5222.81631,N,00453.44115,E,1,08,abc,-13.1,M,45.9,M,,"
           "29" "GN" "GGA"
           ["204415.00"; "5222.81631"; "N"; "00453.44115"; "E"; "1"; "08";
            "abc"; "-13.1"; "M"; "45.9"; "M"; ""; ""]).
  - vm_compute. reflexivity.
  - vm_compute. reflexivity.
  - vm_compute. reflexivity.
  - reflexivity.
  - exists 7%nat, Float, "abc".
    split; [vm_compute; auto|]. repeat split; vm_compute; reflexivity.
Defined.

(** * Further properties of the module *)

(** ** [NMEASentence.parse] *)

Lemma verify_checksum_raises (line : string) (e : exn) :
  snd (verify_checksum line) = Raise e ->
  (e = ChecksumError /\
   exists sentence checksum,
     split_checksum (PyStr.strip (PyStr.remove_char PyStr.NUL line))
     = Ok (sentence, checksum)
     /\ checksum_matches sentence checksum = false)
  \/ (e = ValueError /\
      split_checksum (PyStr.strip (PyStr.remove_char PyStr.NUL line))
      = Raise ValueError).
Proof.
  unfold verify_checksum.
  destruct (split_checksum _) as [[s c]|e'] eqn:E.
  - cbn [lift bind]. destruct (checksum_matches s c) eqn:Em; cbn.
    + discriminate.
    + intros H. injection H as <-. left. split; [reflexivity|].
      now exists s, c.
  - cbn. intros H. injection H as <-. right.
    unfold split_checksum in E |- *.
    destruct (PyStr.contains "*" _).
    + destruct (PyStr.split "*" _) as [|a [|b [|c l]]];
        try discriminate; now injection E as <-.
    + now injection E as <-.
Qed.

Lemma verify_checksum_Ok (line : string) (l : list log_record)
    (sentence checksum : string) :
  verify_checksum line = (l, Ok (sentence, checksum)) ->
  split_checksum (PyStr.strip (PyStr.remove_char PyStr.NUL line))
  = Ok (sentence, checksum)
  /\ checksum_matches sentence checksum = true.
Proof.
  unfold verify_checksum.
  destruct (split_checksum _) as [[s c]|e]; [|discriminate].
  cbn [lift bind].
  destruct (checksum_matches s c) eqn:Em; cbn [negb]; [|discriminate].
  cbn. intros H. injection H as _ <- <-. auto.
Qed.

(** X1: [parse] returns a sentence or raises [ValueError] or [ChecksumError],
    whatever the line: the [IndexError] and [OverflowError] of the
    constructors never leave it.  It raises [ChecksumError] exactly when the
    line starts with the marker, splits in two at its separator and the
    computed checksum differs from the checksum field. *)
Theorem parse_exceptions (line : string) (strict : bool) :
  match snd (parse line strict) with
  | Ok _ => True
  | Raise e => e = ValueError \/ e = ChecksumError
  end
  /\ (snd (parse line strict) = Raise ChecksumError <->
      PyStr.startswith "$" line = true
      /\ exists sentence checksum,
           split_checksum (PyStr.strip (PyStr.remove_char PyStr.NUL line))
           = Ok (sentence, checksum)
           /\ checksum_matches sentence checksum = false).
Proof.
  split.
  - pose proof (parse_only line strict) as H.
    destruct (snd (parse line strict)) as [s|e]; [exact I|].
    destruct e; try discriminate H; auto.
  - unfold parse. destruct (PyStr.startswith "$" line); cbn [negb].
    + destruct (verify_checksum line) as [l [[s c]|e]] eqn:Ev.
      * rewrite (bind_Ok _ _ _ _ eq_refl). cbn [fst snd].
        pose proof (decode_no_checksum s c strict) as Hn.
        destruct (decode s c strict) as [l' [a|e]].
        -- cbn [snd reraise]. split; [discriminate|].
           intros (_ & s' & c' & Es & Em).
           destruct (verify_checksum_Ok _ _ _ _ Ev) as [Es' Em'].
           rewrite Es in Es'. injection Es' as -> ->. congruence.
        -- cbn [snd] in Hn.
           destruct e; try discriminate Hn; cbn [snd reraise];
             (split; [discriminate|]);
             intros (_ & s' & c' & Es & Em);
             destruct (verify_checksum_Ok _ _ _ _ Ev) as [Es' Em'];
             rewrite Es in Es'; injection Es' as -> ->; congruence.
      * cbn [bind reraise snd].
        pose proof (verify_checksum_raises line e) as Hr.
        rewrite Ev in Hr. specialize (Hr eq_refl).
        destruct Hr as [[-> Hx] | [-> Hx]].
        -- split; [intros _; split; [reflexivity | exact Hx] | reflexivity].
        -- split; [discriminate|]. intros (_ & s' & c' & Es & _).
           rewrite Hx in Es. discriminate.
    + cbn. split; [discriminate|]. intros [H _]. discriminate.
Qed.

(** X2: A sentence identifier shorter than five characters is refused, and a
    type code outside [SENTENCE_TYPES] gives a plain sentence with the
    talker, the type code and the raw fields: it never fails. *)
Theorem decode_unknown_type (sentence checksum id : string)
    (data : list string) (strict : bool) :
  PyStr.split "," (PyStr.drop 1 sentence) = id :: data ->
  ((String.length id < 5)%nat ->
   decode sentence checksum strict = ([], Raise ValueError))
  /\ ((5 <= String.length id)%nat ->
      known_type (PyStr.drop 2 id) = false ->
      decode sentence checksum strict
      = ([], Ok (Plain (base_init (PyStr.slice 0 2 id) data
                                  (PyStr.strip checksum) (PyStr.drop 2 id))))).
Proof.
  intros Hs. unfold decode. rewrite Hs. cbv zeta.
  rewrite (bind_lift_Ok _ id _ eq_refl).
  split.
  - intros H. apply Nat.ltb_lt in H. now rewrite H.
  - intros H Hk. apply Nat.ltb_ge in H. rewrite H.
    unfold known_type in Hk.
    repeat (apply orb_false_iff in Hk; destruct Hk as [Hk ?]).
    repeat match goal with E : String.eqb _ _ = false |- _ => rewrite E; clear E end.
    reflexivity.
Qed.

Lemma decode_unknown_type_witness :
  decode "$GPZDA,201530.00,04,07,2002,00,00" "60" false
  = ([], Ok (Plain (base_init "GP" ["201530.00"; "04"; "07"; "2002"; "00"; "00"]
                              "60" "ZDA"))).
Proof.
  apply (proj2 (decode_unknown_type "$GPZDA,201530.00,04,07,2002,00,00" "60"
                  "GPZDA" ["201530.00"; "04"; "07"; "2002"; "00"; "00"] false
                  eq_refl)).
  - cbn. lia.
  - reflexivity.
Defined.

Lemma rstrip_all_space (ws : string) : all_space ws = true -> PyStr.rstrip ws = "".
Proof.
  induction ws as [|c ws IH]; [reflexivity|].
  simpl. intros H. apply andb_true_iff in H as [Hc Hw].
  now rewrite (IH Hw), Hc.
Qed.

Lemma rstrip_app_space (s ws : string) :
  all_space ws = true -> PyStr.rstrip (s ++ ws) = PyStr.rstrip s.
Proof.
  intros H. induction s as [|c s IH]; simpl.
  - now apply rstrip_all_space.
  - now rewrite IH.
Qed.

Lemma remove_NUL_all_space (ws : string) :
  all_space ws = true -> PyStr.remove_char PyStr.NUL ws = ws.
Proof.
  induction ws as [|c ws IH]; [reflexivity|].
  simpl. intros H. apply andb_true_iff in H as [Hc Hw].
  destruct (Ascii.eqb c PyStr.NUL) eqn:E.
  - apply Ascii.eqb_eq in E. subst c. discriminate Hc.
  - now rewrite (IH Hw).
Qed.

(** X3: For a line that starts with the marker, neither the null bytes in it
    nor whitespace after it (a newline, a carriage return) change what
    [parse] returns, raises or logs. *)
Theorem parse_ignores_padding (line ws : string) (strict : bool) :
  PyStr.startswith "$" line = true ->
  all_space ws = true ->
  parse (PyStr.remove_char PyStr.NUL line) strict = parse line strict
  /\ parse (line ++ ws) strict = parse line strict.
Proof.
  intros Hs Hw. destruct (startswith_inv _ _ Hs) as [rest ->].
  split.
  - unfold parse, verify_checksum.
    rewrite remove_char_idempotent. reflexivity.
  - unfold parse, verify_checksum.
    assert (E : PyStr.strip (PyStr.remove_char PyStr.NUL (String "$" rest ++ ws))
                = PyStr.strip (PyStr.remove_char PyStr.NUL (String "$" rest))).
    { rewrite remove_char_app, (remove_NUL_all_space ws Hw).
      cbn [PyStr.remove_char]. change (Ascii.eqb "$" PyStr.NUL) with false.
      cbv iota. unfold PyStr.strip.
      change (String "$" (PyStr.remove_char PyStr.NUL rest) ++ ws)
        with (String "$" (PyStr.remove_char PyStr.NUL rest ++ ws)).
      cbn [PyStr.lstrip]. change (PyStr.is_space "$") with false. cbv iota.
      change (String "$" (PyStr.remove_char PyStr.NUL rest ++ ws))
        with (String "$" (PyStr.remove_char PyStr.NUL rest) ++ ws).
      now apply rstrip_app_space. }
    rewrite E. reflexivity.
Qed.

Lemma parse_ignores_padding_witness :
  parse ("$GNRMC,,V,,,,,,,,,,N*4D" ++ String (ascii_of_nat 13) newline) false
  = parse "$GNRMC,,V,,,,,,,,,,N*4D" false.
Proof.
  apply (proj2 (parse_ignores_padding "$GNRMC,,V,,,,,,,,,,N*4D"
                  (String (ascii_of_nat 13) newline) false eq_refl eq_refl)).
Defined.

(** ** [parse_nmea_stream] *)

Lemma stream_eta (s : stream) :
  s = mk_stream (logged s) (yielded s) (aborted s).
Proof. now destruct s. Qed.

Lemma stream_line_yields_at_most_one (line : string) (strict : bool) :
  (List.length (yielded (stream_line line strict)) <= 1)%nat.
Proof.
  unfold stream_line.
  destruct (negb (PyStr.startswith "$" line)); [cbn; lia|].
  destruct (negb (PyStr.truthy _)); [cbn; lia|].
  destruct (parse _ strict) as [l [s|e]].
  - destruct (negb _); cbn; lia.
  - destruct (is_ValueError e); cbn; lia.
Qed.

(** X4: The stream is never aborted by a line, it yields at most one sentence
    per line, and it treats each line on its own: reading two lists of
    lines one after the other logs and yields what reading each of them
    does, in that order. *)
Theorem parse_nmea_stream_line_by_line (lines more : list string)
    (strict : bool) :
  aborted (parse_nmea_stream lines strict) = None
  /\ (List.length (yielded (parse_nmea_stream lines strict))
      <= List.length lines)%nat
  /\ parse_nmea_stream (lines ++ more) strict
     = mk_stream
         (logged (parse_nmea_stream lines strict)
          ++ logged (parse_nmea_stream more strict))%list
         (yielded (parse_nmea_stream lines strict)
          ++ yielded (parse_nmea_stream more strict))%list
         None.
Proof.
  split; [apply parse_nmea_stream_not_aborted|]. split.
  - induction lines as [|line rest IH]; [cbn; lia|].
    rewrite parse_nmea_stream_cons. cbn [yielded List.length].
    rewrite length_app.
    pose proof (stream_line_yields_at_most_one line strict). lia.
  - induction lines as [|line rest IH].
    + cbn [app parse_nmea_stream logged yielded].
      rewrite (stream_eta (parse_nmea_stream more strict)) at 1.
      now rewrite parse_nmea_stream_not_aborted.
    + cbn [app]. rewrite !parse_nmea_stream_cons, IH.
      cbn [logged yielded aborted].
      now rewrite !app_assoc.
Qed.

Lemma parse_Ok_checksum (text : string) (strict : bool) (s : NMEASentence) :
  snd (parse text strict) = Ok s -> checksum_passes text = true.
Proof.
  unfold parse, checksum_passes.
  destruct (PyStr.startswith "$" text); cbn [negb andb]; [|discriminate].
  destruct (verify_checksum text) as [l [p|e]]; [reflexivity|].
  cbn. destruct e; discriminate.
Qed.

Lemma stream_line_yielded (line : string) (strict : bool) (s : NMEASentence) :
  In s (yielded (stream_line line strict)) ->
  PyStr.startswith "$" line = true
  /\ snd (parse (stream_text line) strict) = Ok s.
Proof.
  unfold stream_line. fold (stream_text line).
  destruct (PyStr.startswith "$" line); cbn [negb]; [|intros []].
  destruct (negb (PyStr.truthy _)); [intros []|].
  destruct (parse (stream_text line) strict) as [l [s'|e]].
  - destruct (negb _); cbn; [intros [] | intros [<-|[]]; auto].
  - destruct (is_ValueError e); intros [].
Qed.

(** X5: Every sentence the stream yields is what [parse] returned for one of
    the lines: a line that starts with the marker and whose checksum
    passes.  A line with a wrong checksum never gives a sentence. *)
Theorem yielded_sentences_are_checked (lines : list string) (strict : bool)
    (s : NMEASentence) :
  In s (yielded (parse_nmea_stream lines strict)) ->
  exists line,
    In line lines
    /\ PyStr.startswith "$" line = true
    /\ snd (parse (stream_text line) strict) = Ok s
    /\ checksum_passes (stream_text line) = true.
Proof.
  induction lines as [|line rest IH]; [intros []|].
  rewrite parse_nmea_stream_cons. cbn [yielded].
  intros H. apply in_app_or in H as [H|H].
  - apply stream_line_yielded in H as [Hs Hp].
    exists line. split; [now left|]. split; [exact Hs|]. split; [exact Hp|].
    exact (parse_Ok_checksum _ _ _ Hp).
  - destruct (IH H) as (l & Hin & Hrest). exists l. split; [now right | exact Hrest].
Qed.

Lemma yielded_sentences_are_checked_witness :
  exists line,
    In line gps_valid_data
    /\ PyStr.startswith "$" line = true
    /\ snd (parse (stream_text line) false) = Ok (valid_sentence 3)
    /\ checksum_passes (stream_text line) = true.
Proof.
  apply (yielded_sentences_are_checked gps_valid_data false (valid_sentence 3)).
  vm_compute. auto.
Defined.

(** ** Decoded coordinates *)

Lemma validate_latitude_number (v : float) :
  validate_latitude v = true -> is_number v = true.
Proof.
  destruct v as [s|s| |s m e]; intros H; try reflexivity;
    [destruct s; discriminate H | discriminate H].
Qed.

Lemma validate_longitude_number (v : float) :
  validate_longitude v = true -> is_number v = true.
Proof.
  destruct v as [s|s| |s m e]; intros H; try reflexivity;
    [destruct s; discriminate H | discriminate H].
Qed.

Lemma parse_latitude_Ok (cls raw hemi : string) (o : option float) :
  snd (parse_latitude cls raw hemi) = Ok o ->
  forall v, o = Some v -> validate_latitude v = true.
Proof.
  unfold parse_latitude. intros H.
  apply bind_Ok_inv in H as (v & _ & H).
  destruct (validate_latitude v) eqn:E; cbn in H; injection H as <-.
  - intros v' Hv. now injection Hv as <-.
  - discriminate.
Qed.

Lemma parse_longitude_Ok (cls raw hemi : string) (strict : bool)
    (latitude : option float) (p : option float * option float) :
  snd (parse_longitude cls raw hemi strict latitude) = Ok p ->
  (fst p = latitude \/ fst p = None)
  /\ (forall v, snd p = Some v -> validate_longitude v = true)
  /\ (strict = true ->
      forall lat lon, p = (Some lat, Some lon) ->
                      exactly_zero lat lon = false /\ near_zero lat lon = false).
Proof.
  unfold parse_longitude. intros H.
  apply bind_Ok_inv in H as (v & _ & H).
  destruct (validate_longitude v) eqn:E; cbn [negb] in H.
  - destruct latitude as [lat|].
    + apply bind_Ok_inv in H as (u & _ & H).
      pose proof (should_reject_coordinates_eq lat v strict) as Hr.
      destruct (should_reject_coordinates lat v strict); cbn in H;
        injection H as <-; cbn.
      * repeat split; auto; discriminate.
      * split; [auto|]. split; [intros v' Hv; now injection Hv as <-|].
        intros -> la lo Hp. injection Hp as <- <-.
        cbn in Hr. symmetry in Hr. now apply orb_false_iff in Hr.
    + cbn in H. injection H as <-. cbn.
      split; [auto|]. split; [intros v' Hv; now injection Hv as <-|].
      intros _ la lo Hp. discriminate.
  - cbn in H. injection H as <-. cbn.
    repeat split; auto; discriminate.
Qed.

Lemma acceptable_blocks (strict : bool) (latitude : option float)
    (p : option float * option float) :
  (forall v, latitude = Some v -> validate_latitude v = true) ->
  (fst p = latitude \/ fst p = None) ->
  (forall v, snd p = Some v -> validate_longitude v = true) ->
  (strict = true ->
   forall lat lon, p = (Some lat, Some lon) ->
                   exactly_zero lat lon = false /\ near_zero lat lon = false) ->
  acceptable strict p.
Proof.
  intros Hlat Hfst Hlon Hstrict. repeat split.
  - destruct Hfst as [E|E]; rewrite E in H; [now apply Hlat | discriminate].
  - apply validate_latitude_number.
    destruct Hfst as [E|E]; rewrite E in H; [now apply Hlat | discriminate].
  - now apply Hlon.
  - now apply validate_longitude_number, Hlon.
  - now apply (Hstrict H lat lon).
  - now apply (Hstrict H lat lon).
Qed.

Lemma RMC_init_acceptable (talker : string) (sentence : list string)
    (checksum sentence_type : string) (strict : bool)
    (r : RMC.t datetime.time) :
  snd (RMC.init talker sentence checksum sentence_type strict) = Ok r ->
  acceptable strict (RMC.latitude r, RMC.longitude r).
Proof.
  unfold RMC.init. cbv zeta. intros H.
  do 9 invert_bind H. cbn in H. injection H as <-.
  cbn [RMC.latitude RMC.longitude]. rewrite <- surjective_pairing.
  assert (Hlat : forall v, v3 = Some v -> validate_latitude v = true).
  { destruct (len_gt sentence 3); [|cbn in E3; injection E3 as <-; discriminate].
    do 2 invert_bind E3.
    destruct (_ && _); [|cbn in E3; injection E3 as <-; discriminate].
    exact (parse_latitude_Ok _ _ _ _ E3). }
  assert (Hlon : (fst v4 = v3 \/ fst v4 = None)
     /\ (forall v, snd v4 = Some v -> validate_longitude v = true)
     /\ (strict = true ->
         forall lat lon, v4 = (Some lat, Some lon) ->
           exactly_zero lat lon = false /\ near_zero lat lon = false)).
  { destruct (len_gt sentence 5);
      [|cbn in E4; injection E4 as <-; cbn; repeat split; auto; discriminate].
    do 2 invert_bind E4.
    destruct (_ && _);
      [|cbn in E4; injection E4 as <-; cbn; repeat split; auto; discriminate].
    exact (parse_longitude_Ok _ _ _ _ _ _ E4). }
  destruct Hlon as (H1 & H2 & H3).
  now apply (acceptable_blocks strict v3 v4).
Qed.

Lemma GGA_init_acceptable (talker : string) (sentence : list string)
    (checksum sentence_type : string) (strict : bool)
    (g : GGA.t datetime.time) :
  snd (GGA.init talker sentence checksum sentence_type strict) = Ok g ->
  acceptable strict (GGA.latitude g, GGA.longitude g).
Proof.
  unfold GGA.init. cbv zeta. intros H.
  do 13 invert_bind H. cbn in H. injection H as <-.
  cbn [GGA.latitude GGA.longitude]. rewrite <- surjective_pairing.
  assert (Hlat : forall v, v2 = Some v -> validate_latitude v = true).
  { destruct (PyStr.truthy v1); [|cbn in E2; injection E2 as <-; discriminate].
    invert_bind E2.
    match type of E2 with
    | snd (if ?b then _ else _) = _ => destruct b
    end; [|cbn in E2; injection E2 as <-; discriminate].
    exact (parse_latitude_Ok _ _ _ _ E2). }
  assert (Hlon : (fst v4 = v2 \/ fst v4 = None)
     /\ (forall v, snd v4 = Some v -> validate_longitude v = true)
     /\ (strict = true ->
         forall lat lon, v4 = (Some lat, Some lon) ->
           exactly_zero lat lon = false /\ near_zero lat lon = false)).
  { destruct (PyStr.truthy v3);
      [|cbn in E4; injection E4 as <-; cbn; repeat split; auto; discriminate].
    invert_bind E4.
    match type of E4 with
    | snd (if ?b then _ else _) = _ => destruct b
    end;
      [|cbn in E4; injection E4 as <-; cbn; repeat split; auto; discriminate].
    exact (parse_longitude_Ok _ _ _ _ _ _ E4). }
  destruct Hlon as (H1 & H2 & H3).
  now apply (acceptable_blocks strict v2 v4).
Qed.

Lemma acceptable_none (strict : bool) : acceptable strict (None, None).
Proof. repeat split; discriminate. Qed.

Lemma decode_acceptable (sentence checksum : string) (strict : bool)
    (s : NMEASentence) :
  snd (decode sentence checksum strict) = Ok s ->
  acceptable strict (coordinates s).
Proof.
  unfold decode. cbv zeta. intros H.
  invert_bind H.
  destruct (_ <? _)%nat; [discriminate|].
  repeat match type of H with
         | snd (if ?b then _ else _) = _ => destruct b
         end;
    try (invert_bind H; cbn in H; injection H as <-; cbn [coordinates]).
  - now apply RMC_init_acceptable in E0.
  - now apply GGA_init_acceptable in E0.
  - apply acceptable_none.
  - apply acceptable_none.
  - apply acceptable_none.
  - cbn in H. injection H as <-. apply acceptable_none.
Qed.

(** X6: Whatever the line, a sentence that [parse] returns never carries a
    coordinate out of range: its latitude, when present, is a number in
    [-90, 90] and its longitude, when present, a number in [-180, 180]; in
    strict mode a pair that is present is neither exactly zero nor near
    zero. *)
Theorem parsed_coordinates_acceptable (line : string) (strict : bool)
    (s : NMEASentence) :
  snd (parse line strict) = Ok s -> acceptable strict (coordinates s).
Proof.
  unfold parse. destruct (negb _); [discriminate|].
  destruct (verify_checksum line) as [l [[sentence checksum]|e]].
  - rewrite (bind_Ok _ _ _ _ eq_refl). cbn [fst snd].
    destruct (decode sentence checksum strict) as [l' [a|e]] eqn:E.
    + cbn. intros H. injection H as <-.
      apply (decode_acceptable sentence checksum). now rewrite E.
    + cbn. destruct e; discriminate.
  - cbn. destruct e; discriminate.
Qed.

Lemma parsed_coordinates_acceptable_witness :
  acceptable false (coordinates (valid_sentence 3)).
Proof.
  apply (parsed_coordinates_acceptable
           "$GNRMC,204416.00,A,5222.81586,N,00453.44075,E,0.947,,290425,,,A*6C"
           false (valid_sentence 3)).
  vm_compute. reflexivity.
Defined.

(** ** [group_nmea_points] *)

Lemma step_count (w : float) (c : Current.t) (s : NMEASentence) :
  (List.length (fst (step w c s)) + pending_count (snd (step w c s))
   <= pending_count c + (if is_position s then 1 else 0))%nat.
Proof.
  destruct c as [rmc gga gsa vtg gsv lt cd].
  unfold step, window_check, store, flush, pending_count.
  destruct s as [r|g|a|v|v|b]; cbn [msg_time_of Current.last_time is_position].
  - destruct (RMC.time r) as [t|], lt as [l|];
      try destruct (PyFloat.ltb _ _);
      destruct rmc, gga; cbn; destruct (RMC.date r); cbn; lia.
  - destruct (GGA.time g) as [t|], lt as [l|];
      try destruct (PyFloat.ltb _ _);
      destruct rmc, gga; cbn; lia.
  - cbn. lia.
  - cbn. lia.
  - cbn. lia.
  - cbn. lia.
Qed.

Lemma run_count (w : float) (sentences : list NMEASentence) (c : Current.t) :
  (List.length (fst (run w c sentences)) + pending_count (snd (run w c sentences))
   <= pending_count c + List.length (filter is_position sentences))%nat.
Proof.
  revert c. induction sentences as [|s rest IH]; intros c; [cbn; lia|].
  cbn [run]. pose proof (step_count w c s) as Hs.
  destruct (step w c s) as [out c']. specialize (IH c').
  destruct (run w c' rest) as [outs c'']. cbn [fst snd] in *.
  rewrite length_app. cbn [filter].
  destruct (is_position s); cbn [List.length]; lia.
Qed.

(** X7: The state machine yields at most one point per RMC or GGA sentence of
    its input; when the input has neither, it yields nothing. *)
Theorem group_nmea_points_bound (sentences : list NMEASentence) (w : float) :
  (List.length (group_nmea_points sentences w)
   <= List.length (filter is_position sentences))%nat
  /\ (forallb (fun s => negb (is_position s)) sentences = true ->
      group_nmea_points sentences w = []).
Proof.
  assert (Hb : (List.length (group_nmea_points sentences w)
                <= List.length (filter is_position sentences))%nat).
  { unfold group_nmea_points.
    pose proof (run_count w sentences Current.initial) as H.
    destruct (run w Current.initial sentences) as [out c]. cbn [fst snd] in H.
    rewrite length_app. unfold final_flush.
    change (pending_count Current.initial) with 0%nat in H.
    unfold pending_count in H.
    destruct (is_some (Current.rmc c)), (is_some (Current.gga c));
      cbn [orb List.length] in *; lia. }
  split; [exact Hb|].
  intros Hn.
  assert (E : filter is_position sentences = []).
  { clear Hb. induction sentences as [|s rest IH]; [reflexivity|].
    cbn in Hn |- *. apply andb_true_iff in Hn as [Hs Hr].
    apply negb_true_iff in Hs. rewrite Hs. now apply IH. }
  rewrite E in Hb. cbn in Hb.
  destruct (group_nmea_points sentences w); [reflexivity | cbn in Hb; lia].
Qed.

Lemma group_nmea_points_bound_witness :
  group_nmea_points [valid_sentence 1; valid_sentence 4] default_time_window = [].
Proof.
  apply (proj2 (group_nmea_points_bound [valid_sentence 1; valid_sentence 4]
                  default_time_window)).
  reflexivity.
Defined.

Lemma clock_of_stamped (d : datetime.date) (o : option datetime.time) :
  option_map clock_of (stamped d o) = o.
Proof. now destruct o. Qed.

Lemma clock_of_as_time (o : option datetime.time) :
  option_map clock_of (as_time o) = o.
Proof. now destruct o. Qed.

Lemma same_rmc_set_time (r : RMC.t datetime.time) (o : option datetime.stamp) :
  option_map clock_of o = RMC.time r -> same_rmc (RMC.set_time r o) r.
Proof. intros H. split; [reflexivity | exact H]. Qed.

Lemma same_gga_set_time (g : GGA.t datetime.time) (o : option datetime.stamp) :
  option_map clock_of o = GGA.time g -> same_gga (GGA.set_time g o) g.
Proof. intros H. split; [reflexivity | exact H]. Qed.

Lemma get_point_from_input (input : list NMEASentence) (c : Current.t) :
  pending_from input c -> from_input input (get_point c).
Proof.
  intros (Hr & Hg & Ha & Hv & Hs). unfold get_point.
  destruct (Current.rmc c) as [r|], (Current.gga c) as [g|];
    [ destruct (RMC.time r) as [t|] eqn:Et, (RMC.date r) as [d|]
    | | destruct (Current.current_date c) as [d|] | ];
    (split; [|split; [|split; [|split]]]);
    cbn [PointData.rmc PointData.gga PointData.gsa PointData.vtg
         PointData.gsv];
    try assumption; try discriminate.
  all: intros x E; injection E as <-.
  all: first
    [ exists r; split; [now apply Hr|]; apply same_rmc_set_time;
      rewrite ?Et; try destruct (RMC.time r); reflexivity
    | exists g; split; [now apply Hg|]; apply same_gga_set_time;
      destruct (GGA.time g); reflexivity ].
Qed.

Lemma clear_pending_from (input : list NMEASentence) (c : Current.t) :
  pending_from input c -> pending_from input (Current.clear c).
Proof.
  intros (Hr & Hg & Ha & Hv & Hs).
  repeat split; cbn; try assumption; discriminate.
Qed.

Lemma window_check_from_input (input : list NMEASentence) (w : float)
    (c : Current.t) (s : NMEASentence) :
  pending_from input c ->
  Forall (from_input input) (fst (window_check w c s))
  /\ pending_from input (snd (window_check w c s)).
Proof.
  intros H. unfold window_check.
  destruct (msg_time_of s), (Current.last_time c); cbn; auto.
  destruct (PyFloat.ltb _ _); cbn; auto.
  split; [|now apply clear_pending_from].
  destruct (_ || _); constructor; [|constructor].
  now apply get_point_from_input.
Qed.

Lemma set_sentence_pending_from (input : list NMEASentence) (c : Current.t) :
  pending_from input c ->
  (forall r, In (Rmc r) input ->
             pending_from input (Current.set_rmc c (Some r)))
  /\ (forall g, In (Gga g) input ->
                 pending_from input (Current.set_gga c (Some g)))
  /\ (forall a, In (Gsa a) input ->
                 pending_from input (Current.set_gsa c (Some a)))
  /\ (forall v, In (Vtg v) input ->
                 pending_from input (Current.set_vtg c (Some v)))
  /\ (forall v, In (Gsv v) input ->
                 pending_from input (Current.set_gsv c (Some v)))
  /\ (forall t, pending_from input (Current.set_last_time c t))
  /\ (forall d, pending_from input (Current.set_current_date c d)).
Proof.
  intros (Hr & Hg & Ha & Hv & Hs).
  repeat split; cbn; try assumption;
    intros x E; injection E as <-; assumption.
Qed.

Lemma flush_if_from_input (input : list NMEASentence) (b : bool)
    (c : Current.t) :
  pending_from input c ->
  Forall (from_input input) (fst (if b then flush c else ([], c)))
  /\ pending_from input (snd (if b then flush c else ([], c))).
Proof.
  intros H. destruct b; cbn [flush fst snd].
  - split; [|now apply clear_pending_from].
    constructor; [|constructor]. now apply get_point_from_input.
  - split; [constructor | exact H].
Qed.

Lemma store_from_input (input : list NMEASentence) (c : Current.t)
    (s : NMEASentence) :
  pending_from input c -> In s input ->
  Forall (from_input input) (fst (store c s))
  /\ pending_from input (snd (store c s)).
Proof.
  intros H Hin. destruct s as [r|g|a|v|v|b]; cbn [store].
  - destruct (flush_if_from_input input
                (is_some (Current.rmc c) && is_some (Current.gga c)) c H)
      as [H1 H2].
    destruct (if is_some (Current.rmc c) && is_some (Current.gga c)
              then flush c else ([], c)) as [out c1].
    cbn [fst snd] in *. split; [exact H1|].
    assert (H3 : pending_from input
                   (Current.set_last_time (Current.set_rmc c1 (Some r))
                      (RMC.time r))).
    { apply set_sentence_pending_from.
      now apply (set_sentence_pending_from input c1 H2). }
    destruct (is_some (RMC.time r) && is_some (RMC.date r)); [|exact H3].
    now apply set_sentence_pending_from.
  - destruct (flush_if_from_input input
                (is_some (Current.gga c) && is_some (Current.rmc c)) c H)
      as [H1 H2].
    destruct (if is_some (Current.gga c) && is_some (Current.rmc c)
              then flush c else ([], c)) as [out c1].
    cbn [fst snd] in *. split; [exact H1|].
    apply set_sentence_pending_from.
    now apply (set_sentence_pending_from input c1 H2).
  - cbn [fst snd]. split; [constructor|].
    now apply (set_sentence_pending_from input c H).
  - cbn [fst snd]. split; [constructor|].
    now apply (set_sentence_pending_from input c H).
  - cbn [fst snd]. split; [constructor|].
    now apply (set_sentence_pending_from input c H).
  - cbn [fst snd]. split; [constructor | exact H].
Qed.

Lemma step_from_input (input : list NMEASentence) (w : float) (c : Current.t)
    (s : NMEASentence) :
  pending_from input c -> In s input ->
  Forall (from_input input) (fst (step w c s))
  /\ pending_from input (snd (step w c s)).
Proof.
  intros H Hin. unfold step.
  destruct (window_check_from_input input w c s H) as [H1 H2].
  destruct (window_check w c s) as [o1 c1]. cbn [fst snd] in *.
  destruct (store_from_input input c1 s H2 Hin) as [H3 H4].
  destruct (store c1 s) as [o2 c2]. cbn [fst snd] in *.
  split; [apply Forall_app; now split | exact H4].
Qed.

Lemma run_from_input (input : list NMEASentence) (w : float)
    (sentences : list NMEASentence) (c : Current.t) :
  pending_from input c -> incl sentences input ->
  Forall (from_input input) (fst (run w c sentences))
  /\ pending_from input (snd (run w c sentences)).
Proof.
  revert c. induction sentences as [|s rest IH]; intros c H Hincl.
  - cbn. auto.
  - cbn [run].
    destruct (step_from_input input w c s H (Hincl s (or_introl eq_refl)))
      as [H1 H2].
    destruct (step w c s) as [o c']. cbn [fst snd] in *.
    destruct (IH c' H2 (fun x Hx => Hincl x (or_intror Hx))) as [H3 H4].
    destruct (run w c' rest) as [os c'']. cbn [fst snd] in *.
    split; [apply Forall_app; now split | exact H4].
Qed.

Lemma group_points_from_input (input sentences : list NMEASentence)
    (w : float) :
  incl sentences input ->
  Forall (from_input input) (group_nmea_points sentences w).
Proof.
  intros Hincl. unfold group_nmea_points.
  assert (H0 : pending_from input Current.initial)
    by (repeat split; discriminate).
  destruct (run_from_input input w sentences Current.initial H0 Hincl)
    as [H1 H2].
  destruct (run w Current.initial sentences) as [out c]. cbn [fst snd] in *.
  apply Forall_app. split; [exact H1|].
  unfold final_flush. destruct (_ || _); constructor; [|constructor].
  now apply get_point_from_input.
Qed.

(** X8: The state machine invents nothing: the RMC and the GGA of every point
    it yields are sentences of its input, unchanged but for the date merged
    into their time (whose time of day is kept), and the GSA, VTG and GSV of
    the point are sentences of the input as they are. *)
Theorem group_nmea_points_from_input (sentences : list NMEASentence)
    (w : float) :
  Forall (from_input sentences) (group_nmea_points sentences w).
Proof.
  unfold group_nmea_points.
  assert (H0 : pending_from sentences Current.initial)
    by (repeat split; discriminate).
  destruct (run_from_input sentences w sentences Current.initial H0
              (incl_refl _)) as [H1 H2].
  destruct (run w Current.initial sentences) as [out c]. cbn [fst snd] in *.
  apply Forall_app. split; [exact H1|].
  unfold final_flush. destruct (_ || _); constructor; [|constructor].
  now apply get_point_from_input.
Qed.

(** ** [GPXWriter] *)

Lemma inner_line_not_open (l : string) :
  inner_line l = true -> opens_track_point l = false.
Proof.
  unfold inner_line, opens_track_point.
  do 7 (destruct l as [|? l]; [discriminate|];
        cbn [String.prefix];
        destruct (ascii_dec _ _) as [<-|]; [|discriminate]).
  intros _. reflexivity.
Qed.

Lemma deep_line_inner (l : string) : deep_line l = true -> inner_line l = true.
Proof.
  unfold inner_line, deep_line.
  do 8 (destruct l as [|? l]; [discriminate|];
        cbn [String.prefix];
        destruct (ascii_dec _ _) as [<-|]; [|discriminate]).
  intros _. now destruct l.
Qed.

Lemma deep_line_not_time (l : string) :
  deep_line l = true -> time_line l = false.
Proof.
  unfold time_line, deep_line.
  do 9 (destruct l as [|? l]; [discriminate|];
        cbn [String.prefix];
        destruct (ascii_dec _ _) as [<-|]; [|discriminate]).
  intros _. reflexivity.
Qed.

Lemma forallb_weaken {A : Type} (P Q : A -> bool) (l : list A) :
  (forall x, P x = true -> Q x = true) ->
  forallb P l = true -> forallb Q l = true.
Proof.
  intros H. rewrite !forallb_forall. intros Hl x Hx. now apply H, Hl.
Qed.

Ltac line_cases :=
  rewrite ?forallb_app;
  repeat match goal with
         | |- context [if ?b then _ else _] => destruct b
         end;
  reflexivity.

Lemma write_rmc_extensions_deep {T : Type} (rmc : RMC.t T) :
  forallb deep_line (GPXWriter.write_rmc_extensions rmc) = true.
Proof. unfold GPXWriter.write_rmc_extensions. line_cases. Qed.

Lemma write_gga_extensions_deep {T : Type} (gga : GGA.t T) :
  forallb deep_line (GPXWriter.write_gga_extensions gga) = true.
Proof. unfold GPXWriter.write_gga_extensions. line_cases. Qed.

Lemma write_gsa_extensions_deep (gsa : GSA.t) :
  forallb deep_line (GPXWriter.write_gsa_extensions gsa) = true.
Proof.
  unfold GPXWriter.write_gsa_extensions.
  destruct (GSA.sv_ids gsa); line_cases.
Qed.

Lemma write_vtg_extensions_deep (vtg : VTG.t) :
  forallb deep_line (GPXWriter.write_vtg_extensions vtg) = true.
Proof. unfold GPXWriter.write_vtg_extensions. line_cases. Qed.

Lemma write_sat_deep (sat : GSVSatellite) :
  forallb deep_line (GPXWriter.write_sat sat) = true.
Proof. unfold GPXWriter.write_sat. line_cases. Qed.

Lemma write_sats_deep (sats : list GSVSatellite) :
  forallb deep_line (flat_map GPXWriter.write_sat sats) = true.
Proof.
  induction sats as [|sat rest IH]; [reflexivity|].
  cbn [flat_map]. now rewrite forallb_app, write_sat_deep, IH.
Qed.

Lemma write_gsv_extensions_deep (gsv : GSV.t) :
  forallb deep_line (GPXWriter.write_gsv_extensions gsv) = true.
Proof.
  unfold GPXWriter.write_gsv_extensions.
  destruct (GSV.sat_data gsv) as [|sat sats]; [reflexivity|].
  rewrite !forallb_app, write_sats_deep. reflexivity.
Qed.

Lemma extensions_assoc {A : Type} (o : A) (a b c d e f z : list A) :
  ([o] ++ a ++ b ++ c ++ d ++ e ++ f ++ z
   = o :: (a ++ b ++ c ++ d ++ e ++ f) ++ z)%list.
Proof. rewrite <- !app_assoc. reflexivity. Qed.

(** The extensions of a point: the opening line, lines indented by ten
    spaces at least, and the two closing lines. *)
Lemma write_extensions_shape (p : PointData.t) :
  exists deep,
    GPXWriter.write_extensions p
    = ("        <extensions>"
       :: deep ++ ["        </extensions>"; "      </trkpt>"])%list
    /\ forallb deep_line deep = true.
Proof.
  unfold GPXWriter.write_extensions. cbv zeta.
  rewrite extensions_assoc.
  eexists. split; [reflexivity|].
  rewrite !forallb_app.
  assert (Hr : forallb deep_line
                 match PointData.rmc p with
                 | Some r => GPXWriter.write_rmc_extensions r
                 | None => []
                 end = true)
    by (destruct (PointData.rmc p);
        [apply write_rmc_extensions_deep | reflexivity]).
  assert (Hg : forallb deep_line
                 match PointData.gga p with
                 | Some g => GPXWriter.write_gga_extensions g
                 | None => []
                 end = true)
    by (destruct (PointData.gga p);
        [apply write_gga_extensions_deep | reflexivity]).
  assert (Ha : forallb deep_line
                 match PointData.gsa p with
                 | Some a => GPXWriter.write_gsa_extensions a
                 | None => []
                 end = true)
    by (destruct (PointData.gsa p);
        [apply write_gsa_extensions_deep | reflexivity]).
  assert (Hv : forallb deep_line
                 match PointData.vtg p with
                 | Some v => GPXWriter.write_vtg_extensions v
                 | None => []
                 end = true)
    by (destruct (PointData.vtg p);
        [apply write_vtg_extensions_deep | reflexivity]).
  assert (Hs : forallb deep_line
                 match PointData.gsv p with
                 | Some v => GPXWriter.write_gsv_extensions v
                 | None => []
                 end = true)
    by (destruct (PointData.gsv p);
        [apply write_gsv_extensions_deep | reflexivity]).
  rewrite Hr, Hg, Ha, Hv, Hs.
  line_cases.
Qed.

Lemma block_assoc {A : Type} (o x y z : A) (a b c d : list A) :
  ([o] ++ a ++ b ++ c ++ x :: d ++ [y; z]
   = o :: (a ++ b ++ c ++ x :: d ++ [y]) ++ [z])%list.
Proof.
  rewrite <- !app_assoc. cbn [app]. rewrite <- !app_assoc. reflexivity.
Qed.

Lemma add_trackpoint_shape (p : PointData.t) :
  match written_position p with
  | Some position => track_point_block (GPXWriter.add_trackpoint p) position
  | None => GPXWriter.add_trackpoint p = []
  end.
Proof.
  unfold written_position, GPXWriter.add_trackpoint.
  destruct (GPXWriter.position p) as [pos|]; [|reflexivity].
  destruct (GPXWriter.latitude pos) as [lat|]; [|reflexivity].
  destruct (GPXWriter.longitude pos) as [lon|]; [|reflexivity].
  destruct (write_extensions_shape p) as (deep & -> & Hd).
  apply (forallb_weaken _ _ _ deep_line_inner) in Hd.
  unfold track_point_block. cbn [fst snd].
  rewrite block_assoc. eexists. split; [reflexivity|].
  rewrite !forallb_app. cbn [forallb]. rewrite forallb_app, Hd.
  destruct (GPXWriter.time pos); line_cases.
Qed.

(** X9: What [add_trackpoint] writes for a list of points is one block per
    point that has a latitude and a longitude, in order, and nothing for the
    other points.  A block is the opening line with the coordinates of the
    point, lines that are all indented by eight spaces at least, and the
    closing line: the blocks are never nested nor left open. *)
Theorem add_trackpoints_blocks (points : list PointData.t) :
  exists blocks,
    GPXWriter.add_trackpoints points = List.concat blocks
    /\ Forall2 track_point_block blocks (written_positions points).
Proof.
  induction points as [|p rest (blocks & Hc & Hb)].
  - exists []. split; [reflexivity | constructor].
  - unfold GPXWriter.add_trackpoints, written_positions in *.
    cbn [flat_map]. pose proof (add_trackpoint_shape p) as Hp.
    destruct (written_position p) as [position|].
    + exists (GPXWriter.add_trackpoint p :: blocks). split.
      * cbn [List.concat]. now rewrite Hc.
      * now constructor.
    + exists blocks. split; [now rewrite Hp, Hc | exact Hb].
Qed.

(** The only line of a track point that starts as a time element is the
    one written for the time of the position. *)
Lemma add_trackpoint_time_line (p : PointData.t) (line : string) :
  In line (GPXWriter.add_trackpoint p) ->
  time_line line = true ->
  exists pos ts,
    GPXWriter.position p = Some pos
    /\ GPXWriter.time pos = Some ts
    /\ line = GPXWriter.tag "        " "time" (datetime.strftime ts).
Proof.
  unfold GPXWriter.add_trackpoint.
  destruct (GPXWriter.position p) as [pos|]; [|intros []].
  destruct (GPXWriter.latitude pos) as [lat|]; [|intros []].
  destruct (GPXWriter.longitude pos) as [lon|]; [|intros []].
  destruct (write_extensions_shape p) as (deep & -> & Hd).
  intros Hin Ht. exists pos.
  apply in_app_or in Hin as [[<-|[]]|Hin]; [discriminate|].
  apply in_app_or in Hin as [Hin|Hin].
  { destruct (is_some _); [|destruct Hin].
    destruct Hin as [<-|[]]. discriminate. }
  apply in_app_or in Hin as [Hin|Hin].
  { destruct (GPXWriter.time pos) as [ts|]; [|destruct Hin].
    destruct Hin as [<-|[]]. now exists ts. }
  apply in_app_or in Hin as [Hin|Hin].
  { destruct (GPXWriter.nonzero_int _); [|destruct Hin].
    destruct Hin as [<-|[]]. discriminate. }
  destruct Hin as [<-|Hin]; [discriminate|].
  apply in_app_or in Hin as [Hin|[<-|[<-|[]]]]; try discriminate.
  rewrite forallb_forall in Hd.
  apply Hd, deep_line_not_time in Hin. congruence.
Qed.

(** ** The pipeline of [process_files] *)

Lemma parse_Ok_decode (line : string) (strict : bool) (s : NMEASentence) :
  snd (parse line strict) = Ok s ->
  exists sentence checksum, snd (decode sentence checksum strict) = Ok s.
Proof.
  unfold parse. destruct (negb _); [discriminate|].
  destruct (verify_checksum line) as [l [[sentence checksum]|e]].
  - rewrite (bind_Ok _ _ _ _ eq_refl). cbn [fst snd].
    destruct (decode sentence checksum strict) as [l' [a|e]] eqn:E.
    + intros H. cbn in H. injection H as <-.
      exists sentence, checksum. now rewrite E.
    + intros H. cbn in H. destruct e; discriminate.
  - intros H. cbn in H. destruct e; discriminate.
Qed.

Lemma yielded_decoded (lines : list string) (strict : bool)
    (s : NMEASentence) :
  In s (yielded (parse_nmea_stream lines strict)) ->
  exists sentence checksum, snd (decode sentence checksum strict) = Ok s.
Proof.
  induction lines as [|line rest IH]; [intros []|].
  rewrite parse_nmea_stream_cons. cbn [yielded].
  intros H. apply in_app_or in H as [H|H]; [|exact (IH H)].
  apply stream_line_yielded in H as [_ Hp].
  exact (parse_Ok_decode _ _ _ Hp).
Qed.

Lemma yielded_acceptable (lines : list string) (strict : bool)
    (s : NMEASentence) :
  In s (yielded (parse_nmea_stream lines strict)) ->
  acceptable strict (coordinates s).
Proof.
  intros H. apply yielded_decoded in H as (sentence & checksum & Hd).
  exact (decode_acceptable _ _ _ _ Hd).
Qed.

Lemma same_rmc_coordinates (r' : RMC.t datetime.stamp)
    (r : RMC.t datetime.time) :
  same_rmc r' r ->
  RMC.latitude r' = RMC.latitude r /\ RMC.longitude r' = RMC.longitude r.
Proof.
  intros [H _]. split.
  - exact (f_equal (@RMC.latitude unit) H).
  - exact (f_equal (@RMC.longitude unit) H).
Qed.

Lemma same_gga_coordinates (g' : GGA.t datetime.stamp)
    (g : GGA.t datetime.time) :
  same_gga g' g ->
  GGA.latitude g' = GGA.latitude g /\ GGA.longitude g' = GGA.longitude g.
Proof.
  intros [H _]. split.
  - exact (f_equal (@GGA.latitude unit) H).
  - exact (f_equal (@GGA.longitude unit) H).
Qed.

Lemma acceptable_on_globe (strict : bool) (lat lon : float) :
  acceptable strict (Some lat, Some lon) -> on_globe strict lat lon.
Proof.
  intros (Hlat & Hlon & Hz). split; [|split].
  - now apply Hlat.
  - now apply Hlon.
  - intros Hs. now apply Hz.
Qed.

Lemma point_on_globe (input : list NMEASentence) (strict : bool)
    (p : PointData.t) (lat lon : float) :
  (forall s, In s input -> acceptable strict (coordinates s)) ->
  from_input input p ->
  written_position p = Some (lat, lon) ->
  on_globe strict lat lon.
Proof.
  intros Hacc (Hr & Hg & _) Hw.
  unfold written_position, GPXWriter.position in Hw.
  destruct (PointData.rmc p) as [r'|].
  - destruct (Hr r' eq_refl) as (r & Hin & Hsame).
    apply same_rmc_coordinates in Hsame as [Elat Elon].
    cbn in Hw. rewrite Elat, Elon in Hw.
    specialize (Hacc _ Hin). cbn [coordinates] in Hacc.
    destruct (RMC.latitude r), (RMC.longitude r); try discriminate.
    injection Hw as <- <-. now apply acceptable_on_globe.
  - destruct (PointData.gga p) as [g'|]; [|discriminate].
    destruct (Hg g' eq_refl) as (g & Hin & Hsame).
    apply same_gga_coordinates in Hsame as [Elat Elon].
    cbn in Hw. rewrite Elat, Elon in Hw.
    specialize (Hacc _ Hin). cbn [coordinates] in Hacc.
    destruct (GGA.latitude g), (GGA.longitude g); try discriminate.
    injection Hw as <- <-. now apply acceptable_on_globe.
Qed.

(** X10: Whatever the lines of the input file, every line of the output that
    opens a track point carries a position on the globe: a latitude in
    [-90, 90] and a longitude in [-180, 180], both numbers, and in strict
    mode a pair that is neither exactly zero nor near zero. *)
Theorem process_file_on_globe (lines : list string) (strict : bool)
    (line : string) :
  In line (process_file lines strict) ->
  opens_track_point line = true ->
  exists lat lon,
    line = GPXWriter.trkpt_open lat lon /\ on_globe strict lat lon.
Proof.
  unfold process_file, GPXWriter.add_trackpoints. intros Hin Hopen.
  apply in_flat_map in Hin as (p & Hp & Hin).
  pose proof (group_points_from_input
                (yielded (parse_nmea_stream lines strict))
                (yielded (parse_nmea_stream lines strict))
                default_time_window (incl_refl _)) as Hfrom.
  rewrite Forall_forall in Hfrom. specialize (Hfrom p Hp).
  pose proof (add_trackpoint_shape p) as Hshape.
  destruct (written_position p) as [[lat lon]|] eqn:Hw;
    [|rewrite Hshape in Hin; destruct Hin].
  destruct Hshape as (body & Hb & Hinner). rewrite Hb in Hin.
  cbn [fst snd] in Hin. destruct Hin as [<-|Hin].
  - exists lat, lon. split; [reflexivity|].
    apply (point_on_globe (yielded (parse_nmea_stream lines strict))
             strict p); [|exact Hfrom|exact Hw].
    intros s. apply yielded_acceptable.
  - apply in_app_or in Hin as [Hin|[<-|[]]].
    + rewrite forallb_forall in Hinner.
      apply Hinner, inner_line_not_open in Hin. congruence.
    + discriminate.
Qed.

Lemma process_file_on_globe_witness :
  exists lat lon,
    hd EmptyString (process_file gps_valid_data false)
    = GPXWriter.trkpt_open lat lon
    /\ on_globe false lat lon.
Proof.
  apply (process_file_on_globe gps_valid_data false
           (hd EmptyString (process_file gps_valid_data false))).
  - vm_compute. left. reflexivity.
  - vm_compute. reflexivity.
Defined.

(** ** Times of day *)

Lemma new_time_whole (h m s : Z) (t : datetime.time) :
  datetime.new_time h m s = Ok t -> whole_second t.
Proof.
  unfold datetime.new_time, whole_second.
  destruct (_ && _) eqn:E; [|discriminate].
  intros H. injection H as <-. cbn.
  repeat (apply andb_true_iff in E as [E ?]). lia.
Qed.

Lemma parse_time_whole (x : string) (t : datetime.time) :
  parse_time x = Ok (Some t) -> whole_second t.
Proof.
  unfold parse_time.
  destruct (let? hour := _ in _) as [t'|e] eqn:E; cbn.
  - intros H. injection H as <-.
    do 3 (apply rbind_Ok_inv in E as (? & _ & E)).
    exact (new_time_whole _ _ _ _ E).
  - destruct e; discriminate.
Qed.

Lemma time_block_whole (x0 : string) (o : option datetime.time) :
  (if PyStr.truthy x0 then parse_time x0 else Ok None) = Ok o ->
  forall t, o = Some t -> whole_second t.
Proof.
  intros H t ->. destruct (PyStr.truthy x0); [|discriminate].
  exact (parse_time_whole _ _ H).
Qed.

Lemma RMC_init_time (talker : string) (sentence : list string)
    (checksum sentence_type : string) (strict : bool)
    (r : RMC.t datetime.time) :
  snd (RMC.init talker sentence checksum sentence_type strict) = Ok r ->
  forall t, RMC.time r = Some t -> whole_second t.
Proof.
  unfold RMC.init. cbv zeta. intros H.
  do 9 invert_bind H. cbn in H. injection H as <-.
  cbn [RMC.time]. exact (time_block_whole _ _ E0).
Qed.

Lemma GGA_init_time (talker : string) (sentence : list string)
    (checksum sentence_type : string) (strict : bool)
    (g : GGA.t datetime.time) :
  snd (GGA.init talker sentence checksum sentence_type strict) = Ok g ->
  forall t, GGA.time g = Some t -> whole_second t.
Proof.
  unfold GGA.init. cbv zeta. intros H.
  do 2 invert_bind H.
  intros t Ht.
  assert (Hw : forall t, v0 = Some t -> whole_second t)
    by exact (time_block_whole _ _ E0).
  clear E0. revert Ht.
  repeat (first [ invert_bind H
                | match type of H with
                  | snd (if ?b then _ else _) = _ => destruct b
                  end ]).
  all: cbn in H; injection H as <-; cbn [GGA.time]; apply Hw.
Qed.

Lemma decode_time (sentence checksum : string) (strict : bool)
    (s : NMEASentence) :
  snd (decode sentence checksum strict) = Ok s ->
  forall t, msg_time_of s = Some t -> whole_second t.
Proof.
  unfold decode. cbv zeta. intros H.
  invert_bind H.
  destruct (_ <? _)%nat; [discriminate|].
  repeat match type of H with
         | snd (if ?b then _ else _) = _ => destruct b
         end;
    try (invert_bind H; cbn in H; injection H as <-; cbn [msg_time_of]).
  - exact (RMC_init_time _ _ _ _ _ _ E0).
  - exact (GGA_init_time _ _ _ _ _ _ E0).
  - discriminate.
  - discriminate.
  - discriminate.
  - cbn in H. injection H as <-. discriminate.
Qed.

Lemma yielded_time (lines : list string) (strict : bool) (s : NMEASentence) :
  In s (yielded (parse_nmea_stream lines strict)) ->
  forall t, msg_time_of s = Some t -> whole_second t.
Proof.
  intros H. apply yielded_decoded in H as (sentence & checksum & Hd).
  exact (decode_time _ _ _ _ Hd).
Qed.

Lemma point_time (input : list NMEASentence) (p : PointData.t)
    (pos : GPXWriter.pos) (ts : datetime.stamp) :
  (forall s, In s input ->
             forall t, msg_time_of s = Some t -> whole_second t) ->
  from_input input p ->
  GPXWriter.position p = Some pos ->
  GPXWriter.time pos = Some ts ->
  whole_second (clock_of ts).
Proof.
  intros Hall (Hr & Hg & _) Hpos Hts. unfold GPXWriter.position in Hpos.
  destruct (PointData.rmc p) as [r'|].
  - injection Hpos as <-. cbn in Hts.
    destruct (Hr r' eq_refl) as (r & Hin & _ & Hclock).
    rewrite Hts in Hclock. cbn in Hclock.
    apply (Hall (Rmc r) Hin). cbn [msg_time_of]. now symmetry.
  - destruct (PointData.gga p) as [g'|]; [|discriminate].
    injection Hpos as <-. cbn in Hts.
    destruct (Hg g' eq_refl) as (g & Hin & _ & Hclock).
    rewrite Hts in Hclock. cbn in Hclock.
    apply (Hall (Gga g) Hin). cbn [msg_time_of]. now symmetry.
Qed.

Lemma clock_whole (t : datetime.time) :
  datetime.microsecond t = 0 ->
  datetime.clock t
  = (datetime.two (datetime.hour t) ++ ":" ++ datetime.two (datetime.minute t)
     ++ ":" ++ datetime.two (datetime.second t)) ++ ".000000Z".
Proof.
  intros H. unfold datetime.clock. rewrite H.
  change (PyStr.pad_zero 6 (PyStr.digits 0)) with "000000".
  rewrite !app_assoc_string. reflexivity.
Qed.

Lemma strftime_whole (ts : datetime.stamp) :
  datetime.microsecond (clock_of ts) = 0 ->
  exists front, datetime.strftime ts = front ++ ".000000Z".
Proof.
  destruct ts as [t|d t]; cbn [clock_of]; intros H;
    unfold datetime.strftime; rewrite (clock_whole t H);
    rewrite <- app_assoc_string; eexists; reflexivity.
Qed.

(** X11: Whatever the lines of the input file, every time element of the output
    is written to the whole second: the fraction of a second of the time
    field is dropped by the decoders, and the six digits written for the
    microseconds are always zeros. *)
Theorem process_file_whole_seconds (lines : list string) (strict : bool)
    (line : string) :
  In line (process_file lines strict) ->
  time_line line = true ->
  exists front, line = "        <time>" ++ front ++ ".000000Z</time>".
Proof.
  unfold process_file, GPXWriter.add_trackpoints. intros Hin Htime.
  apply in_flat_map in Hin as (p & Hp & Hin).
  pose proof (group_points_from_input
                (yielded (parse_nmea_stream lines strict))
                (yielded (parse_nmea_stream lines strict))
                default_time_window (incl_refl _)) as Hfrom.
  rewrite Forall_forall in Hfrom. specialize (Hfrom p Hp).
  destruct (add_trackpoint_time_line p line Hin Htime)
    as (pos & ts & Hpos & Hts & ->).
  assert (Hw : whole_second (clock_of ts)).
  { apply (point_time (yielded (parse_nmea_stream lines strict)) p pos ts);
      try assumption.
    intros s. apply yielded_time. }
  destruct Hw as (_ & _ & _ & Hmicro).
  destruct (strftime_whole ts Hmicro) as (front & ->).
  exists front. unfold GPXWriter.tag. cbn [String.append].
  now rewrite app_assoc_string.
Qed.

Lemma process_file_whole_seconds_witness :
  exists front,
    nth 2 (process_file gps_valid_data false) EmptyString
    = "        <time>" ++ front ++ ".000000Z</time>".
Proof.
  apply (process_file_whole_seconds gps_valid_data false
           (nth 2 (process_file gps_valid_data false) EmptyString)).
  - vm_compute. right. right. left. reflexivity.
  - vm_compute. reflexivity.
Defined.

(** ** Satellites in view *)

Lemma collect_sat_data_bound (sentence : list string) (blocks : list nat)
    (sats : list GSVSatellite) :
  GSV.collect_sat_data sentence blocks = Ok sats ->
  (List.length sats <= List.length blocks)%nat
  /\ Forall (fun sat => is_some (prn sat) = true) sats.
Proof.
  revert sats. induction blocks as [|i rest IH]; intros sats H.
  - injection H as <-. split; [apply Nat.le_refl | constructor].
  - cbn [GSV.collect_sat_data] in H. cbv zeta in H.
    assert (Hskip : GSV.collect_sat_data sentence rest = Ok sats ->
                    (List.length sats <= List.length (i :: rest))%nat
                    /\ Forall (fun sat => is_some (prn sat) = true) sats).
    { intros H'. destruct (IH _ H') as [Hl Hp]. split; [cbn; lia | exact Hp]. }
    destruct (len_gt sentence _); [|exact (Hskip H)].
    apply rbind_Ok_inv in H as (x & _ & H).
    destruct (PyStr.truthy x); [|exact (Hskip H)].
    do 5 (apply rbind_Ok_inv in H as (? & ? & H)).
    injection H as <-.
    match goal with
    | E : GSV.collect_sat_data sentence rest = Ok _ |- _ =>
        destruct (IH _ E) as [Hl Hp]
    end.
    split; [cbn; lia | constructor; [reflexivity | exact Hp]].
Qed.

(** X12: A decoded GSV holds at most four satellites, each with its PRN: the
    limit to the first four satellites in [_write_gsv_extensions] drops
    nothing, and every satellite element written has a PRN that is a
    number. *)
Theorem GSV_satellites (talker : string) (sentence : list string)
    (checksum sentence_type : string) (g : GSV.t) :
  GSV.init talker sentence checksum sentence_type = Ok g ->
  (List.length (GSV.sat_data g) <= 4)%nat
  /\ Forall (fun sat => is_some (prn sat) = true) (GSV.sat_data g)
  /\ GPXWriter.write_gsv_extensions g
     = match GSV.sat_data g with
       | [] => []
       | sats => (["          <nmea:satellites>"]
                  ++ flat_map GPXWriter.write_sat sats
                  ++ ["          </nmea:satellites>"])%list
       end.
Proof.
  unfold GSV.init. cbv zeta. intros H.
  do 7 (apply rbind_Ok_inv in H as (? & ? & H)).
  injection H as <-. cbn [GSV.sat_data].
  match goal with
  | E : GSV.collect_sat_data _ _ = Ok _ |- _ =>
      destruct (collect_sat_data_bound _ _ _ E) as [Hl Hp]
  end.
  cbn [List.length seq] in Hl.
  split; [exact Hl|]. split; [exact Hp|].
  unfold GPXWriter.write_gsv_extensions. cbn [GSV.sat_data].
  match goal with
  | _ : Forall _ ?l |- _ =>
      destruct l as [|sat sats]; [reflexivity|];
      now rewrite firstn_all2
  end.
Qed.

Lemma GSV_satellites_witness :
  exists g,
    GSV.init "GP" ["3"; "1"; "11"; "03"; "03"; "111"; "00"; "04"; "15"; "270";
                   "00"; "06"; "01"; "010"; "00"; "13"; "06"; "292"; "00"]
             "74" "GSV" = Ok g
    /\ (List.length (GSV.sat_data g) <= 4)%nat.
Proof.
  destruct (GSV.init "GP" ["3"; "1"; "11"; "03"; "03"; "111"; "00"; "04"; "15";
                           "270"; "00"; "06"; "01"; "010"; "00"; "13"; "06";
                           "292"; "00"] "74" "GSV") as [g|e] eqn:E;
    [|vm_compute in E; discriminate].
  exists g. split; [reflexivity|].
  exact (proj1 (GSV_satellites _ _ _ _ g E)).
Defined.

(** ** The raw output *)

Lemma binary_lines_ok (content : string) :
  lines_ok (binary_lines content) = true.
Proof.
  induction content as [|c r IH]; [reflexivity|].
  cbn [binary_lines]. destruct (Ascii.eqb c LF) eqn:Ec.
  - cbn [lines_ok PyStr.truthy PyStr.is_empty negb no_inner_LF terminated
         orb andb].
    rewrite IH, andb_true_r.
    destruct (binary_lines r); [reflexivity | exact Ec].
  - destruct (binary_lines r) as [|l ls].
    + reflexivity.
    + cbn [lines_ok] in *.
      repeat (apply andb_true_iff in IH as [IH ?]).
      destruct l as [|a l]; [discriminate|].
      cbn [PyStr.truthy PyStr.is_empty negb no_inner_LF terminated orb andb]
        in *.
      rewrite Ec. cbn [negb andb].
      match goal with
      | H1 : _ && no_inner_LF l = true, H0 : match ls with _ => _ end = true,
        H : lines_ok ls = true |- _ => now rewrite H1, H0, H
      end.
Qed.

Lemma binary_lines_one (l : string) :
  PyStr.truthy l = true -> no_inner_LF l = true -> binary_lines l = [l].
Proof.
  induction l as [|c r IH]; [discriminate|]. intros _ H.
  cbn [no_inner_LF] in H. apply andb_true_iff in H as [Hc Hr].
  cbn [binary_lines]. destruct r as [|a r].
  - now destruct (Ascii.eqb c LF).
  - cbn [PyStr.is_empty orb] in Hc. apply negb_true_iff in Hc. rewrite Hc.
    now rewrite (IH eq_refl Hr).
Qed.

Lemma binary_lines_app (l rest : string) :
  PyStr.truthy l = true -> no_inner_LF l = true -> terminated l = true ->
  binary_lines (l ++ rest) = l :: binary_lines rest.
Proof.
  induction l as [|c r IH]; [discriminate|]. intros _ H Ht.
  cbn [no_inner_LF] in H. apply andb_true_iff in H as [Hc Hr].
  cbn [terminated] in Ht. cbn [String.append binary_lines].
  destruct r as [|a r].
  - cbn [PyStr.is_empty] in Ht. now rewrite Ht.
  - cbn [PyStr.is_empty orb] in Hc, Ht. apply negb_true_iff in Hc.
    rewrite Hc. now rewrite (IH eq_refl Hr Ht).
Qed.

Lemma append_empty (s : string) : s ++ EmptyString = s.
Proof. induction s as [|c s IH]; [reflexivity|]. cbn. now rewrite IH. Qed.

(** Reading back the lines of a file written line by line. *)
Lemma binary_lines_written (ls : list string) :
  lines_ok ls = true ->
  binary_lines (fold_right String.append EmptyString ls) = ls.
Proof.
  induction ls as [|l rest IH]; [reflexivity|].
  cbn [lines_ok fold_right]. intros H.
  repeat (apply andb_true_iff in H as [H ?]).
  destruct rest as [|l' rest'].
  - cbn [fold_right]. rewrite append_empty. now apply binary_lines_one.
  - rewrite binary_lines_app by assumption. now rewrite IH.
Qed.

Lemma remove_NUL_no_inner_LF (l : string) :
  no_inner_LF l = true -> no_inner_LF (PyStr.remove_char PyStr.NUL l) = true.
Proof.
  induction l as [|c r IH]; [reflexivity|].
  cbn [no_inner_LF PyStr.remove_char]. intros H.
  apply andb_true_iff in H as [Hc Hr].
  destruct (Ascii.eqb c PyStr.NUL); [now apply IH|].
  cbn [no_inner_LF]. rewrite (IH Hr), andb_true_r.
  destruct r as [|a r]; [reflexivity|].
  cbn [PyStr.is_empty orb] in Hc. rewrite Hc. apply orb_true_r.
Qed.

Lemma remove_NUL_terminated (l : string) :
  no_inner_LF l = true ->
  terminated (PyStr.remove_char PyStr.NUL l) = terminated l.
Proof.
  induction l as [|c r IH]; [reflexivity|].
  cbn [no_inner_LF PyStr.remove_char terminated]. intros H.
  apply andb_true_iff in H as [Hc Hr]. specialize (IH Hr).
  destruct (Ascii.eqb c PyStr.NUL) eqn:En.
  - rewrite IH. destruct r as [|a r]; [|reflexivity].
    apply Ascii.eqb_eq in En. now subst c.
  - cbn [terminated]. destruct r as [|a r]; [reflexivity|].
    cbn [PyStr.is_empty orb] in Hc. apply negb_true_iff in Hc.
    remember (PyStr.remove_char PyStr.NUL (String a r)) as cleaned eqn:E.
    destruct cleaned as [|b cleaned]; cbn [PyStr.is_empty]; [|exact IH].
    now rewrite Hc, <- IH.
Qed.

Lemma bytes_strip_truthy (s : string) :
  PyStr.truthy (PyBytes.strip s) = true -> PyStr.truthy s = true.
Proof. now destruct s. Qed.

Lemma raw_lines_ok (ls : list string) :
  lines_ok ls = true -> lines_ok (flat_map raw_line ls) = true.
Proof.
  induction ls as [|l rest IH]; [reflexivity|].
  cbn [lines_ok flat_map]. intros H.
  repeat (apply andb_true_iff in H as [H ?]).
  specialize (IH ltac:(assumption)).
  unfold raw_line at 1. cbv zeta.
  destruct (PyStr.truthy (PyBytes.strip _)) eqn:Ek; [|exact IH].
  cbn [app lines_ok]. rewrite IH, andb_true_r.
  rewrite (bytes_strip_truthy _ Ek), remove_NUL_no_inner_LF by assumption.
  cbn [andb].
  destruct (flat_map raw_line rest) eqn:Er; [reflexivity|].
  rewrite remove_NUL_terminated by assumption.
  destruct rest; [discriminate | assumption].
Qed.

Lemma contains_fold (c : ascii) (ls : list string) :
  Forall (fun l => PyStr.contains c l = false) ls ->
  PyStr.contains c (fold_right String.append EmptyString ls) = false.
Proof.
  induction 1 as [|l ls Hl _ IH]; [reflexivity|].
  cbn [fold_right]. now rewrite contains_app, Hl, IH.
Qed.

Lemma contains_removed (c : ascii) (s : string) :
  PyStr.contains c (PyStr.remove_char c s) = false.
Proof.
  induction s as [|a s IH]; [reflexivity|].
  cbn [PyStr.remove_char]. destruct (Ascii.eqb a c) eqn:E; [exact IH|].
  cbn [PyStr.contains]. now rewrite E, IH.
Qed.

Lemma remove_absent (c : ascii) (s : string) :
  PyStr.contains c s = false -> PyStr.remove_char c s = s.
Proof.
  induction s as [|a s IH]; [reflexivity|].
  cbn [PyStr.contains PyStr.remove_char]. intros H.
  apply orb_false_iff in H as [Ha Hs]. now rewrite Ha, (IH Hs).
Qed.

Lemma raw_line_clean (l : string) :
  Forall (fun w => PyStr.contains PyStr.NUL w = false /\ raw_line w = [w])
         (raw_line l).
Proof.
  unfold raw_line at 2. cbv zeta.
  destruct (PyStr.truthy (PyBytes.strip _)) eqn:Ek; constructor; [|constructor].
  split; [apply contains_removed|].
  unfold raw_line. cbv zeta. now rewrite remove_char_idempotent, Ek.
Qed.

Lemma raw_file_clean (file : option string) :
  Forall (fun w => PyStr.contains PyStr.NUL w = false /\ raw_line w = [w])
         (raw_file file).
Proof.
  destruct file as [content|]; [|constructor]. cbn [raw_file].
  induction (binary_lines content) as [|l ls IH]; [constructor|].
  cbn [flat_map]. apply Forall_app. split; [apply raw_line_clean | exact IH].
Qed.

Lemma flat_map_fixed {A : Type} (f : A -> list A) (l : list A) :
  Forall (fun x => f x = [x]) l -> flat_map f l = l.
Proof.
  induction 1 as [|x l Hx _ IH]; [reflexivity|].
  cbn [flat_map]. now rewrite Hx, IH.
Qed.

(** X13: The raw output holds no null byte, whatever the input files.  For one
    input file it is a fixed point of the cleaning: read back as an input
    file, the raw output is written again byte for byte. *)
Theorem raw_output_clean (files : list (option string)) (content : string) :
  PyStr.contains PyStr.NUL (raw_output files) = false
  /\ raw_output [Some (raw_output [Some content])] = raw_output [Some content].
Proof.
  split.
  - unfold raw_output. apply contains_fold.
    induction files as [|file rest IH]; [constructor|].
    cbn [flat_map]. apply Forall_app. split; [|exact IH].
    eapply Forall_impl; [|apply raw_file_clean]. now intros w [H _].
  - unfold raw_output. cbn [flat_map raw_file]. rewrite !app_nil_r.
    rewrite binary_lines_written
      by apply raw_lines_ok, binary_lines_ok.
    f_equal. apply flat_map_fixed.
    eapply Forall_impl; [|apply (raw_file_clean (Some content))].
    now intros w [_ H].
Qed.

Lemma decode_remove_NUL (s : string) :
  decode_ascii_ignore (PyStr.remove_char PyStr.NUL s)
  = PyStr.remove_char PyStr.NUL (decode_ascii_ignore s).
Proof.
  induction s as [|c s IH]; [reflexivity|].
  cbn [PyStr.remove_char decode_ascii_ignore].
  destruct (Ascii.eqb c PyStr.NUL) eqn:En.
  - apply Ascii.eqb_eq in En. subst c.
    change (PyStr.code PyStr.NUL <? 128) with true. cbv iota.
    cbn [PyStr.remove_char]. change (Ascii.eqb PyStr.NUL PyStr.NUL) with true.
    exact IH.
  - cbn [decode_ascii_ignore]. destruct (PyStr.code c <? 128); [|exact IH].
    cbn [PyStr.remove_char]. now rewrite En, IH.
Qed.

Lemma space_not_NUL (c : ascii) :
  PyStr.is_space c = true -> Ascii.eqb c PyStr.NUL = false.
Proof.
  destruct (Ascii.eqb c PyStr.NUL) eqn:E; [|reflexivity].
  apply Ascii.eqb_eq in E. subst c. discriminate.
Qed.

(** Null bytes at the end of a string do not protect the whitespace before
    them from [rstrip] once they are removed. *)
Lemma rstrip_remove_NUL (s : string) :
  PyStr.rstrip (PyStr.remove_char PyStr.NUL (PyStr.rstrip s))
  = PyStr.rstrip (PyStr.remove_char PyStr.NUL s).
Proof.
  induction s as [|c s IH]; [reflexivity|].
  cbn [PyStr.rstrip]. cbv zeta.
  destruct (PyStr.is_space c && PyStr.is_empty (PyStr.rstrip s)) eqn:E.
  - apply andb_true_iff in E as [Hc He]. apply is_empty_true in He.
    rewrite He in IH. cbn [PyStr.remove_char PyStr.rstrip] in IH |- *.
    rewrite (space_not_NUL c Hc). cbn [PyStr.rstrip]. cbv zeta.
    now rewrite <- IH, Hc.
  - cbn [PyStr.remove_char]. destruct (Ascii.eqb c PyStr.NUL); [exact IH|].
    cbn [PyStr.rstrip]. cbv zeta. now rewrite IH.
Qed.

Lemma strip_dollar (s : string) :
  PyStr.strip (String "$" s) = String "$" (PyStr.rstrip s).
Proof.
  unfold PyStr.strip. cbn [PyStr.lstrip].
  change (PyStr.is_space "$") with false. cbv iota.
  cbn [PyStr.rstrip]. now change (PyStr.is_space "$") with false.
Qed.

Lemma stream_text_dollar (rest : string) :
  stream_text (String "$" rest)
  = String "$" (PyStr.remove_char PyStr.NUL
                  (PyStr.rstrip (decode_ascii_ignore rest))).
Proof.
  unfold stream_text. cbn [decode_ascii_ignore].
  change (PyStr.code "$" <? 128) with true. cbv iota.
  rewrite strip_dollar. cbn [PyStr.remove_char].
  now change (Ascii.eqb "$" PyStr.NUL) with false.
Qed.

(** [parse] depends on a line that starts with the marker only through
    the line with its null bytes removed and stripped. *)
Lemma parse_cleaned (a b : string) (strict : bool) :
  PyStr.strip (PyStr.remove_char PyStr.NUL (String "$" a))
  = PyStr.strip (PyStr.remove_char PyStr.NUL (String "$" b)) ->
  parse (String "$" a) strict = parse (String "$" b) strict.
Proof.
  intros H. unfold parse, verify_checksum. cbn [PyStr.startswith].
  now rewrite H.
Qed.

(** The stream treats a line that starts with the marker as it treats the
    line with its null bytes removed. *)
Lemma stream_line_cleaned (rest : string) (strict : bool) :
  stream_line (PyStr.remove_char PyStr.NUL (String "$" rest)) strict
  = stream_line (String "$" rest) strict.
Proof.
  cbn [PyStr.remove_char]. change (Ascii.eqb "$" PyStr.NUL) with false.
  cbv iota. unfold stream_line. cbv zeta.
  fold (stream_text (String "$" rest)).
  fold (stream_text (String "$" (PyStr.remove_char PyStr.NUL rest))).
  rewrite !stream_text_dollar, !strip_dollar, decode_remove_NUL.
  cbn [PyStr.startswith].
  rewrite (parse_cleaned
             (PyStr.remove_char PyStr.NUL
                (PyStr.rstrip
                   (PyStr.remove_char PyStr.NUL (decode_ascii_ignore rest))))
             (PyStr.remove_char PyStr.NUL
                (PyStr.rstrip (decode_ascii_ignore rest))) strict);
    [reflexivity|].
  cbn [PyStr.remove_char]. change (Ascii.eqb "$" PyStr.NUL) with false.
  cbv iota. rewrite !strip_dollar, !remove_char_idempotent.
  now rewrite !rstrip_remove_NUL, remove_char_idempotent.
Qed.

Lemma stream_skip (line : string) (rest : list string) (strict : bool) :
  PyStr.startswith "$" line = false ->
  parse_nmea_stream (line :: rest) strict = parse_nmea_stream rest strict.
Proof.
  intros H. rewrite parse_nmea_stream_cons. unfold stream_line. rewrite H.
  cbn [negb logged yielded app]. symmetry. apply stream_eta.
Qed.

Lemma raw_lines_stream (lines : list string) (strict : bool) :
  Forall (fun l => PyStr.startswith PyStr.NUL l = false) lines ->
  parse_nmea_stream (flat_map raw_line lines) strict
  = parse_nmea_stream lines strict.
Proof.
  induction 1 as [|l rest Hl _ IH]; [reflexivity|].
  cbn [flat_map]. destruct (PyStr.startswith "$" l) eqn:Hs.
  - destruct (startswith_inv _ _ Hs) as [x ->].
    unfold raw_line at 1. cbv zeta.
    replace (PyStr.truthy
               (PyBytes.strip (PyStr.remove_char PyStr.NUL (String "$" x))))
      with true by reflexivity.
    cbn [app]. now rewrite !parse_nmea_stream_cons, stream_line_cleaned, IH.
  - rewrite (stream_skip l rest strict Hs).
    unfold raw_line at 1. cbv zeta.
    destruct (PyStr.truthy (PyBytes.strip _)); [|exact IH].
    cbn [app]. rewrite stream_skip; [exact IH|].
    destruct l as [|c l]; [reflexivity|].
    cbn [PyStr.startswith] in Hl, Hs. cbn [PyStr.remove_char].
    rewrite Hl. exact Hs.
Qed.

(** X14: When no line of an input file starts with a null byte, the raw
    output written for the file decodes, line by line, to what the file
    decodes to: the same sentences are yielded and the same records are
    logged (the records keep no file name). *)
Theorem raw_output_round_trip (content : string) (strict : bool) :
  Forall (fun l => PyStr.startswith PyStr.NUL l = false)
         (binary_lines content) ->
  parse_nmea_stream (binary_lines (raw_output [Some content])) strict
  = parse_nmea_stream (binary_lines content) strict.
Proof.
  intros H. unfold raw_output. cbn [flat_map raw_file]. rewrite app_nil_r.
  rewrite binary_lines_written by apply raw_lines_ok, binary_lines_ok.
  now apply raw_lines_stream.
Qed.

Lemma raw_output_round_trip_witness :
  parse_nmea_stream (binary_lines (raw_output [Some padded_file])) false
  = parse_nmea_stream (binary_lines padded_file) false.
Proof.
  apply (raw_output_round_trip padded_file false).
  vm_compute. repeat (constructor; [reflexivity|]). constructor.
Defined.

(** The condition on the first byte of the lines is needed: a sentence
    behind a null byte is skipped in the input file and decoded in the raw
    output, where the null byte is gone. *)
Lemma raw_output_recovers_line :
  yielded (parse_nmea_stream
             (binary_lines (String PyStr.NUL "$GNRMC,,V,,,,,,,,,,N*4D")) false)
  = []
  /\ List.length
       (yielded (parse_nmea_stream
                   (binary_lines
                      (raw_output
                         [Some (String PyStr.NUL "$GNRMC,,V,,,,,,,,,,N*4D")]))
                   false))
     = 1%nat.
Proof. split; vm_compute; reflexivity. Qed.
